(** * Restaurant POS: orders, discounts, payments and cashier shifts

    A shallow embedding of the write paths of the back end
    ([backend/routes/orderRoutes.js], [backend/routes/paymentRoutes.js],
    [backend/routes/shiftRoutes.js]) over the PostgreSQL schema of
    [backend/init.sql].  The two versions of [paymentRoutes.js], without
    and with the role middleware, are the ones listed after the schema in
    [src/backend/init.sql]; line numbers of the payment handlers refer to
    that listing.  Authentication and role checks ([auth], [authorize])
    happen before a handler runs and are not part of it.

    Conventions of the embedding.
    - A table is the list of its rows, in insertion order.
    - A [DECIMAL(10,2)] column holds an integer number of hundredths
      (type [Z]); a JavaScript number or an untyped SQL [numeric] is an exact
      rational (type [Q]).  Assigning a rational to a [DECIMAL(10,2)] column
      rounds it to two decimals, ties away from zero, and raises when the
      result needs more than ten digits.  The binary floating point error of
      JavaScript arithmetic is not represented: arithmetic is exact.  On
      unit prices with at most two decimals the sums, the products by a
      quantity and the differences the handlers compute are stored as
      the same hundredths either way; a percentage of a total can be stored
      one hundredth apart when the exact result is a rounding tie (10 % of
      1.15), and so can a sum of prices with more decimals (3 times 0.075).
    - The keys stored are within the range of [INTEGER].  A number of a
      request body outside that range is refused where it is bound to a
      parameter ([quantity], [discount_id], the [cashier_id] of a new
      order); where it is looked up as a key it names no row, and fails as
      an unknown key does.
    - A string is the sequence of the bytes of its UTF-8 encoding, of which
      [VARCHAR(n)] counts the characters; it does not hold the character
      U+0000, which PostgreSQL takes in no parameter.
    - Timestamps that are only written ([created_at], [updated_at],
      [order_date], [payment_date], [shift_start], [applied_at]) and the
      serial keys that are never read back ([order_item_id], [payment_id],
      [order_discount_id]) are left out of the rows.
    - A request handler is a function from the committed database to the
      new committed database and the HTTP response.  Handlers run one after
      the other; a transaction that raises is rolled back to the rows
      it started from; a value taken from a sequence is not given back. *)

From Stdlib Require Import ZArith QArith Qround List String Ascii Bool Lia Lqa.
Import ListNotations.
Open Scope Z_scope.

(** ** Results of statements inside a handler *)

Inductive error : Type :=
| check_violation      (* a CHECK constraint rejects the row *)
| foreign_key_violation
| numeric_overflow     (* numeric field overflow on DECIMAL(p,2) *)
| integer_out_of_range (* value out of range for type integer *)
| value_too_long       (* value too long for VARCHAR(n) *)
| thrown (msg : string). (* a JavaScript exception *)

Inductive result (A : Type) : Type :=
| Ok (a : A)
| Err (e : error).
Arguments Ok {A} a.
Arguments Err {A} e.

Definition bind {A B : Type} (r : result A) (k : A -> result B) : result B :=
  match r with
  | Ok a => k a
  | Err e => Err e
  end.

Notation "x <- r ;; k" := (bind r (fun x => k))
  (at level 61, r at next level, right associativity).
Notation "r ;;; k" := (bind r (fun _ => k))
  (at level 61, right associativity).

Definition guard (b : bool) (e : error) : result unit :=
  if b then Ok tt else Err e.

(** ** Money *)

Module Money.

(** Rounding of a [numeric] to an integer, ties away from zero. *)
Definition numeric_round (q : Q) : Z :=
  if Qle_bool 0 q then Qfloor (q + (1 # 2)) else - Qfloor (- q + (1 # 2)).

(** The number of hundredths a value is rounded to by a scale-2 column. *)
Definition to_cents (q : Q) : Z := numeric_round (q * 100).

(** The value of a scale-2 column as the number the driver hands back
    (a decimal string, which [parseFloat] and the arithmetic operators of
    JavaScript turn into a number). *)
Definition of_cents (c : Z) : Q := inject_Z c / 100.

(** Assignment to a [DECIMAL(10,2)] column. *)
Definition decimal_10_2 (q : Q) : result Z :=
  let c := to_cents q in
  if Z.abs c <? 10 ^ 10 then Ok c else Err numeric_overflow.

(** [round2] of the specification: a value rounded to the minor unit. *)
Definition round2 (q : Q) : Q := of_cents (to_cents q).

End Money.
Import Money.

(** ** Strings *)

Definition lower_ascii (c : ascii) : ascii :=
  let n := nat_of_ascii c in
  if andb (Nat.leb 65 n) (Nat.leb n 90) then ascii_of_nat (n + 32) else c.

(** [String.prototype.toLowerCase].  Only the letters A-Z are mapped; the
    result is compared with the ASCII word 'cash' alone, and no character
    outside A-Z lowers to one of its letters. *)
Fixpoint toLowerCase (s : string) : string :=
  match s with
  | EmptyString => EmptyString
  | String c s' => String (lower_ascii c) (toLowerCase s')
  end.

(** A string is the sequence of the bytes of its UTF-8 encoding, which is
    what the driver sends.  The bytes [10xxxxxx] continue a character. *)
Definition continues (c : ascii) : bool :=
  match c with
  | Ascii _ _ _ _ _ _ false true => true
  | _ => false
  end.

(** The first [n] characters of a string, and the bytes after them. *)
Fixpoint clip (n : nat) (s : string) : string * string :=
  match s with
  | EmptyString => (EmptyString, EmptyString)
  | String c s' =>
      if continues c then (String c (fst (clip n s')), snd (clip n s'))
      else
        match n with
        | O => (EmptyString, s)
        | S m => (String c (fst (clip m s')), snd (clip m s'))
        end
  end.

Fixpoint spaces (s : string) : bool :=
  match s with
  | EmptyString => true
  | String c s' => Ascii.eqb c " " && spaces s'
  end.

(** Assignment to a [VARCHAR(n)] column: a value of more than [n]
    characters is cut to [n] characters when what is cut are spaces, and
    rejected otherwise. *)
Definition varchar (n : nat) (s : string) : result string :=
  if spaces (snd (clip n s)) then Ok (fst (clip n s)) else Err value_too_long.

Definition varchar_opt (n : nat) (s : option string) : result (option string) :=
  match s with
  | None => Ok None
  | Some v => v' <- varchar n v ;; Ok (Some v')
  end.

(** ** Schema ([backend/init.sql]) *)

Record menu_item : Type := {
  mi_item_id : Z;
  mi_item_name : string
}.

Record order : Type := {
  order_id : Z;
  table_number : option string;
  status : string;
  total_amount : Z;
  discount_amount : Z;
  final_amount : Z;
  cashier_id : option Z;
  notes : option string
}.

Record order_item : Type := {
  oi_order_id : Z;
  oi_item_id : Z;
  oi_item_name : string;
  quantity : Z;
  unit_price : Z;
  item_total : Z;
  oi_notes : option string
}.

Record payment : Type := {
  p_order_id : Z;
  payment_method : string;
  amount : Z;
  transaction_id : option string;
  p_cashier_id : option Z;
  p_notes : option string
}.

Record discount : Type := {
  discount_id : Z;
  discount_type : string;
  value : Z;
  is_active : option bool;
  min_amount_threshold : option Z;
  valid_from : option Z;
  valid_until : option Z
}.

Record order_discount : Type := {
  od_order_id : Z;
  od_discount_id : Z;
  applied_value : Z;
  applied_by_user_id : option Z
}.

Record cashier_shift : Type := {
  shift_id : Z;
  user_id : Z;
  shift_end : option Z;
  opening_cash : Z;
  closing_cash : option Z;
  cash_in : option Z;
  cash_out : option Z;
  sales_amount_cash : Z;
  sales_amount_card : Z;
  s_notes : option string;
  reconciled : option bool
}.

(** The database: the rows of each table and the next value of the two
    sequences whose keys are read back.  [users] holds the [user_id] of the
    rows of table users, which is all the foreign keys look at. *)
Record db : Type := {
  users : list Z;
  menu_items : list menu_item;
  discounts : list discount;
  orders : list order;
  order_items : list order_item;
  order_discounts : list order_discount;
  payments : list payment;
  cashier_shifts : list cashier_shift;
  orders_order_id_seq : Z;
  cashier_shifts_shift_id_seq : Z
}.

Definition set_orders (l : list order) (seq : Z) (d : db) : db :=
  {| users := users d; menu_items := menu_items d; discounts := discounts d;
     orders := l; order_items := order_items d;
     order_discounts := order_discounts d; payments := payments d;
     cashier_shifts := cashier_shifts d;
     orders_order_id_seq := seq;
     cashier_shifts_shift_id_seq := cashier_shifts_shift_id_seq d |}.

Definition set_order_items (l : list order_item) (d : db) : db :=
  {| users := users d; menu_items := menu_items d; discounts := discounts d;
     orders := orders d; order_items := l;
     order_discounts := order_discounts d; payments := payments d;
     cashier_shifts := cashier_shifts d;
     orders_order_id_seq := orders_order_id_seq d;
     cashier_shifts_shift_id_seq := cashier_shifts_shift_id_seq d |}.

Definition set_order_discounts (l : list order_discount) (d : db) : db :=
  {| users := users d; menu_items := menu_items d; discounts := discounts d;
     orders := orders d; order_items := order_items d;
     order_discounts := l; payments := payments d;
     cashier_shifts := cashier_shifts d;
     orders_order_id_seq := orders_order_id_seq d;
     cashier_shifts_shift_id_seq := cashier_shifts_shift_id_seq d |}.

Definition set_payments (l : list payment) (d : db) : db :=
  {| users := users d; menu_items := menu_items d; discounts := discounts d;
     orders := orders d; order_items := order_items d;
     order_discounts := order_discounts d; payments := l;
     cashier_shifts := cashier_shifts d;
     orders_order_id_seq := orders_order_id_seq d;
     cashier_shifts_shift_id_seq := cashier_shifts_shift_id_seq d |}.

Definition set_cashier_shifts (l : list cashier_shift) (seq : Z) (d : db) : db :=
  {| users := users d; menu_items := menu_items d; discounts := discounts d;
     orders := orders d; order_items := order_items d;
     order_discounts := order_discounts d; payments := payments d;
     cashier_shifts := l;
     orders_order_id_seq := orders_order_id_seq d;
     cashier_shifts_shift_id_seq := seq |}.

(** ** Small pieces of SQL and JavaScript *)

(** A number bound to a parameter of type [INTEGER]. *)
Definition int4 (n : Z) : result unit :=
  guard ((- 2 ^ 31 <=? n) && (n <? 2 ^ 31)) integer_out_of_range.

Definition int4_opt (n : option Z) : result unit :=
  match n with
  | None => Ok tt
  | Some v => int4 v
  end.

(** [REFERENCES users(user_id)] on a nullable column. *)
Definition references_user (u : option Z) (d : db) : result unit :=
  match u with
  | None => Ok tt
  | Some n => guard (existsb (Z.eqb n) (users d)) foreign_key_violation
  end.

(** [REFERENCES orders(order_id)]. *)
Definition references_order (id : Z) (d : db) : result unit :=
  guard (existsb (fun o => order_id o =? id) (orders d)) foreign_key_violation.

(** Truthiness of an optional numeric identifier: [undefined], [null] and
    [0] are falsy. *)
Definition truthy (x : option Z) : option Z :=
  match x with
  | Some n => if n =? 0 then None else Some n
  | None => None
  end.

(** [COALESCE($1, column)]. *)
Definition coalesce {A : Type} (x : option A) (old : option A) : option A :=
  match x with
  | Some v => Some v
  | None => old
  end.

Definition is_null {A : Type} (x : option A) : bool :=
  match x with
  | None => true
  | Some _ => false
  end.

(** ** HTTP responses *)

Inductive body : Type :=
| text (s : string)
| msg (s : string)
| order_created (newOrderId : Z)
| order_row (o : order)
| payment_row (p : payment)
| shift_row (s : cashier_shift).

Record response : Type := {
  code : Z;
  payload : body
}.

Definition server_error : response :=
  {| code := 500; payload := text "Server Error" |}.

(** Request bodies and URL parameters.  Fields the handlers test for
    presence are optional; the others are the values a well-formed client
    sends ([quantity] is an integer: PostgreSQL refuses any other text for
    an [INTEGER] column).  The [id] of a route ([uo_id], [es_id], [as_id]
    and the arguments of [setStatus] and [deleteOrder]) is a number within
    the range of [INTEGER]. *)
Module Req.

Record item : Type := {
  item_id : Z;
  quantity : Z;
  unit_price : Q;
  notes : option string
}.

Record create_order : Type := {
  co_table_number : option string;
  co_cashier_id : option Z;
  co_notes : option string;
  co_items : option (list item)
}.

Record update_order : Type := {
  uo_id : Z;
  uo_table_number : option string;
  uo_notes : option string;
  uo_items : option (list item);
  uo_discount_id : option Z;
  uo_applied_by_user_id : option Z
}.

Record record_payment : Type := {
  rp_order_id : Z;
  rp_payment_method : string;
  rp_amount : Q;
  rp_transaction_id : option string;
  rp_cashier_id : option Z;
  rp_notes : option string
}.

Record start_shift : Type := {
  ss_user_id : Z;
  ss_opening_cash : Q
}.

Record end_shift : Type := {
  es_id : Z;
  es_closing_cash : option Q;
  es_notes : option string
}.

Record adjust_shift : Type := {
  as_id : Z;
  as_opening_cash : option Q;
  as_closing_cash : option Q;
  as_cash_in : option Q;
  as_cash_out : option Q;
  as_reconciled : option bool;
  as_notes : option string
}.

End Req.

(** Assignment of an optional value to a nullable [DECIMAL(10,2)] column. *)
Definition decimal_10_2_opt (q : option Q) : result (option Z) :=
  match q with
  | None => Ok None
  | Some v => c <- decimal_10_2 v ;; Ok (Some c)
  end.

(** [UPDATE t SET ... WHERE p]: the rows that satisfy [p] are rewritten by
    [f], which raises when an assigned value does not fit its column. *)
Fixpoint update_where {A : Type} (p : A -> bool) (f : A -> result A)
    (l : list A) : result (list A) :=
  match l with
  | [] => Ok []
  | x :: rest =>
      x' <- (if p x then f x else Ok x) ;;
      rest' <- update_where p f rest ;;
      Ok (x' :: rest')
  end.

(** ** Orders ([backend/routes/orderRoutes.js]) *)

(** [calculateOrderTotals]: the sum of [quantity * unit_price] over rows
    given by their two fields, as an exact number (see the conventions). *)
Definition calculateOrderTotals (orderItems : list (Z * Q)) : Q :=
  fold_left (fun total_amount item =>
               (total_amount + inject_Z (fst item) * snd item)%Q)
            orderItems 0%Q.

Definition request_fields (items : list Req.item) : list (Z * Q) :=
  map (fun it => (Req.quantity it, Req.unit_price it)) items.

Definition stored_fields (rows : list order_item) : list (Z * Q) :=
  map (fun r => (quantity r, of_cents (unit_price r))) rows.

Definition select_menu_item (id : Z) (d : db) : option menu_item :=
  find (fun m => mi_item_id m =? id) (menu_items d).

(** The message of the [Error] thrown for an unknown item (the source
    splices the item_id into it; the handler only logs it). *)
Definition not_found_message : string := "Menu item not found.".

(** [INSERT INTO order_items (...)]: the types and the checks of the
    columns and the reference to the order.  The reference to menu_items
    holds, the item having just been selected. *)
Definition insert_order_item (id : Z) (it : Req.item) (name : string)
    (d : db) : result db :=
  int4 (Req.quantity it) ;;;
  price <- decimal_10_2 (Req.unit_price it) ;;
  total <- decimal_10_2 (inject_Z (Req.quantity it) * Req.unit_price it) ;;
  guard (0 <? Req.quantity it) check_violation ;;;
  guard (0 <=? price) check_violation ;;;
  references_order id d ;;;
  Ok (set_order_items
        (order_items d ++
         [{| oi_order_id := id; oi_item_id := Req.item_id it;
             oi_item_name := name; quantity := Req.quantity it;
             unit_price := price; item_total := total;
             oi_notes := Req.notes it |}]) d).

(** The loop of [POST /]: resolve each item and insert its row. *)
Fixpoint insert_items (id : Z) (items : list Req.item) (d : db) : result db :=
  match items with
  | [] => Ok d
  | it :: rest =>
      match select_menu_item (Req.item_id it) d with
      | None => Err (thrown not_found_message)
      | Some m =>
          d' <- insert_order_item id it (mi_item_name m) d ;;
          insert_items id rest d'
      end
  end.

(** The parameters of [INSERT INTO orders], converted to the types of
    their columns; [calculateOrderTotals] throws when [items] is missing.
    A value that does not convert makes the statement fail before it
    runs. *)
Definition order_parameters (req : Req.create_order)
  : result (list Req.item * option string * Z) :=
  items <- match Req.co_items req with
           | Some l => Ok l
           | None => Err (thrown "items is not iterable")
           end ;;
  let total_amount := calculateOrderTotals (request_fields items) in
  tn <- varchar_opt 20 (Req.co_table_number req) ;;
  total <- decimal_10_2 total_amount ;;
  int4_opt (Req.co_cashier_id req) ;;;
  Ok (items, tn, total).

(** [nextval('orders_order_id_seq')]: the database with the value taken. *)
Definition nextval_order_id (d : db) : db :=
  set_orders (orders d) (orders_order_id_seq d + 1) d.

(** The transaction of [POST /] once [INSERT INTO orders] runs: the key
    is taken from the sequence, the row is inserted and its reference to
    users checked, and the rows of the items follow. *)
Definition createOrder_tx (req : Req.create_order) (items : list Req.item)
    (tn : option string) (total : Z) (d : db) : result (Z * db) :=
  let newOrderId := orders_order_id_seq d in
  let d1 :=
    set_orders
      (orders d ++
       [{| order_id := newOrderId; table_number := tn; status := "pending";
           total_amount := total; discount_amount := 0;
           final_amount := total; cashier_id := Req.co_cashier_id req;
           notes := Req.co_notes req |}])
      (newOrderId + 1) d in
  references_user (Req.co_cashier_id req) d ;;;
  d2 <- insert_items newOrderId items d1 ;;
  Ok (newOrderId, d2).

(** [POST /api/orders].  [ROLLBACK] takes the rows back, not the value
    taken from the sequence. *)
Definition createOrder (req : Req.create_order) (d : db) : db * response :=
  match order_parameters req with
  | Err _ => (d, server_error)
  | Ok (items, tn, total) =>
      match createOrder_tx req items tn total d with
      | Ok (newOrderId, d') =>
          (d', {| code := 201; payload := order_created newOrderId |})
      | Err _ => (nextval_order_id d, server_error)
      end
  end.

(** [PUT /api/orders/:id/status]. *)
Definition setStatus (id : Z) (new_status : string) (d : db) : db * response :=
  match find (fun o => order_id o =? id) (orders d) with
  | None => (d, {| code := 404; payload := msg "Order not found" |})
  | Some o =>
      match varchar 50 new_status with
      | Err _ => (d, server_error)
      | Ok st =>
          let upd (x : order) :=
            {| order_id := order_id x; table_number := table_number x;
               status := st; total_amount := total_amount x;
               discount_amount := discount_amount x;
               final_amount := final_amount x; cashier_id := cashier_id x;
               notes := notes x |} in
          (set_orders (map (fun x => if order_id x =? id then upd x else x)
                           (orders d))
                      (orders_order_id_seq d) d,
           {| code := 200; payload := order_row (upd o) |})
      end
  end.

(** The loop of [PUT /:id]: as [insert_items], with the running total. *)
Fixpoint update_items (id : Z) (items : list Req.item) (newTotalAmount : Q)
    (d : db) : result (Q * db) :=
  match items with
  | [] => Ok (newTotalAmount, d)
  | it :: rest =>
      match select_menu_item (Req.item_id it) d with
      | None => Err (thrown not_found_message)
      | Some m =>
          d' <- insert_order_item id it (mi_item_name m) d ;;
          update_items id rest
            (newTotalAmount + inject_Z (Req.quantity it) * Req.unit_price it)%Q
            d'
      end
  end.

(** Lines 134-151: the new total, from the submitted items when there is at
    least one, from the stored rows otherwise. *)
Definition replace_items (id : Z) (items : option (list Req.item)) (d : db)
  : result (Q * db) :=
  match items with
  | Some (it :: rest) =>
      update_items id (it :: rest) 0%Q
        (set_order_items
           (filter (fun r => negb (oi_order_id r =? id)) (order_items d)) d)
  | _ =>
      Ok (calculateOrderTotals
            (stored_fields
               (filter (fun r => oi_order_id r =? id) (order_items d))),
          d)
  end.

(** [SELECT * FROM discounts WHERE discount_id = $1 AND is_active = TRUE]. *)
Definition select_active_discount (k : Z) (d : db) : list discount :=
  filter (fun x => (discount_id x =? k) &&
                   match is_active x with Some true => true | _ => false end)
         (discounts d).

(** Lines 162-166: the amount taken off for a discount row. *)
Definition discount_amount_of (newTotalAmount : Q) (disc : discount) : Q :=
  if String.eqb (discount_type disc) "percentage" then
    (newTotalAmount * (of_cents (value disc) / 100))%Q
  else if String.eqb (discount_type disc) "fixed_amount" then
    of_cents (value disc)
  else 0%Q.

(** [INSERT INTO order_discounts (...)]. *)
Definition insert_order_discount (id k : Z) (discount_amount : Q)
    (by_user : option Z) (d : db) : result db :=
  applied <- decimal_10_2 discount_amount ;;
  references_order id d ;;;
  references_user by_user d ;;;
  Ok (set_order_discounts
        (order_discounts d ++
         [{| od_order_id := id; od_discount_id := k;
             applied_value := applied; applied_by_user_id := by_user |}]) d).

(** Lines 153-174: the discount block.  Returns [discount_amount] and
    [final_amount]. *)
Definition apply_discount (id : Z) (discount_id : option Z)
    (applied_by_user_id : option Z) (newTotalAmount : Q) (d : db)
  : result (Q * Q * db) :=
  let d1 :=
    set_order_discounts
      (filter (fun r => negb (od_order_id r =? id)) (order_discounts d)) d in
  match truthy discount_id with
  | Some k =>
      int4 k ;;;
      match select_active_discount k d1 with
      | disc :: _ =>
          let discount_amount := discount_amount_of newTotalAmount disc in
          let final_amount := (newTotalAmount - discount_amount)%Q in
          d2 <- insert_order_discount id k discount_amount
                  (truthy applied_by_user_id) d1 ;;
          Ok (discount_amount, final_amount, d2)
      | [] => Ok (0%Q, newTotalAmount, d1)
      end
  | None => Ok (0%Q, newTotalAmount, d1)
  end.

(** [UPDATE orders SET table_number = COALESCE($1, table_number), ...
    WHERE order_id = $6 RETURNING *]: [None] when no row has the key. *)
Definition update_order_row (id : Z) (tn nt : option string)
    (newTotalAmount discount_amount final_amount : Q) (d : db)
  : result (option order * db) :=
  match find (fun o => order_id o =? id) (orders d) with
  | None => Ok (None, d)
  | Some o =>
      tn' <- varchar_opt 20 tn ;;
      total <- decimal_10_2 newTotalAmount ;;
      disc <- decimal_10_2 discount_amount ;;
      final <- decimal_10_2 final_amount ;;
      let upd (x : order) :=
        {| order_id := order_id x;
           table_number := coalesce tn' (table_number x);
           status := status x; total_amount := total;
           discount_amount := disc; final_amount := final;
           cashier_id := cashier_id x;
           notes := coalesce nt (notes x) |} in
      Ok (Some (upd o),
          set_orders (map (fun x => if order_id x =? id then upd x else x)
                          (orders d))
                     (orders_order_id_seq d) d)
  end.

(** The transaction of [PUT /:id]. *)
Definition updateOrder_tx (req : Req.update_order) (d : db)
  : result (option order * db) :=
  let id := Req.uo_id req in
  r1 <- replace_items id (Req.uo_items req) d ;;
  let newTotalAmount := fst r1 in
  r2 <- apply_discount id (Req.uo_discount_id req)
          (Req.uo_applied_by_user_id req) newTotalAmount (snd r1) ;;
  let discount_amount := fst (fst r2) in
  let final_amount := snd (fst r2) in
  update_order_row id (Req.uo_table_number req) (Req.uo_notes req)
    newTotalAmount discount_amount final_amount (snd r2).

(** [PUT /api/orders/:id]. *)
Definition updateOrder (req : Req.update_order) (d : db) : db * response :=
  match updateOrder_tx req d with
  | Ok (Some o, d') => (d', {| code := 200; payload := order_row o |})
  | Ok (None, _) => (d, {| code := 404; payload := msg "Order not found" |})
  | Err _ => (d, server_error)
  end.

(** [DELETE /api/orders/:id]: the rows that reference the order go with it
    ([ON DELETE CASCADE]). *)
Definition deleteOrder (id : Z) (d : db) : db * response :=
  if existsb (fun o => order_id o =? id) (orders d) then
    (set_payments
       (filter (fun p => negb (p_order_id p =? id)) (payments d))
       (set_order_discounts
          (filter (fun r => negb (od_order_id r =? id)) (order_discounts d))
          (set_order_items
             (filter (fun r => negb (oi_order_id r =? id)) (order_items d))
             (set_orders
                (filter (fun o => negb (order_id o =? id)) (orders d))
                (orders_order_id_seq d) d))),
     {| code := 200; payload := msg "Order deleted successfully" |})
  else (d, {| code := 404; payload := msg "Order not found" |}).

(** ** Payments ([backend/routes/paymentRoutes.js]) *)

(** [INSERT INTO payments (...) RETURNING *]. *)
Definition insert_payment (req : Req.record_payment) (d : db)
  : result (payment * db) :=
  method <- varchar 50 (Req.rp_payment_method req) ;;
  paid <- decimal_10_2 (Req.rp_amount req) ;;
  tid <- varchar_opt 100 (Req.rp_transaction_id req) ;;
  guard (0 <? paid) check_violation ;;;
  references_order (Req.rp_order_id req) d ;;;
  references_user (Req.rp_cashier_id req) d ;;;
  let p := {| p_order_id := Req.rp_order_id req; payment_method := method;
              amount := paid; transaction_id := tid;
              p_cashier_id := Req.rp_cashier_id req;
              p_notes := Req.rp_notes req |} in
  Ok (p, set_payments (payments d ++ [p]) d).

Definition is_active_shift_of (cashier : Z) (s : cashier_shift) : bool :=
  (user_id s =? cashier) && is_null (shift_end s).

Definition add_sales_cash (amount : Q) (s : cashier_shift) : result cashier_shift :=
  c <- decimal_10_2 (of_cents (sales_amount_cash s) + amount) ;;
  Ok {| shift_id := shift_id s; user_id := user_id s;
        shift_end := shift_end s; opening_cash := opening_cash s;
        closing_cash := closing_cash s; cash_in := cash_in s;
        cash_out := cash_out s; sales_amount_cash := c;
        sales_amount_card := sales_amount_card s; s_notes := s_notes s;
        reconciled := reconciled s |}.

Definition add_sales_card (amount : Q) (s : cashier_shift) : result cashier_shift :=
  c <- decimal_10_2 (of_cents (sales_amount_card s) + amount) ;;
  Ok {| shift_id := shift_id s; user_id := user_id s;
        shift_end := shift_end s; opening_cash := opening_cash s;
        closing_cash := closing_cash s; cash_in := cash_in s;
        cash_out := cash_out s; sales_amount_cash := sales_amount_cash s;
        sales_amount_card := c; s_notes := s_notes s;
        reconciled := reconciled s |}.

(** Step 2 of [POST /]: the sales total of the cashier's open shift. *)
Definition update_shift_sales (req : Req.record_payment) (d : db) : result db :=
  match truthy (Req.rp_cashier_id req) with
  | Some cashier =>
      shifts <-
        (if String.eqb (toLowerCase (Req.rp_payment_method req)) "cash" then
           update_where (is_active_shift_of cashier)
             (add_sales_cash (Req.rp_amount req)) (cashier_shifts d)
         else
           update_where (is_active_shift_of cashier)
             (add_sales_card (Req.rp_amount req)) (cashier_shifts d)) ;;
      Ok (set_cashier_shifts shifts (cashier_shifts_shift_id_seq d) d)
  | None => Ok d
  end.

(** [SELECT SUM(amount) as total_paid FROM payments WHERE order_id = $1],
    in hundredths; the sum over no row is replaced by 0. *)
Definition total_paid (id : Z) (d : db) : Z :=
  fold_right Z.add 0
    (map amount (filter (fun p => p_order_id p =? id) (payments d))).

Definition complete (o : order) : order :=
  {| order_id := order_id o; table_number := table_number o;
     status := "completed"; total_amount := total_amount o;
     discount_amount := discount_amount o; final_amount := final_amount o;
     cashier_id := cashier_id o; notes := notes o |}.

(** [UPDATE orders SET status = 'completed' WHERE order_id = $2]. *)
Definition complete_order (id : Z) (l : list order) : list order :=
  map (fun o => if order_id o =? id then complete o else o) l.

(** Step 3 of [POST /]: [seen] is the database the two [SELECT]s read,
    [d] the state of the transaction, which the [UPDATE] writes. *)
Definition completion_check (id : Z) (seen d : db) : result db :=
  match find (fun o => order_id o =? id) (orders seen) with
  | None => Err (thrown "Order not found for payment.")
  | Some o =>
      let orderFinalAmount := of_cents (final_amount o) in
      let totalPaid := of_cents (total_paid id seen) in
      if Qle_bool orderFinalAmount totalPaid then
        Ok (set_orders (complete_order id (orders d))
                       (orders_order_id_seq d) d)
      else Ok d
  end.

(** The transaction of [POST /], first version of the file (lines 162-230
    of the listing): every statement goes through [client], so the two
    [SELECT]s see the rows written so far. *)
Definition recordPayment_tx (req : Req.record_payment) (d : db)
  : result (payment * db) :=
  r <- insert_payment req d ;;
  d2 <- update_shift_sales req (snd r) ;;
  d3 <- completion_check (Req.rp_order_id req) d2 d2 ;;
  Ok (fst r, d3).

(** The transaction of [POST /], version with the role middleware (lines
    269-326): the two [SELECT]s go through [pool], another connection,
    which sees the committed database only. *)
Definition recordPayment_auth_tx (req : Req.record_payment) (d : db)
  : result (payment * db) :=
  r <- insert_payment req d ;;
  d2 <- update_shift_sales req (snd r) ;;
  d3 <- completion_check (Req.rp_order_id req) d d2 ;;
  Ok (fst r, d3).

Definition payment_response (d : db) (r : result (payment * db)) : db * response :=
  match r with
  | Ok (p, d') => (d', {| code := 201; payload := payment_row p |})
  | Err _ => (d, server_error)
  end.

(** [POST /api/payments]. *)
Definition recordPayment (req : Req.record_payment) (d : db) : db * response :=
  payment_response d (recordPayment_tx req d).

Definition recordPayment_auth (req : Req.record_payment) (d : db) : db * response :=
  payment_response d (recordPayment_auth_tx req d).

(** ** Shifts ([backend/routes/shiftRoutes.js]) *)

(** [nextval('cashier_shifts_shift_id_seq')]: the database with the value
    taken. *)
Definition nextval_shift_id (d : db) : db :=
  set_cashier_shifts (cashier_shifts d) (cashier_shifts_shift_id_seq d + 1) d.

(** [POST /api/shifts/start].  The [INSERT] takes the key from the
    sequence before the reference to users fails it; a [user_id] outside
    the range of [INTEGER] has failed the [SELECT] before. *)
Definition startShift (req : Req.start_shift) (d : db) : db * response :=
  let activeShift :=
    filter (is_active_shift_of (Req.ss_user_id req)) (cashier_shifts d) in
  match activeShift with
  | _ :: _ =>
      (d, {| code := 400; payload := msg "User already has an active shift." |})
  | [] =>
      match decimal_10_2 (Req.ss_opening_cash req) with
      | Err _ => (d, server_error)
      | Ok opening =>
          let s := {| shift_id := cashier_shifts_shift_id_seq d;
                      user_id := Req.ss_user_id req; shift_end := None;
                      opening_cash := opening; closing_cash := None;
                      cash_in := Some 0; cash_out := Some 0;
                      sales_amount_cash := 0; sales_amount_card := 0;
                      s_notes := None; reconciled := Some false |} in
          match references_user (Some (Req.ss_user_id req)) d with
          | Ok _ =>
              (set_cashier_shifts (cashier_shifts d ++ [s])
                                  (cashier_shifts_shift_id_seq d + 1) d,
               {| code := 201; payload := shift_row s |})
          | Err _ =>
              match int4 (Req.ss_user_id req) with
              | Ok _ => (nextval_shift_id d, server_error)
              | Err _ => (d, server_error)
              end
          end
      end
  end.

(** [PUT /api/shifts/end/:id]; [now] is [CURRENT_TIMESTAMP]. *)
Definition endShift (req : Req.end_shift) (now : Z) (d : db) : db * response :=
  let open s := (shift_id s =? Req.es_id req) && is_null (shift_end s) in
  match find open (cashier_shifts d) with
  | None =>
      (d, {| code := 404;
             payload := msg "Active shift not found or already ended." |})
  | Some s0 =>
      match decimal_10_2_opt (Req.es_closing_cash req) with
      | Err _ => (d, server_error)
      | Ok closing =>
          let upd (s : cashier_shift) :=
            {| shift_id := shift_id s; user_id := user_id s;
               shift_end := Some now; opening_cash := opening_cash s;
               closing_cash := closing; cash_in := cash_in s;
               cash_out := cash_out s;
               sales_amount_cash := sales_amount_cash s;
               sales_amount_card := sales_amount_card s;
               s_notes := Req.es_notes req; reconciled := reconciled s |} in
          (set_cashier_shifts
             (map (fun s => if open s then upd s else s) (cashier_shifts d))
             (cashier_shifts_shift_id_seq d) d,
           {| code := 200; payload := shift_row (upd s0) |})
      end
  end.

(** [PUT /api/shifts/:id]. *)
Definition adjustShift (req : Req.adjust_shift) (d : db) : db * response :=
  match find (fun s => shift_id s =? Req.as_id req) (cashier_shifts d) with
  | None => (d, {| code := 404; payload := msg "Shift not found" |})
  | Some s0 =>
      match (o <- decimal_10_2_opt (Req.as_opening_cash req) ;;
             c <- decimal_10_2_opt (Req.as_closing_cash req) ;;
             i <- decimal_10_2_opt (Req.as_cash_in req) ;;
             u <- decimal_10_2_opt (Req.as_cash_out req) ;;
             Ok (o, c, i, u)) with
      | Err _ => (d, server_error)
      | Ok (o, c, i, u) =>
          let upd (s : cashier_shift) :=
            {| shift_id := shift_id s; user_id := user_id s;
               shift_end := shift_end s;
               opening_cash := match o with
                               | Some v => v
                               | None => opening_cash s
                               end;
               closing_cash := coalesce c (closing_cash s);
               cash_in := coalesce i (cash_in s);
               cash_out := coalesce u (cash_out s);
               sales_amount_cash := sales_amount_cash s;
               sales_amount_card := sales_amount_card s;
               s_notes := coalesce (Req.as_notes req) (s_notes s);
               reconciled := coalesce (Req.as_reconciled req) (reconciled s) |} in
          (set_cashier_shifts
             (map (fun s => if shift_id s =? Req.as_id req then upd s else s)
                  (cashier_shifts d))
             (cashier_shifts_shift_id_seq d) d,
           {| code := 200; payload := shift_row (upd s0) |})
      end
  end.

(** ** Sequences of requests *)

Inductive request : Type :=
| CreateOrder (req : Req.create_order)
| UpdateOrder (req : Req.update_order)
| SetStatus (id : Z) (new_status : string)
| DeleteOrder (id : Z)
| RecordPayment (req : Req.record_payment)
| RecordPaymentAuth (req : Req.record_payment)
| StartShift (req : Req.start_shift)
| EndShift (req : Req.end_shift) (now : Z)
| AdjustShift (req : Req.adjust_shift).

Definition handle (r : request) (d : db) : db * response :=
  match r with
  | CreateOrder req => createOrder req d
  | UpdateOrder req => updateOrder req d
  | SetStatus id st => setStatus id st d
  | DeleteOrder id => deleteOrder id d
  | RecordPayment req => recordPayment req d
  | RecordPaymentAuth req => recordPayment_auth req d
  | StartShift req => startShift req d
  | EndShift req now => endShift req now d
  | AdjustShift req => adjustShift req d
  end.

(** The database after a list of requests, served in order. *)
Definition run (rs : list request) (d : db) : db :=
  fold_left (fun acc r => fst (handle r acc)) rs d.

(** A database with the given users, menu and discounts and no order,
    payment or shift yet. *)
Definition fresh (us : list Z) (menu : list menu_item) (ds : list discount) : db :=
  {| users := us; menu_items := menu; discounts := ds; orders := [];
     order_items := []; order_discounts := []; payments := [];
     cashier_shifts := []; orders_order_id_seq := 1;
     cashier_shifts_shift_id_seq := 1 |}.

(** ** Vocabulary of the properties *)

(** The running sales totals of every shift are non-negative: they start at
    0 and are only ever increased by amounts that passed [CHECK (amount > 0)]. *)
Definition sales_nonneg (d : db) : Prop :=
  Forall (fun s => 0 <= sales_amount_cash s /\ 0 <= sales_amount_card s)
         (cashier_shifts d).

(** A shift with [paid] hundredths added to its cash, or card, sales. *)
Definition credit_cash (paid : Z) (s : cashier_shift) : cashier_shift :=
  {| shift_id := shift_id s; user_id := user_id s;
     shift_end := shift_end s; opening_cash := opening_cash s;
     closing_cash := closing_cash s; cash_in := cash_in s;
     cash_out := cash_out s; sales_amount_cash := sales_amount_cash s + paid;
     sales_amount_card := sales_amount_card s; s_notes := s_notes s;
     reconciled := reconciled s |}.

Definition credit_card (paid : Z) (s : cashier_shift) : cashier_shift :=
  {| shift_id := shift_id s; user_id := user_id s;
     shift_end := shift_end s; opening_cash := opening_cash s;
     closing_cash := closing_cash s; cash_in := cash_in s;
     cash_out := cash_out s; sales_amount_cash := sales_amount_cash s;
     sales_amount_card := sales_amount_card s + paid; s_notes := s_notes s;
     reconciled := reconciled s |}.

(** The open shifts of [cashier] rewritten by [f], the other rows kept. *)
Definition on_active_shifts (cashier : Z) (f : cashier_shift -> cashier_shift)
    (l : list cashier_shift) : list cashier_shift :=
  map (fun s => if is_active_shift_of cashier s then f s else s) l.

Definition created (p : payment) : response :=
  {| code := 201; payload := payment_row p |}.

Definition find_order (id : Z) (d : db) : option order :=
  find (fun o => order_id o =? id) (orders d).

Definition ok_order (o : order) : response :=
  {| code := 200; payload := order_row o |}.

Definition created_order (newOrderId : Z) : response :=
  {| code := 201; payload := order_created newOrderId |}.

(** The row [INSERT INTO order_items] stores for an item of a request. *)
Definition stored_item (id : Z) (d : db) (it : Req.item) (r : order_item) : Prop :=
  exists m, select_menu_item (Req.item_id it) d = Some m /\
    r = {| oi_order_id := id; oi_item_id := Req.item_id it;
           oi_item_name := mi_item_name m; quantity := Req.quantity it;
           unit_price := to_cents (Req.unit_price it);
           item_total := to_cents (inject_Z (Req.quantity it) * Req.unit_price it);
           oi_notes := Req.notes it |}.

(** What the columns of order_items accept of an item. *)
Definition accepted_item (it : Req.item) : Prop :=
  0 < Req.quantity it < 2 ^ 31 /\
  0 <= to_cents (Req.unit_price it) < 10 ^ 10 /\
  Z.abs (to_cents (inject_Z (Req.quantity it) * Req.unit_price it)) < 10 ^ 10.

(** The rows of order [id]. *)
Definition items_of (id : Z) (d : db) : list order_item :=
  filter (fun r => oi_order_id r =? id) (order_items d).

(** [newTotalAmount] of [PUT /:id], as lines 134-151 compute it. *)
Definition new_total (req : Req.update_order) (d : db) : Q :=
  match Req.uo_items req with
  | Some (it :: rest) => calculateOrderTotals (request_fields (it :: rest))
  | _ => calculateOrderTotals (stored_fields (items_of (Req.uo_id req) d))
  end.


(** The sum of [quantity * unit_price] over stored rows, in hundredths. *)
Definition line_sum (rows : list order_item) : Z :=
  fold_right Z.add 0 (map (fun r => quantity r * unit_price r) rows).

(** The rows of order_discounts attached to order [id]. *)
Definition discounts_of (id : Z) (d : db) : list order_discount :=
  filter (fun r => od_order_id r =? id) (order_discounts d).

(** The order [POST /] inserts for a request. *)
Definition new_order (req : Req.create_order) (items : list Req.item) (d : db) : order :=
  {| order_id := orders_order_id_seq d;
     table_number := option_map (fun s => fst (clip 20 s))
                                (Req.co_table_number req);
     status := "pending";
     total_amount := to_cents (calculateOrderTotals (request_fields items));
     discount_amount := 0;
     final_amount := to_cents (calculateOrderTotals (request_fields items));
     cashier_id := Req.co_cashier_id req; notes := Req.co_notes req |}.

(** The sum of [item_total] over stored rows, in hundredths. *)
Definition item_sum (rows : list order_item) : Z :=
  fold_right Z.add 0 (map item_total rows).

(** A price with at most two decimals. *)
Definition whole_cents (q : Q) : Prop := (round2 q == q)%Q.

Definition cent_prices (items : option (list Req.item)) : Prop :=
  match items with
  | Some l => Forall (fun it => whole_cents (Req.unit_price it)) l
  | None => True
  end.

(** Requests whose submitted unit prices have at most two decimals. *)
Definition priced_in_cents (r : request) : Prop :=
  match r with
  | CreateOrder req => cent_prices (Req.co_items req)
  | UpdateOrder req => cent_prices (Req.uo_items req)
  | _ => True
  end.

(** The two relations between the totals of an order and its rows. *)
Definition order_consistent (d : db) (o : order) : Prop :=
  total_amount o = item_sum (items_of (order_id o) d) /\
  Z.abs (final_amount o - (total_amount o - discount_amount o)) <= 1.

(** The invariant kept by the order handlers: keys come from the sequence,
    every row stores [quantity * unit_price] as its [item_total], and every
    order is consistent with its rows. *)
Definition totals_inv (d : db) : Prop :=
  Forall (fun o => order_id o < orders_order_id_seq d) (orders d) /\
  Forall (fun r => oi_order_id r < orders_order_id_seq d /\
                   item_total r = quantity r * unit_price r) (order_items d) /\
  Forall (order_consistent d) (orders d).

(** The number of open shifts of user [u]. *)
Definition active_count (u : Z) (l : list cashier_shift) : nat :=
  List.length (filter (is_active_shift_of u) l).

(** At most one row with [shift_end] null per user. *)
Definition single_active_shift (d : db) : Prop :=
  forall u, (active_count u (cashier_shifts d) <= 1)%nat.

(** The row [POST /start] inserts: the columns it does not name take
    their defaults. *)
Definition opened_shift (req : Req.start_shift) (d : db) : cashier_shift :=
  {| shift_id := cashier_shifts_shift_id_seq d;
     user_id := Req.ss_user_id req; shift_end := None;
     opening_cash := to_cents (Req.ss_opening_cash req);
     closing_cash := None; cash_in := Some 0; cash_out := Some 0;
     sales_amount_cash := 0; sales_amount_card := 0;
     s_notes := None; reconciled := Some false |}.

(** A row keeps its user and is not opened again. *)
Definition not_reopened (s s' : cashier_shift) : Prop :=
  user_id s' = user_id s /\ (shift_end s' = None -> shift_end s = None).

(** An answer that tells the caller the request is at fault, as the
    ValidationError, NotFoundError and ConflictError of the specification
    do: a status of the class 4xx. *)
Definition client_error (r : response) : Prop := 400 <= code r < 500.

(** ** A small shop, for the scenarios *)

Definition ex_menu : list menu_item :=
  [ {| mi_item_id := 1; mi_item_name := "Espresso" |};
    {| mi_item_id := 2; mi_item_name := "Bagel" |} ].

(** 10 %, always applicable. *)
Definition ex_ten_percent : discount :=
  {| discount_id := 1; discount_type := "percentage"; value := 1000;
     is_active := Some true; min_amount_threshold := None;
     valid_from := None; valid_until := None |}.

(** 20.00 off. *)
Definition ex_twenty_off : discount :=
  {| discount_id := 2; discount_type := "fixed_amount"; value := 2000;
     is_active := Some true; min_amount_threshold := None;
     valid_from := None; valid_until := None |}.

(** 50 %, switched off. *)
Definition ex_retired : discount :=
  {| discount_id := 3; discount_type := "percentage"; value := 5000;
     is_active := Some false; min_amount_threshold := None;
     valid_from := None; valid_until := None |}.

(** 10 % on orders of 100.00 and more, valid from time 100 to time 200. *)
Definition ex_big_spender : discount :=
  {| discount_id := 4; discount_type := "percentage"; value := 1000;
     is_active := Some true; min_amount_threshold := Some 10000;
     valid_from := Some 100; valid_until := Some 200 |}.

(** One user, number 7. *)
Definition ex_shop : db :=
  fresh [7] ex_menu [ex_ten_percent; ex_twenty_off; ex_retired; ex_big_spender].

Definition ex_item (item_id quantity : Z) (unit_price : Q) : Req.item :=
  {| Req.item_id := item_id; Req.quantity := quantity;
     Req.unit_price := unit_price; Req.notes := None |}.

Definition ex_create (items : list Req.item) : Req.create_order :=
  {| Req.co_table_number := Some "T1"%string; Req.co_cashier_id := Some 7;
     Req.co_notes := None; Req.co_items := Some items |}.

Definition ex_update (id : Z) (items : option (list Req.item))
    (discount_id : option Z) : Req.update_order :=
  {| Req.uo_id := id; Req.uo_table_number := None; Req.uo_notes := None;
     Req.uo_items := items; Req.uo_discount_id := discount_id;
     Req.uo_applied_by_user_id := Some 7 |}.

Definition ex_pay (order_id : Z) (method : string) (amount : Q)
    (cashier_id : option Z) : Req.record_payment :=
  {| Req.rp_order_id := order_id; Req.rp_payment_method := method;
     Req.rp_amount := amount; Req.rp_transaction_id := None;
     Req.rp_cashier_id := cashier_id; Req.rp_notes := None |}.

Definition ex_start : Req.start_shift :=
  {| Req.ss_user_id := 7; Req.ss_opening_cash := 100 |}.

(** Scenarios A and B of the specification, with the cashier's shift open:
    two espressos at 5.00 and a bagel at 3.50, then 10 % off. *)
Definition ex_morning : db :=
  run [ StartShift ex_start;
        CreateOrder (ex_create [ex_item 1 2 5.00; ex_item 2 1 3.50]);
        UpdateOrder (ex_update 1 None (Some 1)) ] ex_shop.

(** An order of 15.00. *)
Definition ex_fifteen : db :=
  run [ CreateOrder (ex_create [ex_item 1 3 5.00]) ] ex_shop.

(** An order of 10.00 paid in full, then grown to 20.00. *)
Definition ex_grown : db :=
  run [ CreateOrder (ex_create [ex_item 1 2 5.00]);
        RecordPayment (ex_pay 1 "cash" 10 None);
        UpdateOrder (ex_update 1 (Some [ex_item 1 4 5.00]) None) ] ex_shop.

(** An order of 10.05 with 10 % off. *)
Definition ex_tie : db :=
  run [ CreateOrder (ex_create [ex_item 1 1 10.05]);
        UpdateOrder (ex_update 1 None (Some 1)) ] ex_shop.

(** An order of two items priced 0.004. *)
Definition ex_mills : db :=
  run [ CreateOrder (ex_create [ex_item 1 1 0.004; ex_item 2 1 0.004]) ] ex_shop.

(** Scenario C: the order of [ex_morning] is paid 12.15 in cash. *)
Definition ex_settle_request : Req.record_payment :=
  ex_pay 1 "cash" 12.15 (Some 7).

Definition ex_settle_row : payment :=
  {| p_order_id := 1; payment_method := "cash"; amount := 1215;
     transaction_id := None; p_cashier_id := Some 7; p_notes := None |}.

Definition ex_settled : db := fst (recordPayment ex_settle_request ex_morning).

(** The same payment by voucher. *)
Definition ex_voucher_request : Req.record_payment :=
  ex_pay 1 "Voucher" 12.15 (Some 7).

Definition ex_voucher_row : payment :=
  {| p_order_id := 1; payment_method := "Voucher"; amount := 1215;
     transaction_id := None; p_cashier_id := Some 7; p_notes := None |}.

(** A further payment of 1.00 on the order of [ex_grown]. *)
Definition ex_late_request : Req.record_payment := ex_pay 1 "cash" 1 None.

(** Updates of the order of [ex_fifteen] with each discount. *)
Definition ex_twenty_off_request : Req.update_order :=
  ex_update 1 None (Some 2).

Definition ex_retired_request : Req.update_order :=
  ex_update 1 None (Some 3).

Definition ex_big_spender_request : Req.update_order :=
  ex_update 1 None (Some 4).

Definition ex_fifteen_less_twenty : order :=
  {| order_id := 1; table_number := Some "T1"%string; status := "pending";
     total_amount := 1500; discount_amount := 2000; final_amount := -500;
     cashier_id := Some 7; notes := None |}.

Definition ex_breakfast : list Req.item :=
  [ex_item 1 2 5.00; ex_item 2 1 3.50].


(** A payment of 0.00. *)
Definition ex_zero_request : Req.record_payment := ex_pay 1 "cash" 0 (Some 7).

(** A payment of 5.00 for an order that does not exist. *)
Definition ex_stray_request : Req.record_payment := ex_pay 99 "cash" 5 (Some 7).

(** [ex_morning] with the cash sales of the shift at 99999999.99. *)
Definition ex_full_till : db :=
  set_cashier_shifts
    [ {| shift_id := 1; user_id := 7; shift_end := None;
         opening_cash := 10000; closing_cash := None;
         cash_in := Some 0; cash_out := Some 0;
         sales_amount_cash := 9999999999; sales_amount_card := 0;
         s_notes := None; reconciled := Some false |} ]
    2 ex_morning.

(** The order of [ex_morning]. *)
Definition ex_morning_order : order :=
  {| order_id := 1; table_number := Some "T1"%string; status := "pending";
     total_amount := 1350; discount_amount := 135; final_amount := 1215;
     cashier_id := Some 7; notes := None |}.

(** ** Authentication and roles ([backend/middleware/auth.js]) *)

(** What the token carries about the user ([decoded.user]); the middleware
    reads the role only. *)
Record principal : Type := {
  pr_user_id : Z;
  pr_role : option string
}.

(** The outcome of a middleware: it calls [next()] or it answers. *)
Inductive passed (A : Type) : Type :=
| next (a : A)
| denied (r : response).
Arguments next {A} a.
Arguments denied {A} r.

Section Middleware.

(** [jwt.verify(token, jwtSecret)] and the [user] field of its result:
    [None] when it throws, [Some None] when the payload has no user. *)
Variable jwt_verify : string -> option (option principal).

(** [auth]: the value left in [req.user]. *)
Definition auth (token : option string) : passed (option principal) :=
  match token with
  | None | Some EmptyString =>
      denied {| code := 401; payload := msg "No token, authorization denied" |}
  | Some t =>
      match jwt_verify t with
      | Some user => next user
      | None => denied {| code := 401; payload := msg "Token is not valid" |}
      end
  end.

(** [authorize(...allowedRoles)]. *)
Definition authorize (allowedRoles : list string) (user : option principal)
  : passed unit :=
  match user with
  | Some {| pr_role := Some (String c r) |} =>
      if existsb (String.eqb (String c r)) allowedRoles then next tt
      else denied {| code := 403;
                     payload := msg "Access forbidden: Insufficient role" |}
  | _ =>
      denied {| code := 403;
                payload := msg "User role not found in token, forbidden" |}
  end.

(** A route declared as [router.verb(path, auth, authorize(...), handler)]. *)
Definition route (allowedRoles : list string) (handler : db -> db * response)
    (token : option string) (d : db) : db * response :=
  match auth token with
  | denied r => (d, r)
  | next user =>
      match authorize allowedRoles user with
      | denied r => (d, r)
      | next _ => handler d
      end
  end.

(** The role lists of the routes, as declared in the versions of the
    order, payment and shift routes that mount the middleware.  The first
    version of the payment handler is mounted without middleware. *)
Definition allowed_roles (r : request) : option (list string) :=
  match r with
  | CreateOrder _ => Some ["cashier"; "supervisor"; "owner"]%string
  | UpdateOrder _ => Some ["supervisor"; "owner"]%string
  | SetStatus _ _ => Some ["cashier"; "supervisor"; "owner"]%string
  | DeleteOrder _ => Some ["owner"]%string
  | RecordPayment _ => None
  | RecordPaymentAuth _ => Some ["cashier"; "supervisor"; "owner"]%string
  | StartShift _ => Some ["cashier"; "supervisor"; "owner"]%string
  | EndShift _ _ => Some ["cashier"; "supervisor"; "owner"]%string
  | AdjustShift _ => Some ["supervisor"; "owner"]%string
  end.

(** A request as the application serves it. *)
Definition serve (token : option string) (r : request) (d : db) : db * response :=
  match allowed_roles r with
  | Some roles => route roles (handle r) token d
  | None => handle r d
  end.

End Middleware.

(** ** Reads: order detail ([GET /api/orders/:id]) *)

(** The answer of a read: the JSON body, or 404 with its message. *)
Inductive answer (A : Type) : Type :=
| json (a : A)
| status_404 (m : string).
Arguments json {A} a.
Arguments status_404 {A} m.

(** The body of [GET /:id]: the order with [items] and [discounts_applied].
    The display names joined from users and discounts ([cashier_name],
    [discount_name]) are columns the rows of this file do not carry. *)
Record order_detail : Type := {
  detail_order : order;
  items : list order_item;
  discounts_applied : list order_discount
}.

(** [SELECT od.*, d.discount_name FROM order_discounts od JOIN discounts d
    ON od.discount_id = d.discount_id WHERE od.order_id = $1]. *)
Definition select_order_discounts (id : Z) (d : db) : list order_discount :=
  flat_map (fun r => map (fun _ => r)
                       (filter (fun x => discount_id x =? od_discount_id r)
                               (discounts d)))
           (filter (fun r => od_order_id r =? id) (order_discounts d)).

Definition getOrderDetail (id : Z) (d : db) : answer order_detail :=
  match find (fun o => order_id o =? id) (orders d) with
  | None => status_404 "Order not found"
  | Some o =>
      json {| detail_order := o;
              items := filter (fun r => oi_order_id r =? id) (order_items d);
              discounts_applied := select_order_discounts id d |}
  end.

(** ** Reports: shift summary ([GET /api/reports/shift-summary/:shift_id]) *)

(** [Number.prototype.toFixed(2)], as hundredths: the nearest number with
    two decimals, the larger in magnitude of two equally near.  The result
    is read as a number: a zero is 0 whatever sign its text carries. *)
Definition toFixed2 (x : Q) : Z := to_cents x.

(** [parseFloat(column || 0)] on a nullable amount. *)
Definition parseFloat_or_0 (x : option Z) : Q :=
  match x with
  | Some c => of_cents c
  | None => 0%Q
  end.

Record shift_summary : Type := {
  summary_shift : cashier_shift;
  expected_cash_balance : Z;
  cash_discrepancy : option Z
}.

(** The handler; the shift is joined to its user. *)
Definition shiftSummary (id : Z) (d : db) : answer shift_summary :=
  match find (fun s => (shift_id s =? id) &&
                       existsb (Z.eqb (user_id s)) (users d))
             (cashier_shifts d) with
  | None => status_404 "Shift not found."
  | Some shift =>
      let expected_cash_balance :=
        toFixed2 (of_cents (opening_cash shift) +
                  of_cents (sales_amount_cash shift) +
                  parseFloat_or_0 (cash_in shift) -
                  parseFloat_or_0 (cash_out shift)) in
      json {| summary_shift := shift;
              expected_cash_balance := expected_cash_balance;
              cash_discrepancy :=
                match closing_cash shift with
                | Some closing =>
                    Some (toFixed2 (of_cents closing -
                                    of_cents expected_cash_balance))
                | None => None
                end |}
  end.

(** ** Removing menu items and discounts
    ([backend/routes/menuRoutes.js], [backend/routes/discountRoutes.js]) *)

Definition set_menu_items (l : list menu_item) (d : db) : db :=
  {| users := users d; menu_items := l; discounts := discounts d;
     orders := orders d; order_items := order_items d;
     order_discounts := order_discounts d; payments := payments d;
     cashier_shifts := cashier_shifts d;
     orders_order_id_seq := orders_order_id_seq d;
     cashier_shifts_shift_id_seq := cashier_shifts_shift_id_seq d |}.

Definition set_discounts (l : list discount) (d : db) : db :=
  {| users := users d; menu_items := menu_items d; discounts := l;
     orders := orders d; order_items := order_items d;
     order_discounts := order_discounts d; payments := payments d;
     cashier_shifts := cashier_shifts d;
     orders_order_id_seq := orders_order_id_seq d;
     cashier_shifts_shift_id_seq := cashier_shifts_shift_id_seq d |}.

(** [DELETE /api/menu/:id].  order_items references menu_items
    [ON DELETE RESTRICT]: the statement raises while a row of order_items
    names the item. *)
Definition deleteMenuItem (id : Z) (d : db) : db * response :=
  if existsb (fun m => mi_item_id m =? id) (menu_items d) then
    if existsb (fun r => oi_item_id r =? id) (order_items d) then
      (d, server_error)
    else
      (set_menu_items
         (filter (fun m => negb (mi_item_id m =? id)) (menu_items d)) d,
       {| code := 200; payload := msg "Menu item deleted successfully" |})
  else (d, {| code := 404; payload := msg "Menu item not found" |}).

(** [DELETE /api/discounts/:id].  order_discounts references discounts
    [ON DELETE RESTRICT]. *)
Definition deleteDiscount (id : Z) (d : db) : db * response :=
  if existsb (fun x => discount_id x =? id) (discounts d) then
    if existsb (fun r => od_discount_id r =? id) (order_discounts d) then
      (d, server_error)
    else
      (set_discounts
         (filter (fun x => negb (discount_id x =? id)) (discounts d)) d,
       {| code := 200; payload := msg "Discount deleted successfully" |})
  else (d, {| code := 404; payload := msg "Discount not found" |}).

(** ** Vocabulary of the further properties *)

(** The token is accepted by [auth] and carries a role of the list. *)
Definition authorized (jwt_verify : string -> option (option principal))
    (roles : list string) (token : option string) : Prop :=
  exists t p role,
    token = Some t /\ t <> EmptyString /\ jwt_verify t = Some (Some p) /\
    pr_role p = Some role /\ role <> EmptyString /\ In role roles.

(** The token is accepted by [auth] and carries exactly this role. *)
Definition token_of_role (jwt_verify : string -> option (option principal))
    (role : string) (token : option string) : Prop :=
  exists t p,
    token = Some t /\ t <> EmptyString /\ jwt_verify t = Some (Some p) /\
    pr_role p = Some role.

(** A nullable amount read as 0 when null, in hundredths. *)
Definition or_0 (x : option Z) : Z :=
  match x with
  | Some c => c
  | None => 0
  end.

(** An order with its status replaced. *)
Definition with_status (st : string) (o : order) : order :=
  {| order_id := order_id o; table_number := table_number o;
     status := st; total_amount := total_amount o;
     discount_amount := discount_amount o; final_amount := final_amount o;
     cashier_id := cashier_id o; notes := notes o |}.

(** The payments recorded for order [id]. *)
Definition payments_of (id : Z) (d : db) : list payment :=
  filter (fun p => p_order_id p =? id) (payments d).

Definition deleted_menu_item : response :=
  {| code := 200; payload := msg "Menu item deleted successfully" |}.

Definition deleted_discount : response :=
  {| code := 200; payload := msg "Discount deleted successfully" |}.

(** The items an update submits, none when the array is omitted. *)
Definition submitted_items (req : Req.update_order) : list Req.item :=
  match Req.uo_items req with
  | Some l => l
  | None => []
  end.

(** The keys of the orders, of the menu and of the discounts. *)
Definition order_ids (d : db) : list Z := map order_id (orders d).

Definition menu_ids (d : db) : list Z := map mi_item_id (menu_items d).

Definition discount_ids (d : db) : list Z := map discount_id (discounts d).

(** A nullable reference to a user. *)
Definition known_user (d : db) (u : option Z) : Prop :=
  forall n, u = Some n -> In n (users d).

(** The key and reference constraints that [init.sql] declares on the
    tables of this file: primary keys are unique and below the next value
    of their sequence, and every reference names an existing row. *)
Definition integrity (d : db) : Prop :=
  NoDup (order_ids d) /\
  Forall (fun o => order_id o < orders_order_id_seq d /\
                   known_user d (cashier_id o)) (orders d) /\
  Forall (fun r => In (oi_order_id r) (order_ids d) /\
                   In (oi_item_id r) (menu_ids d)) (order_items d) /\
  Forall (fun p => In (p_order_id p) (order_ids d) /\
                   known_user d (p_cashier_id p)) (payments d) /\
  Forall (fun r => In (od_order_id r) (order_ids d) /\
                   In (od_discount_id r) (discount_ids d) /\
                   known_user d (applied_by_user_id r)) (order_discounts d) /\
  NoDup (map shift_id (cashier_shifts d)) /\
  Forall (fun s => shift_id s < cashier_shifts_shift_id_seq d /\
                   In (user_id s) (users d)) (cashier_shifts d).

(** A shift row that differs from another in its two sales totals at most. *)
Definition same_but_sales (s s' : cashier_shift) : Prop :=
  s' = {| shift_id := shift_id s; user_id := user_id s;
          shift_end := shift_end s; opening_cash := opening_cash s;
          closing_cash := closing_cash s; cash_in := cash_in s;
          cash_out := cash_out s;
          sales_amount_cash := sales_amount_cash s';
          sales_amount_card := sales_amount_card s';
          s_notes := s_notes s; reconciled := reconciled s |}.

Definition order_not_found : response :=
  {| code := 404; payload := msg "Order not found" |}.

Definition order_deleted : response :=
  {| code := 200; payload := msg "Order deleted successfully" |}.

(** The sum of the values of the discounts attached to order [id]. *)
Definition applied_sum (id : Z) (d : db) : Z :=
  fold_right Z.add 0 (map applied_value (discounts_of id d)).

(** Every order carries at most one applied discount, and its
    [discount_amount] is the value applied. *)
Definition discount_ledger (d : db) : Prop :=
  Forall (fun o => (List.length (discounts_of (order_id o) d) <= 1)%nat /\
                   discount_amount o = applied_sum (order_id o) d)
         (orders d).

(** Every payment recorded is positive. *)
Definition payments_positive (d : db) : Prop :=
  Forall (fun p => 0 < amount p) (payments d).

(** Requests other than the deletion of an order. *)
Definition keeps_payments (r : request) : Prop :=
  match r with
  | DeleteOrder _ => False
  | _ => True
  end.

(** The sales, cash and card, recorded on the shifts of user [u]. *)
Definition shift_sales (u : Z) (l : list cashier_shift) : Z :=
  fold_right Z.add 0
    (map (fun s => sales_amount_cash s + sales_amount_card s)
         (filter (fun s => user_id s =? u) l)).

(** The payments recorded with cashier [u]. *)
Definition paid_by (u : Z) (l : list payment) : Z :=
  fold_right Z.add 0
    (map amount
         (filter (fun p => match p_cashier_id p with
                           | Some c => c =? u
                           | None => false
                           end) l)).

(** No shift records more sales than its cashier has taken payments. *)
Definition sales_covered (d : db) : Prop :=
  forall u, shift_sales u (cashier_shifts d) <= paid_by u (payments d).

(** What never changes in a shift row, and what no longer changes once the
    shift is closed. *)
Definition frozen (s s' : cashier_shift) : Prop :=
  shift_id s' = shift_id s /\ user_id s' = user_id s /\
  (shift_end s <> None ->
   shift_end s' = shift_end s /\
   sales_amount_cash s' = sales_amount_cash s /\
   sales_amount_card s' = sales_amount_card s).

(** The rows of [l] are still there in [l'], in their places, each frozen;
    [l'] may hold further rows after them. *)
Definition shifts_kept (l l' : list cashier_shift) : Prop :=
  exists l1 l2, l' = l1 ++ l2 /\ Forall2 frozen l l1.


(** What [PUT /api/shifts/:id] may do to a row: nothing to a row of another
    key; to the row of its key, nothing to the key, the user, the end and the
    sales totals, and to each other column only what the body gives, a column
    that holds a value never being emptied. *)
Definition adjusted (req : Req.adjust_shift) (s s' : cashier_shift) : Prop :=
  (shift_id s <> Req.as_id req -> s' = s) /\
  shift_id s' = shift_id s /\ user_id s' = user_id s /\
  shift_end s' = shift_end s /\
  sales_amount_cash s' = sales_amount_cash s /\
  sales_amount_card s' = sales_amount_card s /\
  (Req.as_opening_cash req = None -> opening_cash s' = opening_cash s) /\
  (Req.as_closing_cash req = None -> closing_cash s' = closing_cash s) /\
  (Req.as_cash_in req = None -> cash_in s' = cash_in s) /\
  (Req.as_cash_out req = None -> cash_out s' = cash_out s) /\
  (Req.as_reconciled req = None -> reconciled s' = reconciled s) /\
  (Req.as_notes req = None -> s_notes s' = s_notes s) /\
  (closing_cash s <> None -> closing_cash s' <> None) /\
  (cash_in s <> None -> cash_in s' <> None) /\
  (cash_out s <> None -> cash_out s' <> None) /\
  (reconciled s <> None -> reconciled s' <> None) /\
  (s_notes s <> None -> s_notes s' <> None).

(** ** Further scenarios *)

(** A verifier of tokens that knows two of them. *)
Definition ex_jwt_verify (t : string) : option (option principal) :=
  if String.eqb t "token-of-the-owner" then
    Some (Some {| pr_user_id := 7; pr_role := Some "owner"%string |})
  else if String.eqb t "token-of-a-cashier" then
    Some (Some {| pr_user_id := 8; pr_role := Some "cashier"%string |})
  else None.

Definition ex_owner : principal :=
  {| pr_user_id := 7; pr_role := Some "owner"%string |}.

Definition ex_cashier : principal :=
  {| pr_user_id := 8; pr_role := Some "cashier"%string |}.

(** The shift of [ex_morning] and its summary. *)
Definition ex_morning_shift : cashier_shift := opened_shift ex_start ex_shop.

Definition ex_morning_summary : shift_summary :=
  {| summary_shift := ex_morning_shift; expected_cash_balance := 10000;
     cash_discrepancy := None |}.

(** The order of [ex_fifteen]. *)
Definition ex_fifteen_order : order :=
  {| order_id := 1; table_number := Some "T1"%string; status := "pending";
     total_amount := 1500; discount_amount := 0; final_amount := 1500;
     cashier_id := Some 7; notes := None |}.

(** [ex_morning] before its discount. *)
Definition ex_ordered : db :=
  run [ StartShift ex_start; CreateOrder (ex_create ex_breakfast) ] ex_shop.

(** The shop with the breakfast ordered, and nothing else. *)
Definition ex_breakfast_ordered : db :=
  fst (createOrder (ex_create ex_breakfast) ex_shop).

(** The shop without its bagel, and without its retired discount. *)
Definition ex_no_bagel : db := fst (deleteMenuItem 2 ex_shop).

Definition ex_no_retired : db := fst (deleteDiscount 3 ex_shop).

(** The shift of [ex_settled] is ended at time 50 with 112.15 in the till. *)
Definition ex_end : Req.end_shift :=
  {| Req.es_id := 1; Req.es_closing_cash := Some 112.15%Q;
     Req.es_notes := None |}.

Definition ex_evening : db := fst (endShift ex_end 50 ex_settled).

Definition ex_evening_shift : cashier_shift :=
  {| shift_id := 1; user_id := 7; shift_end := Some 50;
     opening_cash := 10000; closing_cash := Some 11215;
     cash_in := Some 0; cash_out := Some 0;
     sales_amount_cash := 1215; sales_amount_card := 0;
     s_notes := None; reconciled := Some false |}.

(** What follows the end of the shift: a payment on the same order with the
    same cashier, and a new shift of the same user. *)
Definition ex_next_day : list request :=
  [ RecordPayment (ex_pay 1 "cash" 1 (Some 7)); StartShift ex_start ].

(** The requests of [ex_morning]. *)
Definition ex_morning_requests : list request :=
  [ StartShift ex_start;
    CreateOrder (ex_create [ex_item 1 2 5.00; ex_item 2 1 3.50]);
    UpdateOrder (ex_update 1 None (Some 1)) ].

(** ** Rounding *)

Lemma Qfloor_unique (x : Q) (n : Z) :
  (inject_Z n <= x)%Q -> (x < inject_Z (n + 1))%Q -> Qfloor x = n.
Proof.
  intros Hle Hlt.
  pose proof (Qfloor_le x) as H1.
  pose proof (Qlt_floor x) as H2.
  assert (A : (inject_Z (Qfloor x) < inject_Z (n + 1))%Q) by lra.
  assert (B : (inject_Z n < inject_Z (Qfloor x + 1))%Q) by lra.
  rewrite <- Zlt_Qlt in A, B. lia.
Qed.

Lemma inject_Z_nonneg (z : Z) : 0 <= z -> (0 <= inject_Z z)%Q.
Proof. intros H. change 0%Q with (inject_Z 0). now rewrite <- Zle_Qle. Qed.

Lemma inject_Z_neg (z : Z) : z < 0 -> (inject_Z z < 0)%Q.
Proof. intros H. change 0%Q with (inject_Z 0). now rewrite <- Zlt_Qlt. Qed.

Lemma Qfloor_shift (n : Z) (x : Q) : Qfloor (inject_Z n + x) = n + Qfloor x.
Proof.
  apply Qfloor_unique.
  - rewrite inject_Z_plus. pose proof (Qfloor_le x). lra.
  - replace (n + Qfloor x + 1) with (n + (Qfloor x + 1)) by lia.
    rewrite inject_Z_plus. pose proof (Qlt_floor x). lra.
Qed.

#[export] Instance numeric_round_comp : Proper (Qeq ==> eq) numeric_round.
Proof.
  intros x y E. unfold numeric_round.
  assert (Hb : Qle_bool 0 x = Qle_bool 0 y).
  { destruct (Qle_bool 0 x) eqn:Hx, (Qle_bool 0 y) eqn:Hy; auto.
    - rewrite Qle_bool_iff in Hx. rewrite E in Hx. rewrite <- Qle_bool_iff in Hx. congruence.
    - rewrite Qle_bool_iff in Hy. rewrite <- E in Hy. rewrite <- Qle_bool_iff in Hy. congruence. }
  rewrite Hb. destruct (Qle_bool 0 y); now rewrite E.
Qed.

#[export] Instance to_cents_comp : Proper (Qeq ==> eq) to_cents.
Proof. intros x y E. unfold to_cents. now rewrite E. Qed.

Lemma numeric_round_nonneg (q : Q) : (0 <= q)%Q -> numeric_round q = Qfloor (q + (1 # 2)).
Proof. intros H. unfold numeric_round. apply Qle_bool_iff in H. now rewrite H. Qed.

Lemma numeric_round_neg (q : Q) : (q < 0)%Q -> numeric_round q = - Qfloor (- q + (1 # 2)).
Proof.
  intros H. unfold numeric_round. destruct (Qle_bool 0 q) eqn:E; auto.
  apply Qle_bool_iff in E. lra.
Qed.

Lemma numeric_round_inject_Z (z : Z) : numeric_round (inject_Z z) = z.
Proof.
  destruct (Z_le_gt_dec 0 z) as [H|H].
  - rewrite numeric_round_nonneg by (apply inject_Z_nonneg; exact H).
    apply Qfloor_unique; [lra|]. rewrite inject_Z_plus. change (inject_Z 1) with 1%Q. lra.
  - assert (Hq : (inject_Z z < 0)%Q) by (apply inject_Z_neg; lia).
    rewrite numeric_round_neg by exact Hq.
    enough (Qfloor (- inject_Z z + (1 # 2)) = - z) by lia.
    apply Qfloor_unique.
    + rewrite inject_Z_opp. lra.
    + rewrite inject_Z_plus, inject_Z_opp. change (inject_Z 1) with 1%Q. lra.
Qed.

Lemma numeric_round_near (q : Q) :
  (inject_Z (numeric_round q) - (1 # 2) <= q)%Q /\ (q <= inject_Z (numeric_round q) + (1 # 2))%Q.
Proof.
  destruct (Qlt_le_dec q 0) as [H|H].
  - rewrite numeric_round_neg by exact H. rewrite inject_Z_opp.
    pose proof (Qfloor_le (- q + (1 # 2))). pose proof (Qlt_floor (- q + (1 # 2))) as L.
    rewrite inject_Z_plus in L. change (inject_Z 1) with 1%Q in L. split; lra.
  - rewrite numeric_round_nonneg by exact H.
    pose proof (Qfloor_le (q + (1 # 2))). pose proof (Qlt_floor (q + (1 # 2))) as L.
    rewrite inject_Z_plus in L. change (inject_Z 1) with 1%Q in L. split; lra.
Qed.

Lemma numeric_round_sign (q : Q) : (0 <= q)%Q -> 0 <= numeric_round q.
Proof.
  intros H. rewrite numeric_round_nonneg by exact H.
  change 0 with (Qfloor 0). apply Qfloor_resp_le. lra.
Qed.

Lemma numeric_round_sign_neg (q : Q) : (q <= 0)%Q -> numeric_round q <= 0.
Proof.
  intros H. destruct (Qlt_le_dec q 0) as [H'|H'].
  - rewrite numeric_round_neg by exact H'.
    enough (0 <= Qfloor (- q + (1 # 2))) by lia.
    change 0 with (Qfloor 0). apply Qfloor_resp_le. lra.
  - assert (E : (q == inject_Z 0)%Q) by (change (inject_Z 0) with 0%Q; lra).
    rewrite E, numeric_round_inject_Z. lia.
Qed.

Lemma numeric_round_mono (x y : Q) : (x <= y)%Q -> numeric_round x <= numeric_round y.
Proof.
  intros H. destruct (Qlt_le_dec x 0) as [Hx|Hx], (Qlt_le_dec y 0) as [Hy|Hy].
  - rewrite !numeric_round_neg by assumption.
    enough (Qfloor (- y + (1 # 2)) <= Qfloor (- x + (1 # 2))) by lia.
    apply Qfloor_resp_le. lra.
  - pose proof (numeric_round_sign_neg x ltac:(lra)). pose proof (numeric_round_sign y Hy). lia.
  - lra.
  - rewrite !numeric_round_nonneg by assumption. apply Qfloor_resp_le. lra.
Qed.

Lemma numeric_round_shift (n : Z) (q : Q) :
  0 <= n -> (0 <= q)%Q -> numeric_round (inject_Z n + q) = n + numeric_round q.
Proof.
  intros Hn Hq.
  assert (Hn' : (0 <= inject_Z n)%Q) by (apply inject_Z_nonneg; exact Hn).
  rewrite !numeric_round_nonneg by lra.
  rewrite <- Qfloor_shift. apply Qfloor_comp. lra.
Qed.

Lemma to_cents_of_cents (c : Z) : to_cents (of_cents c) = c.
Proof.
  unfold to_cents, of_cents.
  assert (E : (inject_Z c / 100 * 100 == inject_Z c)%Q) by (field).
  rewrite E. apply numeric_round_inject_Z.
Qed.

(** ** Statements inside a transaction *)

Ltac inv_bind H :=
  match type of H with
  | bind ?r _ = Ok _ =>
      let E := fresh "E" in
      destruct r eqn:E; simpl in H; [ | discriminate H ]
  end.

Lemma guard_Ok (b : bool) (e : error) (u : unit) : guard b e = Ok u -> b = true.
Proof. destruct b; simpl; [ reflexivity | discriminate ]. Qed.

Lemma decimal_10_2_Ok (q : Q) (c : Z) : decimal_10_2 q = Ok c -> c = to_cents q.
Proof.
  unfold decimal_10_2. destruct (Z.abs (to_cents q) <? 10 ^ 10); congruence.
Qed.

Lemma decimal_10_2_fits (q : Q) :
  Z.abs (to_cents q) < 10 ^ 10 -> decimal_10_2 q = Ok (to_cents q).
Proof.
  intros H. unfold decimal_10_2. apply Z.ltb_lt in H. now rewrite H.
Qed.

Lemma varchar_Ok (n : nat) (s s' : string) :
  varchar n s = Ok s' -> s' = fst (clip n s).
Proof. unfold varchar. destruct (spaces _); congruence. Qed.

Lemma int4_Ok (n : Z) (u : unit) : int4 n = Ok u -> - 2 ^ 31 <= n < 2 ^ 31.
Proof.
  unfold int4. intros H. apply guard_Ok in H. apply andb_true_iff in H.
  destruct H as [ H1 H2 ]. apply Z.leb_le in H1. apply Z.ltb_lt in H2. lia.
Qed.

Lemma int4_fits (n : Z) : - 2 ^ 31 <= n < 2 ^ 31 -> int4 n = Ok tt.
Proof.
  intros [ H1 H2 ]. unfold int4. apply Z.leb_le in H1. apply Z.ltb_lt in H2.
  now rewrite H1, H2.
Qed.

Lemma update_where_map {A : Type} (p : A -> bool) (f : A -> result A)
    (g : A -> A) (l l' : list A) :
  update_where p f l = Ok l' ->
  (forall x y, In x l -> p x = true -> f x = Ok y -> y = g x) ->
  l' = map (fun x => if p x then g x else x) l.
Proof.
  revert l'. induction l as [ | x rest IH ]; simpl; intros l' H Hg.
  - congruence.
  - inv_bind H. inv_bind H. injection H as <-.
    f_equal.
    + destruct (p x) eqn:Px; [ | congruence ].
      apply Hg; auto.
    + apply IH; auto.
Qed.

Lemma update_where_none {A : Type} (p : A -> bool) (f : A -> result A)
    (l : list A) :
  filter p l = [] -> update_where p f l = Ok l.
Proof.
  induction l as [ | x rest IH ]; simpl; intros H; [ reflexivity | ].
  destruct (p x); [ discriminate | ].
  simpl. rewrite IH by exact H. reflexivity.
Qed.

Lemma update_where_total {A : Type} (p : A -> bool) (f : A -> result A)
    (g : A -> A) (l : list A) :
  (forall x, In x l -> p x = true -> f x = Ok (g x)) ->
  update_where p f l = Ok (map (fun x => if p x then g x else x) l).
Proof.
  induction l as [ | x rest IH ]; simpl; intros H; [ reflexivity | ].
  rewrite IH by auto.
  destruct (p x) eqn:Px; simpl; [ rewrite H by auto | ]; reflexivity.
Qed.

(** ** Payments: what a committed call leaves behind *)

Lemma to_cents_credit (old : Z) (a : Q) :
  0 <= old -> 0 < to_cents a ->
  to_cents (of_cents old + a) = old + to_cents a.
Proof.
  intros Hold Ha. unfold to_cents in *.
  assert (Hpos : (0 <= a * 100)%Q).
  { destruct (Qlt_le_dec (a * 100) 0) as [Hn | Hn]; [ | exact Hn ].
    pose proof (numeric_round_sign_neg (a * 100) ltac:(lra)). lia. }
  assert (E : ((of_cents old + a) * 100 == inject_Z old + a * 100)%Q)
    by (unfold of_cents; field).
  rewrite E. apply numeric_round_shift; assumption.
Qed.

Lemma insert_payment_Ok (req : Req.record_payment) (d d1 : db) (p : payment) :
  insert_payment req d = Ok (p, d1) ->
  d1 = set_payments (payments d ++ [p]) d /\
  amount p = to_cents (Req.rp_amount req) /\ 0 < amount p /\
  p_order_id p = Req.rp_order_id req /\
  payment_method p = fst (clip 50 (Req.rp_payment_method req)) /\
  existsb (fun o => order_id o =? Req.rp_order_id req) (orders d) = true.
Proof.
  unfold insert_payment. intros H.
  inv_bind H. inv_bind H. inv_bind H. inv_bind H. inv_bind H. inv_bind H.
  injection H as <- <-. simpl.
  apply varchar_Ok in E. apply decimal_10_2_Ok in E0.
  apply guard_Ok in E2. apply Z.ltb_lt in E2.
  unfold references_order in E3. apply guard_Ok in E3.
  subst. auto 10.
Qed.

Lemma add_sales_cash_Ok (a : Q) (s s' : cashier_shift) :
  0 <= sales_amount_cash s -> 0 < to_cents a ->
  add_sales_cash a s = Ok s' -> s' = credit_cash (to_cents a) s.
Proof.
  intros H0 Ha H. unfold add_sales_cash in H. inv_bind H.
  apply decimal_10_2_Ok in E. rewrite to_cents_credit in E by assumption.
  injection H as <-. subst. reflexivity.
Qed.

Lemma add_sales_card_Ok (a : Q) (s s' : cashier_shift) :
  0 <= sales_amount_card s -> 0 < to_cents a ->
  add_sales_card a s = Ok s' -> s' = credit_card (to_cents a) s.
Proof.
  intros H0 Ha H. unfold add_sales_card in H. inv_bind H.
  apply decimal_10_2_Ok in E. rewrite to_cents_credit in E by assumption.
  injection H as <-. subst. reflexivity.
Qed.

(** The shift step, once it has gone through. *)
Lemma update_shift_sales_Ok (req : Req.record_payment) (d d' : db) :
  sales_nonneg d -> 0 < to_cents (Req.rp_amount req) ->
  update_shift_sales req d = Ok d' ->
  orders d' = orders d /\ payments d' = payments d /\
  orders_order_id_seq d' = orders_order_id_seq d /\
  cashier_shifts d' =
    match truthy (Req.rp_cashier_id req) with
    | Some cashier =>
        on_active_shifts cashier
          (if String.eqb (toLowerCase (Req.rp_payment_method req)) "cash"
           then credit_cash (to_cents (Req.rp_amount req))
           else credit_card (to_cents (Req.rp_amount req)))
          (cashier_shifts d)
    | None => cashier_shifts d
    end.
Proof.
  intros Hnn Ha H. unfold update_shift_sales in H.
  destruct (truthy (Req.rp_cashier_id req)) as [ cashier | ].
  - inv_bind H. injection H as <-. simpl. repeat split.
    unfold sales_nonneg in Hnn. rewrite Forall_forall in Hnn.
    destruct (String.eqb _ _).
    + apply update_where_map with (g := credit_cash (to_cents (Req.rp_amount req))) in E;
        [ exact E | ].
      intros x y Hx _ Hy. apply add_sales_cash_Ok in Hy; auto. apply Hnn; auto.
    + apply update_where_map with (g := credit_card (to_cents (Req.rp_amount req))) in E;
        [ exact E | ].
      intros x y Hx _ Hy. apply add_sales_card_Ok in Hy; auto. apply Hnn; auto.
  - injection H as <-. auto.
Qed.

Lemma of_cents_le (a b : Z) : (of_cents a <= of_cents b)%Q <-> a <= b.
Proof.
  rewrite Zle_Qle. unfold of_cents, Qdiv. change (/ 100)%Q with (1 # 100)%Q.
  split; intros H.
  - apply Qmult_le_r in H; [ exact H | reflexivity ].
  - apply Qmult_le_r; [ reflexivity | exact H ].
Qed.

Lemma completion_check_Ok (id : Z) (seen d d' : db) :
  completion_check id seen d = Ok d' ->
  exists o, find_order id seen = Some o /\
    payments d' = payments d /\ cashier_shifts d' = cashier_shifts d /\
    (final_amount o <= total_paid id seen ->
       orders d' = complete_order id (orders d)) /\
    (total_paid id seen < final_amount o -> d' = d).
Proof.
  unfold completion_check, find_order. intros H.
  destruct (find _ (orders seen)) as [ o | ]; [ | discriminate ].
  exists o. split; [ reflexivity | ].
  destruct (Qle_bool _ _) eqn:HQ.
  - injection H as <-. simpl. repeat split; auto.
    intros Hlt. exfalso. apply Qle_bool_iff in HQ. apply (proj1 (of_cents_le _ _)) in HQ. lia.
  - injection H as <-. repeat split; auto.
    intros Hle. exfalso.
    assert (HQ' : Qle_bool (of_cents (final_amount o)) (of_cents (total_paid id seen)) = true).
    { apply Qle_bool_iff. apply (proj2 (of_cents_le _ _)). exact Hle. }
    congruence.
Qed.

Lemma existsb_find {A : Type} (f : A -> bool) (l : list A) :
  existsb f l = true -> exists x, find f l = Some x.
Proof.
  induction l as [ | a l IH ]; simpl; [ discriminate | ].
  destruct (f a); [ eauto | exact IH ].
Qed.

Lemma set_cashier_shifts_same (d : db) :
  set_cashier_shifts (cashier_shifts d) (cashier_shifts_shift_id_seq d) d = d.
Proof. destruct d; reflexivity. Qed.

Lemma payment_response_created (d d' : db) (p : payment)
    (r : result (payment * db)) :
  payment_response d r = (d', created p) -> r = Ok (p, d').
Proof.
  unfold payment_response, created, server_error.
  destruct r as [ [ p0 d0 ] | e ]; intros H; [ | discriminate ].
  injection H as -> ->. reflexivity.
Qed.

Lemma payment_response_cases (d : db) (r : result (payment * db)) :
  payment_response d r = (d, server_error) \/
  exists d' p, r = Ok (p, d') /\ payment_response d r = (d', created p).
Proof.
  destruct r as [ [ p d' ] | e ]; simpl; [ right | left ]; eauto.
Qed.

(** The three steps of a committed payment, for each version. *)
Lemma recordPayment_steps (req : Req.record_payment) (d d' : db) (p : payment) :
  recordPayment req d = (d', created p) ->
  exists d1 d2, insert_payment req d = Ok (p, d1) /\
    update_shift_sales req d1 = Ok d2 /\
    completion_check (Req.rp_order_id req) d2 d2 = Ok d'.
Proof.
  intros H. apply payment_response_created in H.
  unfold recordPayment_tx in H.
  inv_bind H. inv_bind H. inv_bind H. destruct a as [ p0 d1 ].
  simpl in *. injection H as -> ->. eauto.
Qed.

Lemma recordPayment_auth_steps (req : Req.record_payment) (d d' : db) (p : payment) :
  recordPayment_auth req d = (d', created p) ->
  exists d1 d2, insert_payment req d = Ok (p, d1) /\
    update_shift_sales req d1 = Ok d2 /\
    completion_check (Req.rp_order_id req) d d2 = Ok d'.
Proof.
  intros H. apply payment_response_created in H.
  unfold recordPayment_auth_tx in H.
  inv_bind H. inv_bind H. inv_bind H. destruct a as [ p0 d1 ].
  simpl in *. injection H as -> ->. eauto.
Qed.

Lemma insert_payment_rejects (req : Req.record_payment) (d : db) :
  (Req.rp_amount req <= 0)%Q -> exists e, insert_payment req d = Err e.
Proof.
  intros H. unfold insert_payment.
  destruct (varchar 50 _); simpl; [ | eauto ].
  destruct (decimal_10_2 _) as [ c | ] eqn:E; simpl; [ | eauto ].
  destruct (varchar_opt 100 _); simpl; [ | eauto ].
  apply decimal_10_2_Ok in E.
  assert (Hc : c <= 0).
  { subst c. apply numeric_round_sign_neg.
    assert (G : (Req.rp_amount req * 100 <= 0 * 100)%Q)
      by (apply Qmult_le_compat_r; [ exact H | discriminate ]).
    exact G. }
  assert (Hb : (0 <? c) = false) by (apply Z.ltb_ge; exact Hc).
  rewrite Hb. simpl. eauto.
Qed.

(** The shift table after a committed payment with a cashier. *)
Lemma committed_shifts (req : Req.record_payment) (d d1 d2 d' : db)
    (p : payment) (seen : db) :
  sales_nonneg d ->
  insert_payment req d = Ok (p, d1) ->
  update_shift_sales req d1 = Ok d2 ->
  completion_check (Req.rp_order_id req) seen d2 = Ok d' ->
  payments d' = payments d ++ [p] /\
  cashier_shifts d' =
    match truthy (Req.rp_cashier_id req) with
    | Some cashier =>
        on_active_shifts cashier
          (if String.eqb (toLowerCase (Req.rp_payment_method req)) "cash"
           then credit_cash (amount p) else credit_card (amount p))
          (cashier_shifts d)
    | None => cashier_shifts d
    end.
Proof.
  intros Hnn Hi Hs Hc.
  apply insert_payment_Ok in Hi.
  destruct Hi as (-> & Ha & Hpos & _).
  apply update_shift_sales_Ok in Hs; [ | exact Hnn | rewrite <- Ha; exact Hpos ].
  destruct Hs as (_ & Hp & _ & Hsh).
  apply completion_check_Ok in Hc.
  destruct Hc as (o & _ & Hp' & Hs' & _).
  rewrite Hp', Hp, Hs', Hsh, Ha. simpl. split; reflexivity.
Qed.

Lemma on_active_shifts_none (cashier : Z) (f : cashier_shift -> cashier_shift)
    (l : list cashier_shift) :
  filter (is_active_shift_of cashier) l = [] -> on_active_shifts cashier f l = l.
Proof.
  unfold on_active_shifts. induction l as [ | s l IH ]; simpl; intros H.
  - reflexivity.
  - destruct (is_active_shift_of cashier s); [ discriminate | ].
    now rewrite IH.
Qed.

Lemma update_shift_sales_frame (req : Req.record_payment) (d d' : db) :
  update_shift_sales req d = Ok d' ->
  orders d' = orders d /\ payments d' = payments d /\
  order_items d' = order_items d /\
  orders_order_id_seq d' = orders_order_id_seq d.
Proof.
  unfold update_shift_sales. intros H.
  destruct (truthy (Req.rp_cashier_id req)).
  - inv_bind H. injection H as <-. simpl. auto.
  - injection H as <-. auto.
Qed.

Lemma find_complete_order (id : Z) (l : list order) :
  find (fun o => order_id o =? id) (complete_order id l) =
  option_map complete (find (fun o => order_id o =? id) l).
Proof.
  unfold complete_order. induction l as [ | o l IH ]; simpl; [ reflexivity | ].
  destruct (order_id o =? id) eqn:E; simpl; rewrite E; [ reflexivity | exact IH ].
Qed.

(** Whether the shift step goes through depends on the room left in the
    sales columns only. *)
Lemma update_shift_sales_fits (req : Req.record_payment) (d : db) :
  sales_nonneg d -> 0 < to_cents (Req.rp_amount req) ->
  Forall (fun s =>
            sales_amount_cash s + to_cents (Req.rp_amount req) < 10 ^ 10 /\
            sales_amount_card s + to_cents (Req.rp_amount req) < 10 ^ 10)
         (cashier_shifts d) ->
  exists d', update_shift_sales req d = Ok d'.
Proof.
  intros Hnn Ha Hfit. unfold update_shift_sales.
  destruct (truthy (Req.rp_cashier_id req)) as [ cashier | ]; [ | eauto ].
  unfold sales_nonneg in Hnn. rewrite Forall_forall in Hnn, Hfit.
  destruct (String.eqb _ _).
  - rewrite (update_where_total _ _ (credit_cash (to_cents (Req.rp_amount req)))).
    + simpl. eauto.
    + intros s Hs _. unfold add_sales_cash.
      destruct (Hnn s Hs) as [ H0 _ ]. destruct (Hfit s Hs) as [ H1 _ ].
      rewrite decimal_10_2_fits; rewrite to_cents_credit by assumption;
        [ reflexivity | lia ].
  - rewrite (update_where_total _ _ (credit_card (to_cents (Req.rp_amount req)))).
    + simpl. eauto.
    + intros s Hs _. unfold add_sales_card.
      destruct (Hnn s Hs) as [ _ H0 ]. destruct (Hfit s Hs) as [ _ H1 ].
      rewrite decimal_10_2_fits; rewrite to_cents_credit by assumption;
        [ reflexivity | lia ].
Qed.

Lemma completion_check_total (id : Z) (seen d : db) :
  existsb (fun o => order_id o =? id) (orders seen) = true ->
  exists d', completion_check id seen d = Ok d'.
Proof.
  intros H. apply existsb_find in H. destruct H as [ o Ho ].
  unfold completion_check. rewrite Ho.
  destruct (Qle_bool _ _); eauto.
Qed.

(** C1, as amended: completion follows from full payment, and a payment
    never takes a status away.  After [recordPayment] commits, the order
    paid for is 'completed' if the amounts of its payments, the new one
    included, add up to at least its [final_amount]; if they do not, the
    orders are left as they were.  With the role middleware the check reads
    another connection; there too the status is either set to 'completed'
    or left alone. *)
Theorem C1_completed_when_paid (req : Req.record_payment) (d d' : db) (p : payment) :
  (recordPayment req d = (d', created p) ->
   payments d' = payments d ++ [p] /\
   exists o', find_order (Req.rp_order_id req) d' = Some o' /\
     (final_amount o' <= total_paid (Req.rp_order_id req) d' ->
        status o' = "completed"%string) /\
     (total_paid (Req.rp_order_id req) d' < final_amount o' ->
        orders d' = orders d)) /\
  (recordPayment_auth req d = (d', created p) ->
   orders d' = orders d \/
   orders d' = complete_order (Req.rp_order_id req) (orders d)).
Proof.
  split; intros H.
  - apply recordPayment_steps in H. destruct H as (d1 & d2 & Hi & Hs & Hc).
    apply insert_payment_Ok in Hi. destruct Hi as (-> & _).
    apply update_shift_sales_frame in Hs. destruct Hs as (Ho & Hp & _).
    simpl in Ho, Hp.
    apply completion_check_Ok in Hc.
    destruct Hc as (o & Hf & Hp' & _ & Hdone & Hnot).
    assert (Hpaid : total_paid (Req.rp_order_id req) d' =
                    total_paid (Req.rp_order_id req) d2)
      by (unfold total_paid; now rewrite Hp').
    split; [ now rewrite Hp', Hp | ].
    destruct (Z_le_gt_dec (final_amount o) (total_paid (Req.rp_order_id req) d2))
      as [ Hle | Hgt ].
    + exists (complete o). unfold find_order in *.
      rewrite (Hdone Hle), find_complete_order, Hf. simpl.
      split; [ reflexivity | ]. split; [ reflexivity | ].
      rewrite Hpaid. lia.
    + assert (Hd : d' = d2) by (apply Hnot; lia). subst d'.
      exists o. split; [ exact Hf | ]. split; [ lia | ].
      intros _. exact Ho.
  - apply recordPayment_auth_steps in H. destruct H as (d1 & d2 & Hi & Hs & Hc).
    apply insert_payment_Ok in Hi. destruct Hi as (-> & _).
    apply update_shift_sales_frame in Hs. destruct Hs as (Ho & _).
    simpl in Ho.
    apply completion_check_Ok in Hc.
    destruct Hc as (o & _ & _ & _ & Hdone & Hnot).
    destruct (Z_le_gt_dec (final_amount o) (total_paid (Req.rp_order_id req) d))
      as [ Hle | Hgt ].
    + right. rewrite (Hdone Hle). now rewrite Ho.
    + left. rewrite (Hnot ltac:(lia)). exact Ho.
Qed.

Lemma committed_payments (req : Req.record_payment) (d d1 d2 d' : db)
    (p : payment) (seen : db) :
  insert_payment req d = Ok (p, d1) ->
  update_shift_sales req d1 = Ok d2 ->
  completion_check (Req.rp_order_id req) seen d2 = Ok d' ->
  payments d' = payments d ++ [p].
Proof.
  intros Hi Hs Hc. apply insert_payment_Ok in Hi. destruct Hi as (-> & _).
  apply update_shift_sales_frame in Hs. destruct Hs as (_ & Hp & _).
  apply completion_check_Ok in Hc. destruct Hc as (o & _ & Hp' & _).
  rewrite Hp', Hp. reflexivity.
Qed.

(** C6, as amended.  A payment of a non-positive amount is refused by the
    [INSERT] and answered as every failure is, 500 'Server Error'; the
    database is as it was (no payment row, no shift total, no status).  A
    payment whose row is inserted and whose shift total then does not fit
    is answered the same, and the row is gone with the transaction.  Every
    call either answers 500 and leaves the database as it was, or answers
    201 with the payment recorded; in both versions of the handler. *)
Theorem C6_refused_payment_changes_nothing (req : Req.record_payment) (d : db) :
  ((Req.rp_amount req <= 0)%Q ->
   recordPayment req d = (d, server_error) /\
   recordPayment_auth req d = (d, server_error)) /\
  (forall p d1 e,
     insert_payment req d = Ok (p, d1) ->
     update_shift_sales req d1 = Err e ->
     recordPayment req d = (d, server_error) /\
     recordPayment_auth req d = (d, server_error)) /\
  (recordPayment req d = (d, server_error) \/
   exists d' p, recordPayment req d = (d', created p) /\
                payments d' = payments d ++ [p]) /\
  (recordPayment_auth req d = (d, server_error) \/
   exists d' p, recordPayment_auth req d = (d', created p) /\
                payments d' = payments d ++ [p]).
Proof.
  split; [ | split; [ | split ] ].
  - intros H. destruct (insert_payment_rejects req d H) as [ e He ].
    unfold recordPayment, recordPayment_auth, recordPayment_tx,
      recordPayment_auth_tx.
    rewrite He. simpl. split; reflexivity.
  - intros p d1 e Hi Hs.
    unfold recordPayment, recordPayment_auth, recordPayment_tx,
      recordPayment_auth_tx.
    rewrite Hi. simpl. rewrite Hs. simpl. split; reflexivity.
  - unfold recordPayment.
    destruct (payment_response_cases d (recordPayment_tx req d))
      as [ H | (d' & p & _ & H) ]; [ left; exact H | right ].
    exists d', p. split; [ exact H | ].
    apply recordPayment_steps in H. destruct H as (d1 & d2 & Hi & Hs & Hc).
    exact (committed_payments req d d1 d2 d' p d2 Hi Hs Hc).
  - unfold recordPayment_auth.
    destruct (payment_response_cases d (recordPayment_auth_tx req d))
      as [ H | (d' & p & _ & H) ]; [ left; exact H | right ].
    exists d', p. split; [ exact H | ].
    apply recordPayment_auth_steps in H. destruct H as (d1 & d2 & Hi & Hs & Hc).
    exact (committed_payments req d d1 d2 d' p d Hi Hs Hc).
Qed.

(** C7: a payment with a cashier whose row is accepted by the payments
    table.  If the call commits, the payment is recorded and the cash
    sales (method 'cash') or the card sales (method 'card') of the
    cashier's open shift grow by exactly the amount recorded, the other
    shifts being untouched.  The call commits whenever the sales columns
    have room for the amount; in particular, when the cashier has no open
    shift it commits, records the payment and leaves every shift as it
    was. *)
Theorem C7_shift_sales_credited (req : Req.record_payment) (d d1 : db)
    (p : payment) (cashier : Z) :
  sales_nonneg d ->
  truthy (Req.rp_cashier_id req) = Some cashier ->
  insert_payment req d = Ok (p, d1) ->
  (forall d', recordPayment req d = (d', created p) ->
     payments d' = payments d ++ [p] /\
     (Req.rp_payment_method req = "cash"%string ->
        cashier_shifts d' =
        on_active_shifts cashier (credit_cash (amount p)) (cashier_shifts d)) /\
     (Req.rp_payment_method req = "card"%string ->
        cashier_shifts d' =
        on_active_shifts cashier (credit_card (amount p)) (cashier_shifts d))) /\
  (Forall (fun s => sales_amount_cash s + amount p < 10 ^ 10 /\
                    sales_amount_card s + amount p < 10 ^ 10)
          (cashier_shifts d) ->
   exists d', recordPayment req d = (d', created p)) /\
  (filter (is_active_shift_of cashier) (cashier_shifts d) = [] ->
   exists d', recordPayment req d = (d', created p) /\
     payments d' = payments d ++ [p] /\
     cashier_shifts d' = cashier_shifts d).
Proof.
  intros Hnn Hc Hi.
  assert (Hshape :
    forall d', recordPayment req d = (d', created p) ->
      payments d' = payments d ++ [p] /\
      cashier_shifts d' =
        on_active_shifts cashier
          (if String.eqb (toLowerCase (Req.rp_payment_method req)) "cash"
           then credit_cash (amount p) else credit_card (amount p))
          (cashier_shifts d)).
  { intros d' H. apply recordPayment_steps in H.
    destruct H as (d1' & d2 & Hi' & Hs & Hk).
    pose proof (committed_shifts req d d1' d2 d' p d2 Hnn Hi' Hs Hk) as [ Hp Hsh ].
    rewrite Hc in Hsh. auto. }
  split; [ | split ].
  - intros d' H. destruct (Hshape d' H) as [ Hp Hsh ].
    split; [ exact Hp | ].
    split; intros Hm; rewrite Hm in Hsh; exact Hsh.
  - intros Hfit. pose proof (insert_payment_Ok _ _ _ _ Hi) as (-> & Ha & Hpos & _ & _ & Hex).
    destruct (update_shift_sales_fits req (set_payments (payments d ++ [p]) d))
      as [ d2 Hs ]; [ exact Hnn | rewrite <- Ha; exact Hpos | rewrite <- Ha; exact Hfit | ].
    destruct (completion_check_total (Req.rp_order_id req) d2 d2) as [ d' Hk ].
    { apply update_shift_sales_frame in Hs. destruct Hs as (-> & _). exact Hex. }
    exists d'. unfold recordPayment, recordPayment_tx.
    rewrite Hi. simpl. rewrite Hs. simpl. rewrite Hk. reflexivity.
  - intros Hnone. pose proof (insert_payment_Ok _ _ _ _ Hi) as (-> & _ & _ & _ & _ & Hex).
    assert (Hs : update_shift_sales req (set_payments (payments d ++ [p]) d) =
                 Ok (set_payments (payments d ++ [p]) d)).
    { unfold update_shift_sales. rewrite Hc.
      destruct (String.eqb _ _); rewrite update_where_none by exact Hnone;
        simpl; reflexivity. }
    destruct (completion_check_total (Req.rp_order_id req)
                (set_payments (payments d ++ [p]) d)
                (set_payments (payments d ++ [p]) d)) as [ d' Hk ];
      [ exact Hex | ].
    assert (H : recordPayment req d = (d', created p)).
    { unfold recordPayment, recordPayment_tx.
      rewrite Hi. simpl. rewrite Hs. simpl. rewrite Hk. reflexivity. }
    exists d'. split; [ exact H | ].
    destruct (Hshape d' H) as [ Hp Hsh ]. split; [ exact Hp | ].
    rewrite Hsh. apply on_active_shifts_none. exact Hnone.
Qed.

(** C9: with a cashier, the column credited is chosen by one test: the
    method lowered is 'cash' or it is not.  Every other method ('card',
    'voucher', 'transfer', ...) credits the card sales of the open shift by
    the amount recorded; 'cash' in any letter case credits the cash sales.
    Both versions of the handler. *)
Theorem C9_any_method_but_cash_is_card (req : Req.record_payment) (d d' : db)
    (p : payment) (cashier : Z) :
  sales_nonneg d ->
  truthy (Req.rp_cashier_id req) = Some cashier ->
  recordPayment req d = (d', created p) \/
  recordPayment_auth req d = (d', created p) ->
  (toLowerCase (Req.rp_payment_method req) <> "cash"%string ->
   cashier_shifts d' =
   on_active_shifts cashier (credit_card (amount p)) (cashier_shifts d)) /\
  (toLowerCase (Req.rp_payment_method req) = "cash"%string ->
   cashier_shifts d' =
   on_active_shifts cashier (credit_cash (amount p)) (cashier_shifts d)).
Proof.
  intros Hnn Hc H.
  assert (Hsh : cashier_shifts d' =
    on_active_shifts cashier
      (if String.eqb (toLowerCase (Req.rp_payment_method req)) "cash"
       then credit_cash (amount p) else credit_card (amount p))
      (cashier_shifts d)).
  { destruct H as [ H | H ];
      [ apply recordPayment_steps in H | apply recordPayment_auth_steps in H ];
      destruct H as (d1 & d2 & Hi & Hs & Hk);
      [ pose proof (committed_shifts req d d1 d2 d' p d2 Hnn Hi Hs Hk) as [ _ E ]
      | pose proof (committed_shifts req d d1 d2 d' p d Hnn Hi Hs Hk) as [ _ E ] ];
      rewrite Hc in E; exact E. }
  split; intros Hm.
  - apply String.eqb_neq in Hm. rewrite Hm in Hsh. exact Hsh.
  - apply String.eqb_eq in Hm. rewrite Hm in Hsh. exact Hsh.
Qed.

(** ** Orders: the item loop *)

Lemma insert_order_item_Ok (id : Z) (it : Req.item) (name : string) (d d' : db) :
  insert_order_item id it name d = Ok d' ->
  d' = set_order_items
         (order_items d ++
          [{| oi_order_id := id; oi_item_id := Req.item_id it;
              oi_item_name := name; quantity := Req.quantity it;
              unit_price := to_cents (Req.unit_price it);
              item_total := to_cents (inject_Z (Req.quantity it) * Req.unit_price it);
              oi_notes := Req.notes it |}]) d /\
  existsb (fun o => order_id o =? id) (orders d) = true.
Proof.
  unfold insert_order_item. intros H.
  inv_bind H. inv_bind H. inv_bind H. inv_bind H. inv_bind H. inv_bind H.
  injection H as <-.
  apply decimal_10_2_Ok in E0, E1. subst.
  unfold references_order in E4. apply guard_Ok in E4. auto.
Qed.

Lemma insert_order_item_accepts (id : Z) (it : Req.item) (name : string) (d : db) :
  accepted_item it ->
  existsb (fun o => order_id o =? id) (orders d) = true ->
  exists d', insert_order_item id it name d = Ok d'.
Proof.
  intros (Hq & Hp & Ht) Hex. unfold insert_order_item, references_order.
  rewrite int4_fits by lia. simpl.
  rewrite !decimal_10_2_fits by lia. simpl.
  destruct Hq as [ Hq _ ]. apply Z.ltb_lt in Hq. rewrite Hq. simpl.
  destruct Hp as [ Hp _ ]. apply Z.leb_le in Hp. rewrite Hp. simpl.
  rewrite Hex. simpl. eauto.
Qed.

Lemma insert_items_Ok (id : Z) (items : list Req.item) (d d' : db) :
  insert_items id items d = Ok d' ->
  exists rows, d' = set_order_items (order_items d ++ rows) d /\
    Forall2 (stored_item id d) items rows /\
    (items <> [] -> existsb (fun o => order_id o =? id) (orders d) = true).
Proof.
  revert d. induction items as [ | it rest IH ]; simpl; intros d H.
  - injection H as <-. exists []. rewrite app_nil_r.
    split; [ destruct d; reflexivity | ]. split; [ constructor | congruence ].
  - destruct (select_menu_item (Req.item_id it) d) as [ m | ] eqn:Hm;
      [ | discriminate ].
    inv_bind H. apply insert_order_item_Ok in E. destruct E as [ -> Hex ].
    apply IH in H. destruct H as (rows & -> & Hrows & _).
    eexists (_ :: rows). simpl. rewrite <- app_assoc. simpl.
    split; [ reflexivity | ]. split; [ | auto ].
    constructor; [ exists m; auto | exact Hrows ].
Qed.

Lemma insert_items_unknown (id : Z) (items : list Req.item) (d : db) :
  Exists (fun it => select_menu_item (Req.item_id it) d = None) items ->
  exists e, insert_items id items d = Err e.
Proof.
  intros H. revert d H. induction items as [ | it rest IH ]; intros d H.
  - inversion H.
  - simpl. destruct (select_menu_item (Req.item_id it) d) as [ m | ] eqn:Hm;
      [ | eauto ].
    destruct (insert_order_item id it (mi_item_name m) d) as [ d1 | e ] eqn:E;
      simpl; [ | eauto ].
    apply IH. apply insert_order_item_Ok in E. destruct E as [ -> _ ].
    inversion H as [ ? ? H0 | ? ? H0 ]; subst; [ congruence | exact H0 ].
Qed.

Lemma insert_items_accepts (id : Z) (items : list Req.item) (d : db) :
  Forall accepted_item items ->
  Forall (fun it => select_menu_item (Req.item_id it) d <> None) items ->
  existsb (fun o => order_id o =? id) (orders d) = true ->
  exists d', insert_items id items d = Ok d'.
Proof.
  revert d. induction items as [ | it rest IH ]; simpl; intros d Ha Hr Hex.
  - eauto.
  - inversion Ha as [ | ? ? Ha1 Ha2 ]; subst.
    inversion Hr as [ | ? ? Hr1 Hr2 ]; subst.
    destruct (select_menu_item (Req.item_id it) d) as [ m | ]; [ | congruence ].
    destruct (insert_order_item_accepts id it (mi_item_name m) d Ha1 Hex)
      as [ d1 E ].
    rewrite E. simpl. apply insert_order_item_Ok in E. destruct E as [ -> _ ].
    apply IH; auto.
Qed.

(** The loop of [PUT /:id] is the loop of [POST /] with the sum carried
    along. *)
Lemma update_items_insert_items (id : Z) (items : list Req.item) (acc : Q) (d : db) :
  update_items id items acc d =
  (d' <- insert_items id items d ;;
   Ok (fold_left (fun total_amount item =>
                    (total_amount + inject_Z (fst item) * snd item)%Q)
                 (request_fields items) acc, d')).
Proof.
  revert acc d. induction items as [ | it rest IH ]; simpl; intros acc d.
  - reflexivity.
  - destruct (select_menu_item (Req.item_id it) d); [ | reflexivity ].
    destruct (insert_order_item id it _ d); simpl; [ apply IH | reflexivity ].
Qed.

(** ** Orders: the steps of an update *)

Lemma replace_items_Ok (req : Req.update_order) (d d1 : db) (T : Q) :
  replace_items (Req.uo_id req) (Req.uo_items req) d = Ok (T, d1) ->
  T = new_total req d /\
  users d1 = users d /\ discounts d1 = discounts d /\ orders d1 = orders d /\
  order_discounts d1 = order_discounts d /\ payments d1 = payments d /\
  cashier_shifts d1 = cashier_shifts d /\
  orders_order_id_seq d1 = orders_order_id_seq d /\
  match Req.uo_items req with
  | Some (it :: rest) =>
      exists rows,
        order_items d1 =
          filter (fun r => negb (oi_order_id r =? Req.uo_id req)) (order_items d)
          ++ rows /\
        Forall2 (stored_item (Req.uo_id req) d) (it :: rest) rows /\
        existsb (fun o => order_id o =? Req.uo_id req) (orders d) = true
  | _ => order_items d1 = order_items d
  end.
Proof.
  unfold replace_items, new_total.
  destruct (Req.uo_items req) as [ [ | it rest ] | ]; intros H.
  - injection H as <- <-. auto 10.
  - rewrite update_items_insert_items in H. inv_bind H.
    injection H as <- <-.
    apply insert_items_Ok in E. destruct E as (rows & -> & Hrows & Hex).
    simpl. repeat (split; [ reflexivity | ]).
    exists rows. split; [ reflexivity | ]. split; [ exact Hrows | ].
    apply Hex. discriminate.
  - injection H as <- <-. auto 10.
Qed.

Lemma apply_discount_Ok (id : Z) (k by_user : option Z) (T D F : Q) (d d2 : db) :
  apply_discount id k by_user T d = Ok (D, F, d2) ->
  users d2 = users d /\ orders d2 = orders d /\
  order_items d2 = order_items d /\ payments d2 = payments d /\
  cashier_shifts d2 = cashier_shifts d /\
  orders_order_id_seq d2 = orders_order_id_seq d /\
  match truthy k with
  | Some n =>
      match select_active_discount n d with
      | disc :: _ =>
          D = discount_amount_of T disc /\ F = (T - D)%Q /\
          order_discounts d2 =
            filter (fun r => negb (od_order_id r =? id)) (order_discounts d) ++
            [{| od_order_id := id; od_discount_id := n;
                applied_value := to_cents D;
                applied_by_user_id := truthy by_user |}]
      | [] =>
          D = 0%Q /\ F = T /\
          order_discounts d2 =
            filter (fun r => negb (od_order_id r =? id)) (order_discounts d)
      end
  | None =>
      D = 0%Q /\ F = T /\
      order_discounts d2 =
        filter (fun r => negb (od_order_id r =? id)) (order_discounts d)
  end.
Proof.
  unfold apply_discount. intros H.
  destruct (truthy k) as [ n | ].
  - inv_bind H. unfold select_active_discount in *. simpl in H.
    destruct (filter _ (discounts d)) as [ | disc rest ].
    + injection H as <- <- <-. simpl. auto 10.
    + inv_bind H. injection H as <- <- <-.
      unfold insert_order_discount in E0.
      inv_bind E0. inv_bind E0. inv_bind E0. injection E0 as <-.
      apply decimal_10_2_Ok in E1. subst. simpl. auto 10.
  - injection H as <- <- <-. simpl. auto 10.
Qed.

Lemma update_order_row_Ok (id : Z) (tn nt : option string) (T D F : Q)
    (d d' : db) (o : order) :
  update_order_row id tn nt T D F d = Ok (Some o, d') ->
  exists o0, find_order id d = Some o0 /\
    order_id o = order_id o0 /\ status o = status o0 /\
    total_amount o = to_cents T /\ discount_amount o = to_cents D /\
    final_amount o = to_cents F /\
    order_items d' = order_items d /\
    order_discounts d' = order_discounts d /\
    payments d' = payments d /\ cashier_shifts d' = cashier_shifts d /\
    orders_order_id_seq d' = orders_order_id_seq d /\
    exists upd : order -> order,
      orders d' = map (fun x => if order_id x =? id then upd x else x) (orders d) /\
      (forall x, order_id (upd x) = order_id x /\
                 total_amount (upd x) = to_cents T /\
                 discount_amount (upd x) = to_cents D /\
                 final_amount (upd x) = to_cents F).
Proof.
  unfold update_order_row, find_order. intros H.
  destruct (find _ (orders d)) as [ o0 | ]; [ | discriminate ].
  inv_bind H. inv_bind H. inv_bind H. inv_bind H.
  apply decimal_10_2_Ok in E0, E1, E2. subst.
  injection H as <- <-. exists o0. simpl.
  repeat (split; [ reflexivity | ]).
  eexists. split; [ reflexivity | ]. intros x. simpl. auto.
Qed.

(** A committed update, step by step. *)
Lemma updateOrder_steps (req : Req.update_order) (d d' : db) (o : order) :
  updateOrder req d = (d', ok_order o) ->
  exists d1 D F d2,
    replace_items (Req.uo_id req) (Req.uo_items req) d = Ok (new_total req d, d1) /\
    apply_discount (Req.uo_id req) (Req.uo_discount_id req)
      (Req.uo_applied_by_user_id req) (new_total req d) d1 = Ok (D, F, d2) /\
    update_order_row (Req.uo_id req) (Req.uo_table_number req)
      (Req.uo_notes req) (new_total req d) D F d2 = Ok (Some o, d').
Proof.
  unfold updateOrder, updateOrder_tx, ok_order. intros H.
  destruct (replace_items _ _ d) as [ [ T d1 ] | ] eqn:E1; simpl in H;
    [ | discriminate ].
  destruct (apply_discount _ _ _ T d1) as [ [ [ D F ] d2 ] | ] eqn:E2;
    simpl in H; [ | discriminate ].
  destruct (update_order_row _ _ _ T D F d2) as [ [ [ o1 | ] d3 ] | ] eqn:E3;
    try discriminate.
  injection H as <- <-.
  pose proof (replace_items_Ok _ _ _ _ E1) as [ -> _ ].
  exists d1, D, F, d2. auto.
Qed.

(** ** Orders: sums *)

Lemma of_cents_plus (a b : Z) : (of_cents (a + b) == of_cents a + of_cents b)%Q.
Proof. unfold of_cents. rewrite inject_Z_plus. field. Qed.

Lemma of_cents_scale (q c : Z) : (of_cents (q * c) == inject_Z q * of_cents c)%Q.
Proof. unfold of_cents. rewrite inject_Z_mult. field. Qed.

Lemma fold_stored_fields (rows : list order_item) (acc : Q) :
  (fold_left (fun total_amount item =>
                (total_amount + inject_Z (fst item) * snd item)%Q)
             (stored_fields rows) acc
   == acc + of_cents (line_sum rows))%Q.
Proof.
  revert acc. induction rows as [ | r rows IH ]; intros acc; simpl.
  - unfold line_sum, of_cents. simpl. field.
  - rewrite IH. unfold line_sum. simpl.
    rewrite of_cents_plus, of_cents_scale. ring.
Qed.



Lemma numeric_round_half_below (q : Q) :
  (q <= - (1 # 2))%Q -> numeric_round q < 0.
Proof.
  intros H. pose proof (numeric_round_mono q (- (1 # 2)) H) as M.
  change (numeric_round (- (1 # 2))) with (-1) in M. lia.
Qed.

(** C3, as amended: a fixed_amount discount is taken off in full, without
    a cap.  When an update whose submitted unit prices have at most two
    decimals commits with an active fixed_amount discount,
    [discount_amount] is the value of the discount, [final_amount] is the
    new total less that value rounded to the column, and it is negative as
    soon as the value exceeds [total_amount]. *)
Theorem C3_fixed_amount_not_capped (req : Req.update_order) (d d' : db)
    (o : order) (k : Z) (disc : discount) (rest : list discount) :
  cent_prices (Req.uo_items req) ->
  updateOrder req d = (d', ok_order o) ->
  truthy (Req.uo_discount_id req) = Some k ->
  select_active_discount k d = disc :: rest ->
  discount_type disc = "fixed_amount"%string ->
  discount_amount o = value disc /\
  total_amount o = to_cents (new_total req d) /\
  final_amount o = to_cents (new_total req d - of_cents (value disc)) /\
  (total_amount o < value disc -> final_amount o < 0).
Proof.
  intros _ H Hk Hsel Hty. apply updateOrder_steps in H.
  destruct H as (d1 & D & F & d2 & H1 & H2 & H3).
  apply replace_items_Ok in H1. destruct H1 as (_ & _ & Hd & _).
  apply apply_discount_Ok in H2.
  destruct H2 as (_ & _ & _ & _ & _ & _ & Hcase).
  rewrite Hk in Hcase. unfold select_active_discount in Hcase, Hsel.
  rewrite Hd, Hsel in Hcase. destruct Hcase as (HD & HF & _).
  unfold discount_amount_of in HD. rewrite Hty in HD. simpl in HD.
  apply update_order_row_Ok in H3.
  destruct H3 as (o0 & _ & _ & _ & Ht & Hda & Hfa & _).
  subst D F. rewrite to_cents_of_cents in Hda.
  repeat (split; [ assumption | ]).
  intros Hlt. rewrite Hfa. rewrite Ht in Hlt.
  unfold to_cents in *. apply numeric_round_half_below.
  pose proof (numeric_round_near (new_total req d * 100)) as [ _ Hn ].
  assert (Hz : (inject_Z (numeric_round (new_total req d * 100)) + 1
                <= inject_Z (value disc))%Q).
  { change 1%Q with (inject_Z 1). rewrite <- inject_Z_plus, <- Zle_Qle. lia. }
  assert (E : ((new_total req d - of_cents (value disc)) * 100
               == new_total req d * 100 - inject_Z (value disc))%Q)
    by (unfold of_cents; field).
  rewrite E. lra.
Qed.

Lemma filter_filter_negb {A : Type} (f : A -> bool) (l : list A) :
  filter f (filter (fun x => negb (f x)) l) = [].
Proof.
  induction l as [ | x l IH ]; simpl; [ reflexivity | ].
  destruct (f x) eqn:E; simpl; [ exact IH | rewrite E; exact IH ].
Qed.

Lemma filter_nil {A : Type} (f : A -> bool) (l : list A) :
  (forall x, In x l -> f x = false) -> filter f l = [].
Proof.
  induction l as [ | x l IH ]; simpl; intros H; [ reflexivity | ].
  rewrite (H x) by auto. apply IH. auto.
Qed.

Lemma varchar_opt_Ok (n : nat) (s s' : option string) :
  varchar_opt n s = Ok s' -> s' = option_map (fun v => fst (clip n v)) s.
Proof.
  destruct s as [ v | ]; simpl; intros H; [ | congruence ].
  inv_bind H. apply varchar_Ok in E. congruence.
Qed.

(** C4: a discount that is switched off is left out, but the two other
    conditions are never read by the handler, although the schema
    introduces [min_amount_threshold] as the minimum order amount
    for the discount to apply and [valid_from], [valid_until] as the times
    the discount becomes active and expires.  On the order of 15.00: the
    discount that is switched off is left out (no amount, no row, answer
    200), whereas the active discount reserved to orders of 100.00 and
    more, valid from time 100 to time 200, is applied whenever the update
    is made: 1.50 off, a final amount of 13.50 and a row in
    order_discounts. *)
Theorem C4_threshold_and_window_are_not_checked :
  (is_active ex_retired = Some false /\
   exists d' o,
     updateOrder ex_retired_request ex_fifteen = (d', ok_order o) /\
     total_amount o = 1500 /\ discount_amount o = 0 /\
     final_amount o = 1500 /\ discounts_of 1 d' = []) /\
  (is_active ex_big_spender = Some true /\
   min_amount_threshold ex_big_spender = Some 10000 /\
   valid_from ex_big_spender = Some 100 /\
   valid_until ex_big_spender = Some 200 /\
   exists d' o,
     updateOrder ex_big_spender_request ex_fifteen = (d', ok_order o) /\
     total_amount o = 1500 /\ discount_amount o = 150 /\
     final_amount o = 1350 /\
     discounts_of 1 d' =
       [{| od_order_id := 1; od_discount_id := 4; applied_value := 150;
           applied_by_user_id := Some 7 |}]).
Proof.
  split.
  - split; [ reflexivity | ].
    do 2 eexists. split; [ vm_compute; reflexivity | ].
    vm_compute. repeat split; reflexivity.
  - do 4 (split; [ reflexivity | ]).
    do 2 eexists. split; [ vm_compute; reflexivity | ].
    vm_compute. repeat split; reflexivity.
Qed.

Lemma order_parameters_Ok (req : Req.create_order) (items : list Req.item)
    (tn : option string) (total : Z) :
  order_parameters req = Ok (items, tn, total) ->
  Req.co_items req = Some items /\
  tn = option_map (fun s => fst (clip 20 s)) (Req.co_table_number req) /\
  total = to_cents (calculateOrderTotals (request_fields items)).
Proof.
  unfold order_parameters. intros H.
  destruct (Req.co_items req) as [ l | ]; simpl in H; [ | discriminate ].
  inv_bind H. inv_bind H. inv_bind H. injection H as <- <- <-.
  apply varchar_opt_Ok in E. apply decimal_10_2_Ok in E0. auto.
Qed.

Lemma createOrder_steps (req : Req.create_order) (d d' : db) (id : Z) :
  createOrder req d = (d', created_order id) ->
  exists items, Req.co_items req = Some items /\
    id = orders_order_id_seq d /\
    insert_items id items
      (set_orders (orders d ++ [new_order req items d]) (id + 1) d) = Ok d'.
Proof.
  unfold createOrder, created_order. intros H.
  destruct (order_parameters req) as [ [ [ items tn ] total ] | ] eqn:E1;
    [ | discriminate ].
  apply order_parameters_Ok in E1. destruct E1 as (Hi & -> & ->).
  unfold createOrder_tx in H.
  destruct (references_user _ d) eqn:E3; simpl in H; [ | discriminate ].
  destruct (insert_items _ _ _) as [ d2 | ] eqn:E4; simpl in H; [ | discriminate ].
  injection H as <- <-.
  exists items. auto.
Qed.

(** What a call that fails leaves: the database, or the database with one
    value taken from the sequence of order ids. *)
Lemma createOrder_failed (req : Req.create_order) (d : db) :
  (exists id, createOrder req d = (fst (createOrder req d), created_order id)) \/
  (snd (createOrder req d) = server_error /\
   (fst (createOrder req d) = d \/
    fst (createOrder req d) = nextval_order_id d)).
Proof.
  unfold createOrder.
  destruct (order_parameters req) as [ [ [ items tn ] total ] | ];
    [ | right; auto ].
  destruct (createOrder_tx req items tn total d) as [ [ id d' ] | ];
    [ left; exists id; reflexivity | right; auto ].
Qed.

Lemma existsb_app_last (id : Z) (l : list order) (o : order) :
  order_id o = id -> existsb (fun x => order_id x =? id) (l ++ [o]) = true.
Proof.
  intros H. rewrite existsb_app. simpl. rewrite H, Z.eqb_refl.
  now rewrite !orb_true_r.
Qed.

(** C5, as amended: the items are not checked to be non-empty.  For a
    request with a list of items: if some item_id is unknown the call
    answers 500 and leaves every table as it was (the sequence of order
    ids may have moved on by one); if the call commits and the unit prices
    have at most two decimals, exactly one order is added, with status
    'pending', [total_amount] and [final_amount] the sum of quantity times
    unit_price over the items and [discount_amount] 0, together with one
    row per item, each item being on the menu; the call does commit when
    every item is on the menu, its quantity is positive and within the
    range of INTEGER, its price has at most two decimals, and the table
    number, the cashier and the amounts are accepted by the columns, which
    an empty list satisfies. *)
Theorem C5_create_order (req : Req.create_order) (d : db) (items : list Req.item) :
  Req.co_items req = Some items ->
  (Exists (fun it => select_menu_item (Req.item_id it) d = None) items ->
   snd (createOrder req d) = server_error /\
   (fst (createOrder req d) = d \/
    fst (createOrder req d) = nextval_order_id d)) /\
  (Forall (fun it => whole_cents (Req.unit_price it)) items ->
   forall d' id, createOrder req d = (d', created_order id) ->
     orders d' = orders d ++ [new_order req items d] /\
     id = orders_order_id_seq d /\
     exists rows, order_items d' = order_items d ++ rows /\
       Forall2 (stored_item id d) items rows) /\
  (Forall (fun it => select_menu_item (Req.item_id it) d <> None) items ->
   Forall accepted_item items ->
   Forall (fun it => whole_cents (Req.unit_price it)) items ->
   (exists tn, varchar_opt 20 (Req.co_table_number req) = Ok tn) ->
   int4_opt (Req.co_cashier_id req) = Ok tt ->
   references_user (Req.co_cashier_id req) d = Ok tt ->
   Z.abs (to_cents (calculateOrderTotals (request_fields items))) < 10 ^ 10 ->
   exists d', createOrder req d = (d', created_order (orders_order_id_seq d))).
Proof.
  intros Hitems. split; [ | split ].
  - intros Hex.
    destruct (createOrder_failed req d) as [ [ id H ] | H ]; [ | exact H ].
    exfalso. apply createOrder_steps in H.
    destruct H as (items' & Hi & _ & Hins).
    rewrite Hitems in Hi. injection Hi as <-.
    match type of Hins with
    | insert_items ?i ?l ?s = _ =>
        destruct (insert_items_unknown i l s Hex) as [ e He ]
    end.
    congruence.
  - intros _ d' id H. apply createOrder_steps in H.
    destruct H as (items' & Hi & -> & Hins).
    rewrite Hitems in Hi. injection Hi as <-.
    apply insert_items_Ok in Hins. destruct Hins as (rows & -> & Hrows & _).
    simpl. repeat (split; [ reflexivity | ]).
    exists rows. split; [ reflexivity | exact Hrows ].
  - intros Hres Hacc _ [ tn Htn ] Hc Hu Hfit.
    unfold createOrder, order_parameters. rewrite Hitems. simpl.
    rewrite Htn. simpl. rewrite decimal_10_2_fits by exact Hfit. simpl.
    rewrite Hc. simpl. unfold createOrder_tx. rewrite Hu. simpl.
    match goal with
    | |- context [ insert_items ?i ?l ?s ] =>
        destruct (insert_items_accepts i l s Hacc Hres) as [ d2 Hd2 ];
          [ | rewrite Hd2 ]
    end.
    + simpl. apply existsb_app_last. reflexivity.
    + simpl. eauto.
Qed.

(** ** Totals: the invariant of the order handlers *)

Lemma item_sum_line_sum (rows : list order_item) :
  Forall (fun r => item_total r = quantity r * unit_price r) rows ->
  item_sum rows = line_sum rows.
Proof.
  unfold item_sum, line_sum. induction 1 as [ | r rows Hr _ IH ]; simpl.
  - reflexivity.
  - rewrite Hr, IH. reflexivity.
Qed.

Lemma whole_cents_of_cents (p : Q) :
  whole_cents p -> (p == of_cents (to_cents p))%Q.
Proof. unfold whole_cents, round2. intros H. symmetry. exact H. Qed.

Lemma whole_cents_line (q : Z) (p : Q) :
  whole_cents p -> to_cents (inject_Z q * p) = q * to_cents p.
Proof.
  intros H. apply whole_cents_of_cents in H.
  rewrite H at 1. rewrite <- of_cents_scale. apply to_cents_of_cents.
Qed.

Lemma stored_item_fields (id : Z) (d : db) (it : Req.item) (r : order_item) :
  stored_item id d it r ->
  oi_order_id r = id /\ quantity r = Req.quantity it /\
  unit_price r = to_cents (Req.unit_price it) /\
  item_total r = to_cents (inject_Z (Req.quantity it) * Req.unit_price it).
Proof. intros (m & _ & ->). simpl. auto. Qed.

(** The rows of a request priced in whole cents. *)
Lemma stored_rows_in_cents (id : Z) (d : db) (items : list Req.item)
    (rows : list order_item) :
  Forall2 (stored_item id d) items rows ->
  Forall (fun it => whole_cents (Req.unit_price it)) items ->
  Forall (fun r => oi_order_id r = id /\
                   item_total r = quantity r * unit_price r) rows /\
  forall acc : Q,
    (fold_left (fun total_amount item =>
                  (total_amount + inject_Z (fst item) * snd item)%Q)
               (request_fields items) acc
     == acc + of_cents (line_sum rows))%Q.
Proof.
  induction 1 as [ | it r items rows Hst _ IH ]; intros Hw.
  - split; [ constructor | ]. intros acc. unfold line_sum, of_cents. simpl. field.
  - inversion Hw as [ | ? ? Hw1 Hw2 ]; subst.
    destruct (IH Hw2) as [ IH1 IH2 ].
    apply stored_item_fields in Hst. destruct Hst as (Hid & Hq & Hu & Ht).
    split.
    + constructor; [ | exact IH1 ]. split; [ exact Hid | ].
      rewrite Ht, Hq, Hu. apply whole_cents_line. exact Hw1.
    + intros acc. simpl. rewrite IH2. unfold line_sum. simpl.
      rewrite of_cents_plus, of_cents_scale, Hq, Hu.
      rewrite <- (whole_cents_of_cents _ Hw1). ring.
Qed.

Lemma request_total_in_cents (id : Z) (d : db) (items : list Req.item)
    (rows : list order_item) :
  Forall2 (stored_item id d) items rows ->
  Forall (fun it => whole_cents (Req.unit_price it)) items ->
  (calculateOrderTotals (request_fields items) == of_cents (line_sum rows))%Q.
Proof.
  intros H Hw. destruct (stored_rows_in_cents id d items rows H Hw) as [ _ E ].
  unfold calculateOrderTotals. rewrite E. ring.
Qed.

Lemma stored_total_in_cents (rows : list order_item) :
  (calculateOrderTotals (stored_fields rows) == of_cents (line_sum rows))%Q.
Proof. unfold calculateOrderTotals. rewrite fold_stored_fields. ring. Qed.

(** Rounding the difference against the difference of the roundings. *)
Lemma rounding_gap (t : Z) (T D : Q) :
  (T == of_cents t)%Q ->
  Z.abs (to_cents (T - D) - (t - to_cents D)) <= 1.
Proof.
  intros E. unfold to_cents.
  assert (E' : ((T - D) * 100 == inject_Z t - D * 100)%Q)
    by (rewrite E; unfold of_cents; field).
  rewrite E'.
  pose proof (numeric_round_near (inject_Z t - D * 100)) as [ A1 A2 ].
  pose proof (numeric_round_near (D * 100)) as [ B1 B2 ].
  set (a := numeric_round (inject_Z t - D * 100)) in *.
  set (b := numeric_round (D * 100)) in *.
  clearbody a b.
  assert (U : (inject_Z (a - (t - b)) <= inject_Z 1)%Q).
  { unfold Zminus. repeat rewrite ?inject_Z_plus, ?inject_Z_opp.
    change (inject_Z 1) with 1%Q. lra. }
  assert (L : (inject_Z (-1) <= inject_Z (a - (t - b)))%Q).
  { change (inject_Z (-1)) with (- (1))%Q.
    unfold Zminus. repeat rewrite ?inject_Z_plus, ?inject_Z_opp. lra. }
  rewrite <- Zle_Qle in U, L. lia.
Qed.

Lemma no_gap (T : Q) :
  Z.abs (to_cents T - (to_cents T - to_cents 0)) <= 1.
Proof. change (to_cents 0) with 0. lia. Qed.

Lemma filter_all {A : Type} (f : A -> bool) (l : list A) :
  (forall x, In x l -> f x = true) -> filter f l = l.
Proof.
  induction l as [ | x l IH ]; simpl; intros H; [ reflexivity | ].
  rewrite (H x) by auto. f_equal. apply IH. auto.
Qed.

Lemma filter_filter_other {A : Type} (f g : A -> bool) (l : list A) :
  (forall x, g x = true -> f x = true) -> filter g (filter f l) = filter g l.
Proof.
  intros H. induction l as [ | x l IH ]; simpl; [ reflexivity | ].
  destruct (f x) eqn:Ef; simpl.
  - destruct (g x); [ f_equal | ]; exact IH.
  - destruct (g x) eqn:Eg; [ | exact IH ].
    apply H in Eg. congruence.
Qed.

Lemma Forall_filter {A : Type} (P : A -> Prop) (f : A -> bool) (l : list A) :
  Forall P l -> Forall P (filter f l).
Proof.
  rewrite !Forall_forall. intros H x Hx. apply filter_In in Hx. apply H, Hx.
Qed.

Lemma existsb_order_lt (id : Z) (d : db) :
  Forall (fun o => order_id o < orders_order_id_seq d) (orders d) ->
  existsb (fun o => order_id o =? id) (orders d) = true ->
  id < orders_order_id_seq d.
Proof.
  intros H Hex. apply existsb_exists in Hex. destruct Hex as (o & Ho & E).
  apply Z.eqb_eq in E. rewrite Forall_forall in H. specialize (H o Ho). lia.
Qed.

(** The rows after the item step of an update, and the total it returns. *)
Lemma replace_items_totals (req : Req.update_order) (d d1 : db) (T : Q) :
  totals_inv d -> cent_prices (Req.uo_items req) ->
  replace_items (Req.uo_id req) (Req.uo_items req) d = Ok (T, d1) ->
  Forall (fun r => oi_order_id r < orders_order_id_seq d /\
                   item_total r = quantity r * unit_price r) (order_items d1) /\
  (T == of_cents (item_sum (items_of (Req.uo_id req) d1)))%Q /\
  (forall id', id' <> Req.uo_id req -> items_of id' d1 = items_of id' d).
Proof.
  intros (Hids & Hrows & _) Hw H.
  apply replace_items_Ok in H.
  destruct H as (-> & _ & _ & _ & _ & _ & _ & _ & Hcase).
  assert (Hold : Forall (fun r => item_total r = quantity r * unit_price r)
                        (items_of (Req.uo_id req) d)).
  { apply Forall_filter. eapply Forall_impl; [ | exact Hrows ].
    simpl. intros r Hr. apply Hr. }
  unfold new_total, items_of in *.
  destruct (Req.uo_items req) as [ [ | it rest ] | ].
  - rewrite Hcase. split; [ exact Hrows | ]. split; [ | reflexivity ].
    rewrite (item_sum_line_sum _ Hold). apply stored_total_in_cents.
  - destruct Hcase as (rows & -> & Hst & Hex). simpl in Hw.
    destruct (stored_rows_in_cents _ _ _ _ Hst Hw) as [ Hnew _ ].
    pose proof (existsb_order_lt _ _ Hids Hex) as Hlt.
    assert (Hmine : filter (fun r => oi_order_id r =? Req.uo_id req) rows = rows).
    { apply filter_all. rewrite Forall_forall in Hnew.
      intros r Hr. apply Z.eqb_eq. apply Hnew. exact Hr. }
    split; [ | split ].
    + apply Forall_app. split.
      * apply Forall_filter. exact Hrows.
      * eapply Forall_impl; [ | exact Hnew ]. simpl. intros r [ Hr1 Hr2 ].
        split; [ lia | exact Hr2 ].
    + rewrite filter_app, filter_filter_negb, Hmine. simpl.
      rewrite item_sum_line_sum.
      * apply (request_total_in_cents _ _ _ _ Hst Hw).
      * eapply Forall_impl; [ | exact Hnew ]. simpl. intros r Hr. apply Hr.
    + intros id' Hne. rewrite filter_app.
      rewrite filter_filter_other.
      * rewrite (filter_nil _ rows); [ apply app_nil_r | ].
        rewrite Forall_forall in Hnew. intros r Hr.
        apply Z.eqb_neq. destruct (Hnew r Hr) as [ E _ ]. lia.
      * intros r Hr. apply Z.eqb_eq in Hr. apply negb_true_iff, Z.eqb_neq. lia.
  - rewrite Hcase. split; [ exact Hrows | ]. split; [ | reflexivity ].
    rewrite (item_sum_line_sum _ Hold). apply stored_total_in_cents.
Qed.

Lemma to_cents_whole (t : Z) (T : Q) : (T == of_cents t)%Q -> to_cents T = t.
Proof. intros E. rewrite E. apply to_cents_of_cents. Qed.

(** The amounts the discount block hands to the final [UPDATE]. *)
Lemma apply_discount_gap (id : Z) (k by_user : option Z) (T D F : Q)
    (d d2 : db) (t : Z) :
  (T == of_cents t)%Q ->
  apply_discount id k by_user T d = Ok (D, F, d2) ->
  Z.abs (to_cents F - (to_cents T - to_cents D)) <= 1.
Proof.
  intros E H. apply apply_discount_Ok in H.
  destruct H as (_ & _ & _ & _ & _ & _ & Hcase).
  assert (Hgap : F = (T - D)%Q ->
                 Z.abs (to_cents F - (to_cents T - to_cents D)) <= 1).
  { intros ->. rewrite (to_cents_whole t T E). apply rounding_gap. exact E. }
  destruct (truthy k) as [ n | ].
  - destruct (select_active_discount n d).
    + destruct Hcase as (-> & -> & _). apply no_gap.
    + destruct Hcase as (_ & HF & _). auto.
  - destruct Hcase as (-> & -> & _). apply no_gap.
Qed.

(** An update that commits keeps the invariant. *)
Lemma updateOrder_keeps_totals (req : Req.update_order) (d d' : db) (o : order) :
  totals_inv d -> cent_prices (Req.uo_items req) ->
  updateOrder req d = (d', ok_order o) -> totals_inv d'.
Proof.
  intros Hinv Hw H. apply updateOrder_steps in H.
  destruct H as (d1 & D & F & d2 & H1 & H2 & H3).
  pose proof (replace_items_totals _ _ _ _ Hinv Hw H1) as (Hrows1 & HT & Hother).
  pose proof (apply_discount_gap _ _ _ _ _ _ _ _ _ HT H2) as Hgap.
  apply replace_items_Ok in H1.
  destruct H1 as (_ & _ & _ & Ho1 & _ & _ & _ & Hs1 & _).
  apply apply_discount_Ok in H2.
  destruct H2 as (_ & Ho2 & Hoi2 & _ & _ & Hs2 & _).
  apply update_order_row_Ok in H3.
  destruct H3 as (o0 & _ & _ & _ & _ & _ & _ & Hoi3 & _ & _ & _ & Hs3 &
                  upd & Ho3 & Hupd).
  destruct Hinv as (Hids & _ & Hcons).
  assert (Hseq : orders_order_id_seq d' = orders_order_id_seq d) by congruence.
  assert (Hitems : order_items d' = order_items d1) by congruence.
  assert (Hord : orders d' =
                 map (fun x => if order_id x =? Req.uo_id req then upd x else x)
                     (orders d)) by congruence.
  unfold totals_inv. rewrite Hseq, Hitems, Hord. split; [ | split ].
  - apply Forall_map. eapply Forall_impl; [ | exact Hids ]. simpl.
    intros x Hx. destruct (order_id x =? Req.uo_id req); [ | exact Hx ].
    destruct (Hupd x) as [ -> _ ]. exact Hx.
  - exact Hrows1.
  - apply Forall_map. rewrite Forall_forall in Hcons. apply Forall_forall.
    intros x Hx. specialize (Hcons x Hx). unfold order_consistent in *.
    assert (Hio : forall i, items_of i d' = items_of i d1)
      by (intros i; unfold items_of; now rewrite Hitems).
    destruct (order_id x =? Req.uo_id req) eqn:E.
    + apply Z.eqb_eq in E. destruct (Hupd x) as (-> & -> & -> & ->).
      rewrite Hio, E. split; [ | exact Hgap ].
      apply to_cents_whole. exact HT.
    + apply Z.eqb_neq in E. rewrite Hio, (Hother _ E). exact Hcons.
Qed.

(** An order that is created keeps the invariant. *)
Lemma createOrder_keeps_totals (req : Req.create_order) (d d' : db) (id : Z) :
  totals_inv d -> cent_prices (Req.co_items req) ->
  createOrder req d = (d', created_order id) -> totals_inv d'.
Proof.
  intros (Hids & Hrows & Hcons) Hw H. apply createOrder_steps in H.
  destruct H as (items & Hitems & -> & Hins).
  rewrite Hitems in Hw. simpl in Hw.
  apply insert_items_Ok in Hins. destruct Hins as (rows & -> & Hst & _).
  destruct (stored_rows_in_cents _ _ _ _ Hst Hw) as [ Hnew _ ].
  pose proof (request_total_in_cents _ _ _ _ Hst Hw) as HT.
  set (seq := orders_order_id_seq d) in *.
  assert (Hfresh : filter (fun r => oi_order_id r =? seq) (order_items d) = []).
  { apply filter_nil. rewrite Forall_forall in Hrows. intros r Hr.
    apply Z.eqb_neq. destruct (Hrows r Hr) as [ Hlt _ ]. fold seq in Hlt. lia. }
  assert (Hmine : filter (fun r => oi_order_id r =? seq) rows = rows).
  { apply filter_all. rewrite Forall_forall in Hnew. intros r Hr.
    apply Z.eqb_eq. apply Hnew. exact Hr. }
  assert (Hsum : item_sum rows = line_sum rows).
  { apply item_sum_line_sum. eapply Forall_impl; [ | exact Hnew ].
    simpl. intros r Hr. apply Hr. }
  unfold totals_inv. simpl. fold seq. split; [ | split ].
  - apply Forall_app. split.
    + eapply Forall_impl; [ | exact Hids ]. simpl. intros o Ho. fold seq in Ho. lia.
    + constructor; [ simpl; fold seq; lia | constructor ].
  - apply Forall_app. split.
    + eapply Forall_impl; [ | exact Hrows ]. simpl. intros r [ Hr1 Hr2 ].
      fold seq in Hr1. split; [ lia | exact Hr2 ].
    + eapply Forall_impl; [ | exact Hnew ]. simpl. intros r [ Hr1 Hr2 ].
      split; [ lia | exact Hr2 ].
  - apply Forall_app. split.
    + rewrite Forall_forall in Hcons, Hids. apply Forall_forall.
      intros o Ho. specialize (Hcons o Ho). specialize (Hids o Ho).
      fold seq in Hids.
      unfold order_consistent, items_of in *. simpl.
      rewrite filter_app, (filter_nil _ rows), app_nil_r; [ exact Hcons | ].
      rewrite Forall_forall in Hnew. intros r Hr. apply Z.eqb_neq.
      destruct (Hnew r Hr) as [ E _ ]. lia.
    + constructor; [ | constructor ].
      unfold order_consistent, items_of. simpl. fold seq.
      rewrite filter_app, Hfresh, Hmine. simpl. rewrite Hsum.
      split; [ apply to_cents_whole; exact HT | lia ].
Qed.

(** Rewriting orders without touching their key and amounts, and leaving
    the rows and the sequence alone, keeps the invariant. *)
Lemma totals_inv_rewrite (d d' : db) (f : order -> order) :
  totals_inv d ->
  orders d' = map f (orders d) ->
  (forall x, order_id (f x) = order_id x /\
             total_amount (f x) = total_amount x /\
             discount_amount (f x) = discount_amount x /\
             final_amount (f x) = final_amount x) ->
  order_items d' = order_items d ->
  orders_order_id_seq d' = orders_order_id_seq d ->
  totals_inv d'.
Proof.
  intros (Hids & Hrows & Hcons) Ho Hf Hi Hs.
  unfold totals_inv. rewrite Ho, Hi, Hs. split; [ | split ].
  - apply Forall_map. eapply Forall_impl; [ | exact Hids ]. simpl.
    intros x Hx. destruct (Hf x) as [ -> _ ]. exact Hx.
  - exact Hrows.
  - apply Forall_map. eapply Forall_impl; [ | exact Hcons ]. simpl.
    intros x Hx. unfold order_consistent, items_of in *.
    destruct (Hf x) as (-> & -> & -> & ->). rewrite Hi. exact Hx.
Qed.

Lemma totals_inv_same (d d' : db) :
  totals_inv d -> orders d' = orders d -> order_items d' = order_items d ->
  orders_order_id_seq d' = orders_order_id_seq d -> totals_inv d'.
Proof.
  intros Hinv Ho Hi Hs. apply (totals_inv_rewrite d d' (fun x => x)); auto.
  now rewrite map_id.
Qed.

(** A value taken from the sequence of order ids keeps the invariant. *)
Lemma nextval_keeps_totals (d : db) :
  totals_inv d -> totals_inv (nextval_order_id d).
Proof.
  intros (Hids & Hrows & Hcons). unfold totals_inv, nextval_order_id. simpl.
  split; [ | split ].
  - eapply Forall_impl; [ | exact Hids ]. simpl. intros o Ho. lia.
  - eapply Forall_impl; [ | exact Hrows ]. simpl. intros r [ H1 H2 ].
    split; [ lia | exact H2 ].
  - exact Hcons.
Qed.

Lemma completion_check_frame (id : Z) (seen d d' : db) :
  completion_check id seen d = Ok d' ->
  order_items d' = order_items d /\
  orders_order_id_seq d' = orders_order_id_seq d /\
  (orders d' = orders d \/ orders d' = complete_order id (orders d)).
Proof.
  unfold completion_check. intros H.
  destruct (find _ (orders seen)); [ | discriminate ].
  destruct (Qle_bool _ _); injection H as <-; simpl; auto.
Qed.

Lemma payment_keeps_totals (req : Req.record_payment) (d d1 d2 d' : db)
    (p : payment) (seen : db) :
  totals_inv d ->
  insert_payment req d = Ok (p, d1) ->
  update_shift_sales req d1 = Ok d2 ->
  completion_check (Req.rp_order_id req) seen d2 = Ok d' ->
  totals_inv d'.
Proof.
  intros Hinv Hi Hs Hc.
  apply insert_payment_Ok in Hi. destruct Hi as (-> & _).
  apply update_shift_sales_frame in Hs. destruct Hs as (Ho & _ & Hoi & Hseq).
  apply completion_check_frame in Hc. destruct Hc as (Hoi' & Hseq' & Hcase).
  simpl in *. destruct Hcase as [ Hsame | Hdone ].
  - apply (totals_inv_same d d' Hinv); congruence.
  - apply (totals_inv_rewrite d d'
             (fun o => if order_id o =? Req.rp_order_id req then complete o else o)
             Hinv).
    + rewrite Hdone, Ho. reflexivity.
    + intros x. destruct (order_id x =? _); simpl; auto.
    + congruence.
    + congruence.
Qed.

(** Deleting an order, its rows going with it, keeps the invariant. *)
Lemma deleteOrder_keeps_totals (id : Z) (d : db) :
  totals_inv d -> totals_inv (fst (deleteOrder id d)).
Proof.
  intros Hinv. unfold deleteOrder.
  destruct (existsb _ (orders d)); [ | exact Hinv ].
  destruct Hinv as (Hids & Hrows & Hcons).
  unfold totals_inv. simpl. split; [ | split ].
  - apply Forall_filter. exact Hids.
  - apply Forall_filter. exact Hrows.
  - rewrite Forall_forall in Hcons. apply Forall_forall. intros o Ho.
    apply filter_In in Ho. destruct Ho as [ Ho Hne ].
    specialize (Hcons o Ho). unfold order_consistent, items_of in *. simpl.
    rewrite filter_filter_other; [ exact Hcons | ].
    intros r Hr. apply Z.eqb_eq in Hr. rewrite Hr. exact Hne.
Qed.

(** Every handler keeps the invariant, given prices in whole cents. *)
Lemma handle_keeps_totals (r : request) (d : db) :
  totals_inv d -> priced_in_cents r -> totals_inv (fst (handle r d)).
Proof.
  intros Hinv Hw.
  destruct r as [ req | req | id st | id | req | req | req | req now | req ];
    simpl in *.
  - destruct (createOrder_failed req d) as [ [ id H ] | (_ & [ H | H ]) ].
    + exact (createOrder_keeps_totals req d _ id Hinv Hw H).
    + rewrite H. exact Hinv.
    + rewrite H. apply nextval_keeps_totals. exact Hinv.
  - unfold updateOrder.
    destruct (updateOrder_tx req d) as [ [ [ o | ] d' ] | ] eqn:E;
      simpl; try exact Hinv.
    apply (updateOrder_keeps_totals req d d' o Hinv Hw).
    unfold updateOrder. rewrite E. reflexivity.
  - unfold setStatus. destruct (find _ (orders d)); [ | exact Hinv ].
    destruct (varchar 50 st); [ | exact Hinv ]. simpl.
    eapply (totals_inv_rewrite d _ _ Hinv); try reflexivity.
    intros x. cbv beta. destruct (order_id x =? id); simpl; auto.
  - apply deleteOrder_keeps_totals. exact Hinv.
  - destruct (payment_response_cases d (recordPayment_tx req d))
      as [ H | (d' & p & _ & H) ]; unfold recordPayment; rewrite H; simpl;
      [ exact Hinv | ].
    apply recordPayment_steps in H. destruct H as (d1 & d2 & Hi & Hs & Hc).
    exact (payment_keeps_totals req d d1 d2 d' p d2 Hinv Hi Hs Hc).
  - destruct (payment_response_cases d (recordPayment_auth_tx req d))
      as [ H | (d' & p & _ & H) ]; unfold recordPayment_auth; rewrite H; simpl;
      [ exact Hinv | ].
    apply recordPayment_auth_steps in H. destruct H as (d1 & d2 & Hi & Hs & Hc).
    exact (payment_keeps_totals req d d1 d2 d' p d Hinv Hi Hs Hc).
  - unfold startShift. destruct (filter _ (cashier_shifts d)); [ | exact Hinv ].
    destruct (decimal_10_2 _); [ | exact Hinv ].
    destruct (references_user (Some (Req.ss_user_id req)) d);
      [ apply (totals_inv_same d _ Hinv); reflexivity | ].
    destruct (int4 _); [ | exact Hinv ].
    apply (totals_inv_same d _ Hinv); reflexivity.
  - unfold endShift. destruct (find _ (cashier_shifts d)); [ | exact Hinv ].
    destruct (decimal_10_2_opt _); simpl; [ | exact Hinv ].
    apply (totals_inv_same d _ Hinv); reflexivity.
  - unfold adjustShift. destruct (find _ (cashier_shifts d)); [ | exact Hinv ].
    destruct (bind _ _) as [ [ [ [ v1 v2 ] v3 ] v4 ] | ]; simpl; [ | exact Hinv ].
    apply (totals_inv_same d _ Hinv); reflexivity.
Qed.

Lemma run_keeps_totals (rs : list request) (d : db) :
  totals_inv d -> Forall priced_in_cents rs -> totals_inv (run rs d).
Proof.
  revert d. induction rs as [ | r rs IH ]; simpl; intros d Hinv Hw.
  - exact Hinv.
  - inversion Hw as [ | ? ? Hw1 Hw2 ]; subst.
    apply IH; [ apply handle_keeps_totals; assumption | exact Hw2 ].
Qed.

(** C2, as amended.  Start from a database that satisfies the invariant
    (an empty one does) and serve any sequence of requests whose submitted
    unit prices have at most two decimals.  Then for every order
    [total_amount] is the sum of [item_total] over its rows, and
    [final_amount] is within one hundredth of [total_amount] less
    [discount_amount]. *)
Theorem C2_totals_after_any_sequence (rs : list request) (d : db) (o : order) :
  totals_inv d -> Forall priced_in_cents rs ->
  In o (orders (run rs d)) ->
  total_amount o = item_sum (items_of (order_id o) (run rs d)) /\
  Z.abs (final_amount o - (total_amount o - discount_amount o)) <= 1.
Proof.
  intros Hinv Hw Ho.
  destruct (run_keeps_totals rs d Hinv Hw) as (_ & _ & Hcons).
  rewrite Forall_forall in Hcons. exact (Hcons o Ho).
Qed.

(** ** Shifts: at most one open shift per user *)

Lemma not_reopened_count (u : Z) (l l' : list cashier_shift) :
  Forall2 not_reopened l l' -> (active_count u l' <= active_count u l)%nat.
Proof.
  unfold active_count. induction 1 as [ | s s' l l' [ Hu He ] _ IH ]; simpl.
  - lia.
  - assert (A : is_active_shift_of u s' = true -> is_active_shift_of u s = true).
    { unfold is_active_shift_of. rewrite Hu. intros H.
      apply andb_true_iff in H. destruct H as [ H1 H2 ]. rewrite H1. simpl.
      destruct (shift_end s'); [ discriminate | ].
      rewrite (He eq_refl). reflexivity. }
    destruct (is_active_shift_of u s'), (is_active_shift_of u s); simpl; lia.
Qed.

Lemma Forall2_map_right {A : Type} (R : A -> A -> Prop) (f : A -> A) (l : list A) :
  (forall x, R x (f x)) -> Forall2 R l (map f l).
Proof. intros H. induction l; simpl; constructor; auto. Qed.

Lemma not_reopened_refl (s : cashier_shift) : not_reopened s s.
Proof. split; auto. Qed.

Lemma update_where_Forall2 {A : Type} (R : A -> A -> Prop) (p : A -> bool)
    (f : A -> result A) (l l' : list A) :
  (forall x, R x x) -> (forall x y, f x = Ok y -> R x y) ->
  update_where p f l = Ok l' -> Forall2 R l l'.
Proof.
  intros Hrefl Hf. revert l'. induction l as [ | x l IH ]; simpl; intros l' H.
  - injection H as <-. constructor.
  - inv_bind H. inv_bind H. injection H as <-. constructor.
    + destruct (p x); [ apply Hf; exact E | injection E as <-; apply Hrefl ].
    + apply IH. reflexivity.
Qed.

Lemma update_shift_sales_not_reopened (req : Req.record_payment) (d d' : db) :
  update_shift_sales req d = Ok d' ->
  Forall2 not_reopened (cashier_shifts d) (cashier_shifts d').
Proof.
  unfold update_shift_sales. intros H.
  destruct (truthy (Req.rp_cashier_id req)) as [ cashier | ].
  - inv_bind H. injection H as <-. simpl.
    destruct (String.eqb _ _);
      (eapply update_where_Forall2; [ apply not_reopened_refl | | exact E ]).
    + intros x y Hy. unfold add_sales_cash in Hy. inv_bind Hy.
      injection Hy as <-. split; auto.
    + intros x y Hy. unfold add_sales_card in Hy. inv_bind Hy.
      injection Hy as <-. split; auto.
  - injection H as <-. rewrite <- (map_id (cashier_shifts d)) at 2.
    apply Forall2_map_right. apply not_reopened_refl.
Qed.

Lemma single_active_kept (d d' : db) :
  single_active_shift d ->
  Forall2 not_reopened (cashier_shifts d) (cashier_shifts d') ->
  single_active_shift d'.
Proof.
  intros H HR u. pose proof (not_reopened_count u _ _ HR). specialize (H u). lia.
Qed.

Lemma single_active_same (d d' : db) :
  single_active_shift d -> cashier_shifts d' = cashier_shifts d ->
  single_active_shift d'.
Proof. intros H E u. rewrite E. apply H. Qed.

Lemma payment_keeps_single (req : Req.record_payment) (d d1 d2 d' : db)
    (p : payment) (seen : db) :
  single_active_shift d ->
  insert_payment req d = Ok (p, d1) ->
  update_shift_sales req d1 = Ok d2 ->
  completion_check (Req.rp_order_id req) seen d2 = Ok d' ->
  single_active_shift d'.
Proof.
  intros Hinv Hi Hs Hc.
  apply insert_payment_Ok in Hi. destruct Hi as (-> & _).
  apply update_shift_sales_not_reopened in Hs. simpl in Hs.
  apply completion_check_Ok in Hc. destruct Hc as (o & _ & _ & Hsh & _).
  apply (single_active_kept d d' Hinv). rewrite Hsh. exact Hs.
Qed.

Lemma startShift_conflict (req : Req.start_shift) (d : db) :
  filter (is_active_shift_of (Req.ss_user_id req)) (cashier_shifts d) <> [] ->
  startShift req d =
  (d, {| code := 400; payload := msg "User already has an active shift." |}).
Proof.
  intros H. unfold startShift.
  destruct (filter _ (cashier_shifts d)); [ congruence | reflexivity ].
Qed.

Lemma startShift_opens (req : Req.start_shift) (d : db) :
  filter (is_active_shift_of (Req.ss_user_id req)) (cashier_shifts d) = [] ->
  In (Req.ss_user_id req) (users d) ->
  Z.abs (to_cents (Req.ss_opening_cash req)) < 10 ^ 10 ->
  startShift req d =
  (set_cashier_shifts (cashier_shifts d ++ [opened_shift req d])
                      (cashier_shifts_shift_id_seq d + 1) d,
   {| code := 201; payload := shift_row (opened_shift req d) |}).
Proof.
  intros Hnone Hu Hfit. unfold startShift. rewrite Hnone.
  rewrite decimal_10_2_fits by exact Hfit. simpl.
  assert (E : existsb (Z.eqb (Req.ss_user_id req)) (users d) = true).
  { apply existsb_exists. exists (Req.ss_user_id req).
    split; [ exact Hu | apply Z.eqb_refl ]. }
  rewrite E. reflexivity.
Qed.

Lemma startShift_cases (req : Req.start_shift) (d : db) :
  cashier_shifts (fst (startShift req d)) = cashier_shifts d \/
  (filter (is_active_shift_of (Req.ss_user_id req)) (cashier_shifts d) = [] /\
   cashier_shifts (fst (startShift req d)) =
   cashier_shifts d ++ [opened_shift req d]).
Proof.
  unfold startShift.
  destruct (filter _ (cashier_shifts d)) eqn:Hf; [ | left; reflexivity ].
  destruct (decimal_10_2 _) as [ c | ] eqn:E; [ | left; reflexivity ].
  destruct (references_user (Some (Req.ss_user_id req)) d).
  - right. apply decimal_10_2_Ok in E. subst c. split; reflexivity.
  - left. destruct (int4 _); reflexivity.
Qed.

Lemma startShift_keeps_single (req : Req.start_shift) (d : db) :
  single_active_shift d -> single_active_shift (fst (startShift req d)).
Proof.
  intros Hinv. destruct (startShift_cases req d) as [ E | [ Hnone E ] ];
    [ exact (single_active_same d _ Hinv E) | ].
  intros u. rewrite E. unfold active_count. rewrite filter_app, length_app. simpl.
  unfold is_active_shift_of at 2. simpl.
  destruct (Req.ss_user_id req =? u) eqn:Eu; simpl.
  - apply Z.eqb_eq in Eu. subst u. rewrite Hnone. simpl. lia.
  - specialize (Hinv u). unfold active_count in Hinv. lia.
Qed.

Lemma endShift_rows (req : Req.end_shift) (now : Z) (d : db) :
  Forall2 (fun s s' => not_reopened s s' /\ (shift_end s <> None -> s' = s))
          (cashier_shifts d) (cashier_shifts (fst (endShift req now d))).
Proof.
  assert (Hsame : Forall2 (fun s s' => not_reopened s s' /\
                                      (shift_end s <> None -> s' = s))
                          (cashier_shifts d) (cashier_shifts d)).
  { rewrite <- (map_id (cashier_shifts d)) at 2.
    apply Forall2_map_right. intros x. split; [ apply not_reopened_refl | auto ]. }
  unfold endShift. destruct (find _ (cashier_shifts d)); [ | exact Hsame ].
  destruct (decimal_10_2_opt _); simpl; [ | exact Hsame ].
  apply Forall2_map_right. intros s.
  destruct (shift_id s =? Req.es_id req); simpl.
  - destruct (shift_end s) eqn:E; simpl.
    + split; [ apply not_reopened_refl | auto ].
    + split; [ | congruence ]. split; simpl; [ reflexivity | discriminate ].
  - split; [ apply not_reopened_refl | auto ].
Qed.

Lemma endShift_not_open (req : Req.end_shift) (now : Z) (d : db) :
  (forall s, In s (cashier_shifts d) -> shift_id s = Req.es_id req ->
             shift_end s <> None) ->
  endShift req now d =
  (d, {| code := 404; payload := msg "Active shift not found or already ended." |}).
Proof.
  intros H. unfold endShift.
  destruct (find _ (cashier_shifts d)) as [ s | ] eqn:E; [ | reflexivity ].
  apply find_some in E. destruct E as [ Hs Hb ].
  apply andb_true_iff in Hb. destruct Hb as [ Hid Hnull ].
  apply Z.eqb_eq in Hid. specialize (H s Hs Hid).
  destruct (shift_end s); [ discriminate | congruence ].
Qed.

Lemma adjustShift_rows (req : Req.adjust_shift) (d : db) :
  Forall2 not_reopened (cashier_shifts d)
          (cashier_shifts (fst (adjustShift req d))).
Proof.
  assert (Hsame : Forall2 not_reopened (cashier_shifts d) (cashier_shifts d)).
  { rewrite <- (map_id (cashier_shifts d)) at 2.
    apply Forall2_map_right. apply not_reopened_refl. }
  unfold adjustShift. destruct (find _ (cashier_shifts d)); [ | exact Hsame ].
  destruct (bind _ _) as [ [ [ [ v1 v2 ] v3 ] v4 ] | ]; simpl; [ | exact Hsame ].
  apply Forall2_map_right. intros s.
  destruct (shift_id s =? Req.as_id req); split; simpl; auto.
Qed.

Lemma createOrder_shifts (req : Req.create_order) (d : db) :
  cashier_shifts (fst (createOrder req d)) = cashier_shifts d.
Proof.
  destruct (createOrder_failed req d) as [ [ id H ] | (_ & [ H | H ]) ].
  - apply createOrder_steps in H. destruct H as (items & _ & _ & Hins).
    apply insert_items_Ok in Hins. destruct Hins as (rows & -> & _).
    reflexivity.
  - rewrite H. reflexivity.
  - rewrite H. reflexivity.
Qed.

Lemma updateOrder_shifts (req : Req.update_order) (d : db) :
  cashier_shifts (fst (updateOrder req d)) = cashier_shifts d.
Proof.
  destruct (updateOrder req d) as [ d' resp ] eqn:E. simpl.
  unfold updateOrder in E.
  destruct (updateOrder_tx req d) as [ [ [ o | ] d2 ] | ] eqn:Etx;
    injection E as <- <-; try reflexivity.
  assert (H : updateOrder req d = (d2, ok_order o))
    by (unfold updateOrder; rewrite Etx; reflexivity).
  apply updateOrder_steps in H.
  destruct H as (d1 & D & F & d3 & H1 & H2 & H3).
  apply replace_items_Ok in H1.
  destruct H1 as (_ & _ & _ & _ & _ & _ & Hs1 & _).
  apply apply_discount_Ok in H2. destruct H2 as (_ & _ & _ & _ & Hs2 & _).
  apply update_order_row_Ok in H3.
  destruct H3 as (o0 & _ & _ & _ & _ & _ & _ & _ & _ & _ & Hs3 & _).
  congruence.
Qed.

Lemma handle_keeps_single (r : request) (d : db) :
  single_active_shift d -> single_active_shift (fst (handle r d)).
Proof.
  intros Hinv.
  destruct r as [ req | req | id st | id | req | req | req | req now | req ];
    simpl.
  - apply (single_active_same d _ Hinv). apply createOrder_shifts.
  - apply (single_active_same d _ Hinv). apply updateOrder_shifts.
  - apply (single_active_same d _ Hinv). unfold setStatus.
    destruct (find _ (orders d)); [ | reflexivity ].
    destruct (varchar 50 st); reflexivity.
  - apply (single_active_same d _ Hinv). unfold deleteOrder.
    destruct (existsb _ (orders d)); reflexivity.
  - destruct (payment_response_cases d (recordPayment_tx req d))
      as [ H | (d' & p & _ & H) ]; unfold recordPayment; rewrite H; simpl;
      [ exact Hinv | ].
    apply recordPayment_steps in H. destruct H as (d1 & d2 & Hi & Hs & Hc).
    exact (payment_keeps_single req d d1 d2 d' p d2 Hinv Hi Hs Hc).
  - destruct (payment_response_cases d (recordPayment_auth_tx req d))
      as [ H | (d' & p & _ & H) ]; unfold recordPayment_auth; rewrite H; simpl;
      [ exact Hinv | ].
    apply recordPayment_auth_steps in H. destruct H as (d1 & d2 & Hi & Hs & Hc).
    exact (payment_keeps_single req d d1 d2 d' p d Hinv Hi Hs Hc).
  - apply startShift_keeps_single. exact Hinv.
  - apply (single_active_kept d _ Hinv).
    eapply Forall2_impl; [ | apply endShift_rows ]. simpl. intros a b H. apply H.
  - apply (single_active_kept d _ Hinv). apply adjustShift_rows.
Qed.

Lemma run_keeps_single (rs : list request) (d : db) :
  single_active_shift d -> single_active_shift (run rs d).
Proof.
  revert d. induction rs as [ | r rs IH ]; simpl; intros d Hinv.
  - exact Hinv.
  - apply IH. apply handle_keeps_single. exact Hinv.
Qed.

(** C8: served one after the other, the requests never leave a user with
    two open shifts: if every user has at most one row with [shift_end]
    null, so it is after any sequence of requests (startShift, endShift,
    adjustShift, and the order and payment requests as well).  startShift
    answers 400 and changes nothing when the user has an open shift;
    otherwise, for a known user and an opening cash that fits its column,
    it inserts one open shift with that opening cash and sales totals of 0.
    endShift leaves every row that is already closed as it is, and answers
    404 without a change when no open row has the given id. *)
Theorem C8_single_open_shift (d : db) :
  single_active_shift d ->
  (forall rs, single_active_shift (run rs d)) /\
  (forall req,
     filter (is_active_shift_of (Req.ss_user_id req)) (cashier_shifts d) <> [] ->
     startShift req d =
     (d, {| code := 400; payload := msg "User already has an active shift." |})) /\
  (forall req,
     filter (is_active_shift_of (Req.ss_user_id req)) (cashier_shifts d) = [] ->
     In (Req.ss_user_id req) (users d) ->
     Z.abs (to_cents (Req.ss_opening_cash req)) < 10 ^ 10 ->
     startShift req d =
     (set_cashier_shifts (cashier_shifts d ++ [opened_shift req d])
                         (cashier_shifts_shift_id_seq d + 1) d,
      {| code := 201; payload := shift_row (opened_shift req d) |})) /\
  (forall req now,
     Forall2 (fun s s' => shift_end s <> None -> s' = s)
             (cashier_shifts d) (cashier_shifts (fst (endShift req now d))) /\
     ((forall s, In s (cashier_shifts d) -> shift_id s = Req.es_id req ->
                 shift_end s <> None) ->
      endShift req now d =
      (d, {| code := 404;
             payload := msg "Active shift not found or already ended." |}))).
Proof.
  intros Hinv. split; [ | split; [ | split ] ].
  - intros rs. apply run_keeps_single. exact Hinv.
  - intros req. apply startShift_conflict.
  - intros req. apply startShift_opens.
  - intros req now. split.
    + eapply Forall2_impl; [ | apply endShift_rows ]. simpl. intros a b H. apply H.
    + apply endShift_not_open.
Qed.

(** ** Scenarios *)

(** Scenarios A, B and C of the specification. *)
Example scenario_A :
  map total_amount (orders (fst (createOrder
     (ex_create [ex_item 1 2 5.00; ex_item 2 1 3.50]) ex_shop))) = [1350].
Proof. vm_compute. reflexivity. Qed.

Example scenario_B :
  map (fun o => (total_amount o, discount_amount o, final_amount o))
      (orders ex_morning) = [(1350, 135, 1215)].
Proof. vm_compute. reflexivity. Qed.

Example scenario_C :
  map status (orders ex_settled) = ["completed"%string] /\
  map sales_amount_cash (cashier_shifts ex_settled) = [1215].
Proof. vm_compute. split; reflexivity. Qed.

(** With the role middleware the check does not see the payment being
    recorded: the same payment leaves the order pending. *)
Example scenario_C_auth :
  map status
    (orders (fst (recordPayment_auth ex_settle_request ex_morning))) =
    ["pending"%string] /\
  map amount
    (payments (fst (recordPayment_auth ex_settle_request ex_morning))) = [1215].
Proof. vm_compute. split; reflexivity. Qed.

(** ** Counterexamples to statements of the specification *)

(** C1 as stated fails: an order already 'completed' whose total grew stays
    'completed' after a further payment that commits, although the payments
    (11.00) do not reach its final amount (20.00). *)
Lemma C1_counterexample :
  code (snd (recordPayment ex_late_request ex_grown)) = 201 /\
  exists o,
    find_order 1 (fst (recordPayment ex_late_request ex_grown)) = Some o /\
    ~ (status o = "completed"%string <->
       final_amount o <=
       total_paid 1 (fst (recordPayment ex_late_request ex_grown))).
Proof.
  split; [ vm_compute; reflexivity | ].
  eexists. split; [ vm_compute; reflexivity | ].
  intros [ H _ ]. specialize (H eq_refl). vm_compute in H. apply H. reflexivity.
Qed.

(** C2 as stated fails twice.  With 10 % off 10.05 the stored amounts are
    10.05, 1.01 and 9.05, and 9.05 is not 10.05 - 1.01.  With two items
    priced 0.004 the total is stored as 0.01 and both item totals as 0.00. *)
Lemma C2_counterexample :
  (exists o, In o (orders ex_tie) /\
     final_amount o <> to_cents (of_cents (total_amount o) -
                                 of_cents (discount_amount o))) /\
  (exists o, In o (orders ex_mills) /\
     total_amount o <>
     to_cents (of_cents (item_sum (items_of (order_id o) ex_mills)))).
Proof.
  split; eexists; (split; [ vm_compute; left; reflexivity | ]);
    vm_compute; discriminate.
Qed.

(** C3 as stated fails: 20.00 off an order of 15.00 gives a discount of
    20.00, not 15.00, and a final amount of -5.00. *)
Lemma C3_counterexample :
  exists o,
    snd (updateOrder ex_twenty_off_request ex_fifteen) = ok_order o /\
    total_amount o = 1500 /\
    discount_amount o <> Z.min 2000 1500 /\ final_amount o = -500 /\
    ~ 0 <= final_amount o.
Proof.
  eexists. split; [ vm_compute; reflexivity | ].
  vm_compute. repeat split; try discriminate. intros H. apply H. reflexivity.
Qed.

(** C5 as stated fails: an empty list of items is not refused; the order
    is created, with no row and a total of 0. *)
Lemma C5_counterexample :
  snd (createOrder (ex_create []) ex_shop) = created_order 1 /\
  map total_amount (orders (fst (createOrder (ex_create []) ex_shop))) = [0] /\
  order_items (fst (createOrder (ex_create []) ex_shop)) = [].
Proof. vm_compute. repeat split; reflexivity. Qed.

(** C6 as stated fails: a payment of 0.00 is not answered with an error of
    its own.  The answer is the 500 'Server Error' of every failure, the
    one a payment for an order that does not exist gets, and not a status
    that tells the caller the request is at fault. *)
Lemma C6_counterexample :
  (Req.rp_amount ex_zero_request <= 0)%Q /\
  snd (recordPayment ex_zero_request ex_morning) = server_error /\
  snd (recordPayment ex_zero_request ex_morning) =
    snd (recordPayment ex_stray_request ex_morning) /\
  ~ client_error (snd (recordPayment ex_zero_request ex_morning)).
Proof.
  split; [ vm_compute; discriminate | ].
  split; [ vm_compute; reflexivity | ].
  split; [ vm_compute; reflexivity | ].
  unfold client_error. vm_compute. intros [ _ H ]. discriminate H.
Qed.

(** ** The theorems at concrete inputs *)

Lemma ex_morning_sales_nonneg : sales_nonneg ex_morning.
Proof. repeat constructor; vm_compute; discriminate. Qed.

(** A database without orders and shifts satisfies both invariants. *)
Lemma fresh_totals_inv (us : list Z) (menu : list menu_item) (ds : list discount) :
  totals_inv (fresh us menu ds).
Proof. repeat split; constructor. Qed.

Lemma fresh_single_active (us : list Z) (menu : list menu_item)
    (ds : list discount) :
  single_active_shift (fresh us menu ds).
Proof. intros u. unfold active_count. simpl. lia. Qed.

Lemma ex_shop_totals_inv : totals_inv ex_shop.
Proof. apply fresh_totals_inv. Qed.

Lemma ex_morning_single_active : single_active_shift ex_morning.
Proof.
  intros u. change (cashier_shifts ex_morning)
    with [opened_shift ex_start ex_shop].
  unfold active_count. simpl. destruct (is_active_shift_of u _); simpl; lia.
Qed.

(** Scenario C through C1: the payment of 12.15 completes the order. *)
Lemma C1_witness :
  recordPayment ex_settle_request ex_morning =
    (ex_settled, created ex_settle_row) /\
  payments ex_settled = payments ex_morning ++ [ex_settle_row] /\
  exists o', find_order 1 ex_settled = Some o' /\
    (final_amount o' <= total_paid 1 ex_settled ->
       status o' = "completed"%string) /\
    (total_paid 1 ex_settled < final_amount o' ->
       orders ex_settled = orders ex_morning).
Proof.
  split; [ vm_compute; reflexivity | ].
  apply (proj1 (C1_completed_when_paid ex_settle_request ex_morning
                  ex_settled ex_settle_row)).
  vm_compute. reflexivity.
Defined.

(** Scenarios A to C through C2. *)
Lemma C2_witness :
  totals_inv ex_shop /\
  Forall priced_in_cents
    [ CreateOrder (ex_create ex_breakfast);
      UpdateOrder (ex_update 1 None (Some 1));
      RecordPayment ex_settle_request ] /\
  forall o,
    In o (orders (run [ CreateOrder (ex_create ex_breakfast);
                        UpdateOrder (ex_update 1 None (Some 1));
                        RecordPayment ex_settle_request ] ex_shop)) ->
    total_amount o =
      item_sum (items_of (order_id o)
                  (run [ CreateOrder (ex_create ex_breakfast);
                         UpdateOrder (ex_update 1 None (Some 1));
                         RecordPayment ex_settle_request ] ex_shop)) /\
    Z.abs (final_amount o - (total_amount o - discount_amount o)) <= 1.
Proof.
  pose proof ex_shop_totals_inv as Hinv.
  assert (Hw : Forall priced_in_cents
                 [ CreateOrder (ex_create ex_breakfast);
                   UpdateOrder (ex_update 1 None (Some 1));
                   RecordPayment ex_settle_request ]).
  { repeat constructor; vm_compute; reflexivity. }
  split; [ exact Hinv | ]. split; [ exact Hw | ].
  intros o Ho. exact (C2_totals_after_any_sequence _ ex_shop o Hinv Hw Ho).
Defined.

(** Scenario F through C3. *)
Lemma C3_witness :
  updateOrder ex_twenty_off_request ex_fifteen =
    (fst (updateOrder ex_twenty_off_request ex_fifteen),
     ok_order ex_fifteen_less_twenty) /\
  discount_amount ex_fifteen_less_twenty = value ex_twenty_off /\
  total_amount ex_fifteen_less_twenty =
    to_cents (new_total ex_twenty_off_request ex_fifteen) /\
  final_amount ex_fifteen_less_twenty =
    to_cents (new_total ex_twenty_off_request ex_fifteen -
              of_cents (value ex_twenty_off)) /\
  (total_amount ex_fifteen_less_twenty < value ex_twenty_off ->
   final_amount ex_fifteen_less_twenty < 0).
Proof.
  assert (H : updateOrder ex_twenty_off_request ex_fifteen =
              (fst (updateOrder ex_twenty_off_request ex_fifteen),
               ok_order ex_fifteen_less_twenty))
    by (vm_compute; reflexivity).
  split; [ exact H | ].
  apply (C3_fixed_amount_not_capped ex_twenty_off_request ex_fifteen
           (fst (updateOrder ex_twenty_off_request ex_fifteen))
           ex_fifteen_less_twenty 2 ex_twenty_off []).
  - exact I.
  - exact H.
  - reflexivity.
  - reflexivity.
  - reflexivity.
Defined.

Lemma ex_breakfast_cent_prices :
  Forall (fun it => whole_cents (Req.unit_price it)) ex_breakfast.
Proof. repeat constructor; vm_compute; reflexivity. Qed.

(** Scenario A through C5: the order is accepted, and stored with its
    total of 13.50 and its two rows. *)
Lemma C5_witness :
  Req.co_items (ex_create ex_breakfast) = Some ex_breakfast /\
  createOrder (ex_create ex_breakfast) ex_shop =
    (fst (createOrder (ex_create ex_breakfast) ex_shop), created_order 1) /\
  orders (fst (createOrder (ex_create ex_breakfast) ex_shop)) =
    orders ex_shop ++ [new_order (ex_create ex_breakfast) ex_breakfast ex_shop].
Proof.
  pose proof ex_breakfast_cent_prices as Hc.
  split; [ reflexivity | ].
  destruct (C5_create_order (ex_create ex_breakfast) ex_shop
              ex_breakfast eq_refl) as (_ & Hstored & Hcommit).
  destruct Hcommit as [ d' Hd' ].
  - repeat constructor; vm_compute; discriminate.
  - repeat constructor; vm_compute; congruence.
  - exact Hc.
  - eexists. vm_compute. reflexivity.
  - reflexivity.
  - reflexivity.
  - vm_compute. reflexivity.
  - assert (H : createOrder (ex_create ex_breakfast) ex_shop =
                (fst (createOrder (ex_create ex_breakfast) ex_shop),
                 created_order 1))
      by (rewrite Hd'; reflexivity).
    split; [ exact H | ].
    exact (proj1 (Hstored Hc _ 1 H)).
Defined.

(** A payment of 0.00, through C6; and a payment of 12.15 that the cash
    sales of a shift at 99999999.99 cannot take. *)
Lemma C6_witness :
  ((Req.rp_amount ex_zero_request <= 0)%Q /\
   recordPayment ex_zero_request ex_morning = (ex_morning, server_error) /\
   recordPayment_auth ex_zero_request ex_morning =
     (ex_morning, server_error)) /\
  (insert_payment ex_settle_request ex_full_till =
     Ok (ex_settle_row,
         set_payments (payments ex_full_till ++ [ex_settle_row])
                      ex_full_till) /\
   update_shift_sales ex_settle_request
     (set_payments (payments ex_full_till ++ [ex_settle_row]) ex_full_till) =
     Err numeric_overflow /\
   recordPayment ex_settle_request ex_full_till =
     (ex_full_till, server_error)).
Proof.
  assert (H : (Req.rp_amount ex_zero_request <= 0)%Q)
    by (vm_compute; discriminate).
  assert (Hi : insert_payment ex_settle_request ex_full_till =
               Ok (ex_settle_row,
                   set_payments (payments ex_full_till ++ [ex_settle_row])
                                ex_full_till))
    by (vm_compute; reflexivity).
  assert (Hs : update_shift_sales ex_settle_request
                 (set_payments (payments ex_full_till ++ [ex_settle_row])
                               ex_full_till) = Err numeric_overflow)
    by (vm_compute; reflexivity).
  split.
  - split; [ exact H | ].
    exact (proj1 (C6_refused_payment_changes_nothing
                    ex_zero_request ex_morning) H).
  - split; [ exact Hi | ]. split; [ exact Hs | ].
    exact (proj1 (proj1 (proj2 (C6_refused_payment_changes_nothing
                                  ex_settle_request ex_full_till))
                    _ _ _ Hi Hs)).
Defined.

(** Scenario C through C7: the cash sales of the open shift grow by 12.15. *)
Lemma C7_witness :
  sales_nonneg ex_morning /\
  insert_payment ex_settle_request ex_morning =
    Ok (ex_settle_row,
        set_payments (payments ex_morning ++ [ex_settle_row]) ex_morning) /\
  payments ex_settled = payments ex_morning ++ [ex_settle_row] /\
  cashier_shifts ex_settled =
    on_active_shifts 7 (credit_cash 1215) (cashier_shifts ex_morning).
Proof.
  pose proof ex_morning_sales_nonneg as Hnn.
  assert (Hi : insert_payment ex_settle_request ex_morning =
               Ok (ex_settle_row,
                   set_payments (payments ex_morning ++ [ex_settle_row])
                                ex_morning))
    by (vm_compute; reflexivity).
  split; [ exact Hnn | ]. split; [ exact Hi | ].
  destruct (C7_shift_sales_credited ex_settle_request ex_morning _
              ex_settle_row 7 Hnn eq_refl Hi) as [ H _ ].
  destruct (H ex_settled) as (Hp & Hcash & _).
  - vm_compute. reflexivity.
  - split; [ exact Hp | ]. apply Hcash. reflexivity.
Defined.

(** Scenario E through C8: a second start for the same user is refused,
    and the user keeps one open shift whatever is requested next. *)
Lemma C8_witness :
  single_active_shift ex_morning /\
  single_active_shift
    (run [ StartShift ex_start; RecordPayment ex_settle_request;
           StartShift ex_start ] ex_morning) /\
  startShift ex_start ex_morning =
  (ex_morning,
   {| code := 400; payload := msg "User already has an active shift." |}).
Proof.
  pose proof ex_morning_single_active as Hinv.
  destruct (C8_single_open_shift ex_morning Hinv) as (Hrun & Hconflict & _).
  split; [ exact Hinv | ]. split; [ apply Hrun | ].
  apply Hconflict. vm_compute. discriminate.
Defined.

(** A voucher is booked as a card payment, through C9. *)
Lemma C9_witness :
  toLowerCase (Req.rp_payment_method ex_voucher_request) <> "cash"%string /\
  cashier_shifts (fst (recordPayment ex_voucher_request ex_morning)) =
    on_active_shifts 7 (credit_card (amount ex_voucher_row))
      (cashier_shifts ex_morning).
Proof.
  assert (Hm : toLowerCase (Req.rp_payment_method ex_voucher_request)
               <> "cash"%string) by (vm_compute; discriminate).
  split; [ exact Hm | ].
  apply (C9_any_method_but_cash_is_card ex_voucher_request ex_morning
           (fst (recordPayment ex_voucher_request ex_morning))
           ex_voucher_row 7).
  - exact ex_morning_sales_nonneg.
  - reflexivity.
  - left. vm_compute. reflexivity.
  - exact Hm.
Defined.


(** * Further properties of the code *)

(** ** Middleware *)

Lemma authorize_next (jwt_verify : string -> option (option principal))
    (roles : list string) (p : principal) (role : string) :
  pr_role p = Some role -> role <> EmptyString ->
  (authorize roles (Some p) = next tt <-> In role roles).
Proof.
  intros Hr Hne. unfold authorize. destruct p as [ uid r ]. simpl in Hr. subst r.
  destruct role as [ | c s ]; [ congruence | ].
  destruct (existsb _ roles) eqn:E.
  - split; [ intros _ | reflexivity ].
    apply existsb_exists in E. destruct E as (x & Hx & Hxe).
    apply String.eqb_eq in Hxe. subst x. exact Hx.
  - split; [ discriminate | ]. intros Hin.
    assert (E' : existsb (String.eqb (String c s)) roles = true).
    { apply existsb_exists. exists (String c s). split; [ exact Hin | ].
      apply String.eqb_refl. }
    congruence.
Qed.

(** X1: a route mounted behind [auth] and [authorize] runs its handler
    exactly when the token verifies and carries one of the allowed roles;
    every other request is answered 401 or 403 and leaves the database as
    it was. *)
Theorem X1_route_guard (jwt_verify : string -> option (option principal))
    (roles : list string) (handler : db -> db * response)
    (token : option string) (d : db) :
  (authorized jwt_verify roles token ->
   route jwt_verify roles handler token d = handler d) /\
  (~ authorized jwt_verify roles token ->
   fst (route jwt_verify roles handler token d) = d /\
   (code (snd (route jwt_verify roles handler token d)) = 401 \/
    code (snd (route jwt_verify roles handler token d)) = 403)).
Proof.
  split.
  - intros (t & p & role & -> & Ht & Hv & Hr & Hne & Hin).
    unfold route, auth. destruct t as [ | c s ]; [ congruence | ].
    rewrite Hv.
    apply (authorize_next jwt_verify roles p role Hr Hne) in Hin.
    rewrite Hin. reflexivity.
  - intros Hno. unfold route, auth.
    destruct token as [ [ | c s ] | ]; simpl; auto.
    destruct (jwt_verify (String c s)) as [ user | ] eqn:Hv; simpl; auto.
    destruct (authorize roles user) as [ [] | r ] eqn:Ha.
    + exfalso. apply Hno. unfold authorize in Ha.
      destruct user as [ [ uid [ [ | c' s' ] | ] ] | ]; try discriminate.
      exists (String c s), {| pr_user_id := uid; pr_role := Some (String c' s') |},
        (String c' s').
      repeat split; try congruence.
      destruct (existsb _ roles) eqn:E; [ | discriminate ].
      apply existsb_exists in E. destruct E as (x & Hx & Hxe).
      apply String.eqb_eq in Hxe. subst x. exact Hx.
    + simpl. unfold authorize in Ha.
      destruct user as [ [ uid [ [ | c' s' ] | ] ] | ];
        try (injection Ha as <-; simpl; auto).
      destruct (existsb _ roles); [ discriminate | ].
      injection Ha as <-. simpl. auto.
Qed.

Lemma serve_by_role (jwt_verify : string -> option (option principal))
    (role : string) (token : option string) (r : request) (roles : list string)
    (d : db) :
  token_of_role jwt_verify role token -> role <> EmptyString ->
  allowed_roles r = Some roles ->
  (In role roles -> serve jwt_verify token r d = handle r d) /\
  (~ In role roles ->
   serve jwt_verify token r d =
   (d, {| code := 403; payload := msg "Access forbidden: Insufficient role" |})).
Proof.
  intros (t & p & -> & Ht & Hv & Hr) Hne Hroles.
  unfold serve. rewrite Hroles. unfold route, auth.
  destruct t as [ | c s ]; [ congruence | ]. rewrite Hv.
  pose proof (authorize_next jwt_verify roles p role Hr Hne) as Hiff.
  split; intros Hin.
  - apply Hiff in Hin. rewrite Hin. reflexivity.
  - unfold authorize in *. destruct p as [ uid pr ]. simpl in Hr. subst pr.
    destruct role as [ | c' s' ]; [ congruence | ].
    destruct (existsb _ roles); [ | reflexivity ].
    exfalso. apply Hin, Hiff. reflexivity.
Qed.

(** X2: the route table.  A token with role 'owner' passes the middleware
    of every route.  A token with role 'cashier' is answered 403, with no
    change to the database, when it asks to update the details of an order,
    to delete an order or to adjust a shift; a token with role 'supervisor'
    when it asks to delete an order. *)
Theorem X2_roles_of_the_routes
    (jwt_verify : string -> option (option principal))
    (token : option string) (r : request) (d : db) :
  (token_of_role jwt_verify "owner" token ->
   serve jwt_verify token r d = handle r d) /\
  (token_of_role jwt_verify "cashier" token ->
   match r with
   | UpdateOrder _ | DeleteOrder _ | AdjustShift _ =>
       serve jwt_verify token r d =
       (d, {| code := 403;
              payload := msg "Access forbidden: Insufficient role" |})
   | _ => serve jwt_verify token r d = handle r d
   end) /\
  (token_of_role jwt_verify "supervisor" token ->
   match r with
   | DeleteOrder _ =>
       serve jwt_verify token r d =
       (d, {| code := 403;
              payload := msg "Access forbidden: Insufficient role" |})
   | _ => serve jwt_verify token r d = handle r d
   end).
Proof.
  assert (Hne : forall c s, String c s <> EmptyString) by (intros; discriminate).
  split; [ | split ]; intros Ht;
    destruct r; try reflexivity;
    match goal with
    | |- serve _ _ ?q _ = handle _ _ =>
        eapply (proj1 (serve_by_role _ _ _ q _ _ Ht (Hne _ _) eq_refl));
          simpl; tauto
    | |- serve _ _ ?q _ = (_, _) =>
        eapply (proj2 (serve_by_role _ _ _ q _ _ Ht (Hne _ _) eq_refl));
          simpl; intros H;
          repeat (destruct H as [ H | H ]; [ discriminate H | ]); exact H
    end.
Qed.

(** ** Shift summary *)

Lemma of_cents_minus (a b : Z) : (of_cents (a - b) == of_cents a - of_cents b)%Q.
Proof.
  unfold of_cents, Zminus. rewrite inject_Z_plus, inject_Z_opp. field.
Qed.

Lemma parseFloat_or_0_cents (x : option Z) :
  (parseFloat_or_0 x == of_cents (or_0 x))%Q.
Proof. destruct x; simpl; [ reflexivity | unfold of_cents; simpl; field ]. Qed.

Lemma expected_in_cents (a b : Z) (x y : option Z) :
  toFixed2 (of_cents a + of_cents b + parseFloat_or_0 x - parseFloat_or_0 y) =
  a + b + or_0 x - or_0 y.
Proof.
  unfold toFixed2.
  rewrite !parseFloat_or_0_cents, <- !of_cents_plus, <- of_cents_minus.
  apply to_cents_of_cents.
Qed.

Lemma difference_in_cents (a b : Z) :
  toFixed2 (of_cents a - of_cents b) = a - b.
Proof. unfold toFixed2. rewrite <- of_cents_minus. apply to_cents_of_cents. Qed.

(** X3: the shift summary.  For a shift that exists (with its user) the
    expected cash balance is opening cash plus cash sales plus cash in less
    cash out, nulls counting for 0, and the discrepancy is the closing cash
    less that balance, or null while no closing cash is recorded; there is
    no rounding loss.  The answer is 404 exactly when no shift with that id
    is joined to a user. *)
Theorem X3_shift_summary (id : Z) (d : db) :
  (forall s, shiftSummary id d = json s ->
     In (summary_shift s) (cashier_shifts d) /\
     shift_id (summary_shift s) = id /\
     expected_cash_balance s =
       opening_cash (summary_shift s) + sales_amount_cash (summary_shift s) +
       or_0 (cash_in (summary_shift s)) - or_0 (cash_out (summary_shift s)) /\
     cash_discrepancy s =
       option_map (fun closing => closing - expected_cash_balance s)
                  (closing_cash (summary_shift s))) /\
  (shiftSummary id d = status_404 "Shift not found." <->
   forall shift, In shift (cashier_shifts d) -> shift_id shift = id ->
                 ~ In (user_id shift) (users d)).
Proof.
  unfold shiftSummary. split.
  - intros s H.
    destruct (find _ (cashier_shifts d)) as [ shift | ] eqn:E; [ | discriminate ].
    injection H as <-. simpl.
    apply find_some in E. destruct E as [ Hin Hb ].
    apply andb_true_iff in Hb. destruct Hb as [ Hid _ ]. apply Z.eqb_eq in Hid.
    rewrite expected_in_cents.
    repeat split; auto.
    destruct (closing_cash shift); simpl; [ | reflexivity ].
    rewrite difference_in_cents. reflexivity.
  - destruct (find _ (cashier_shifts d)) as [ shift | ] eqn:E.
    + split; [ discriminate | ]. intros H. exfalso.
      apply find_some in E. destruct E as [ Hin Hb ].
      apply andb_true_iff in Hb. destruct Hb as [ Hid Hu ].
      apply Z.eqb_eq in Hid. apply (H shift Hin Hid).
      apply existsb_exists in Hu. destruct Hu as (u & Hu & Hue).
      apply Z.eqb_eq in Hue. subst u. exact Hu.
    + split; [ | reflexivity ]. intros _ shift Hin Hid Hu.
      pose proof (find_none _ _ E shift Hin) as Hf. simpl in Hf.
      rewrite Hid, Z.eqb_refl in Hf. simpl in Hf.
      assert (Hex : existsb (Z.eqb (user_id shift)) (users d) = true).
      { apply existsb_exists. exists (user_id shift).
        split; [ exact Hu | apply Z.eqb_refl ]. }
      congruence.
Qed.

Lemma find_map_same {A : Type} (f : A -> bool) (g : A -> A) (l : list A) :
  (forall x, f (g x) = f x) ->
  find f (map g l) = option_map g (find f l).
Proof.
  intros H. induction l as [ | x l IH ]; simpl; [ reflexivity | ].
  rewrite H. destruct (f x); [ reflexivity | exact IH ].
Qed.

(** X4: payments in the shift summary.  After a payment with a cashier
    commits, the summary of any shift reads as before, except that for an
    open shift of that cashier the expected cash balance has grown by the
    amount recorded when the method lowers to 'cash', and only then: a
    payment by any other method leaves every expected balance as it was,
    and the summary of a closed shift never moves. *)
Theorem X4_payment_in_shift_summary (req : Req.record_payment) (d d' : db)
    (p : payment) (cashier id : Z) (s : shift_summary) :
  sales_nonneg d ->
  truthy (Req.rp_cashier_id req) = Some cashier ->
  recordPayment req d = (d', created p) ->
  shiftSummary id d = json s ->
  exists s', shiftSummary id d' = json s' /\
    expected_cash_balance s' =
      expected_cash_balance s +
      (if is_active_shift_of cashier (summary_shift s) &&
          String.eqb (toLowerCase (Req.rp_payment_method req)) "cash"
       then amount p else 0) /\
    (shift_end (summary_shift s) <> None -> s' = s).
Proof.
  intros Hnn Hc H Hs.
  apply recordPayment_steps in H. destruct H as (d1 & d2 & Hi & Hsh & Hk).
  pose proof (committed_shifts req d d1 d2 d' p d2 Hnn Hi Hsh Hk) as [ _ E ].
  rewrite Hc in E.
  assert (Hu : users d' = users d).
  { apply insert_payment_Ok in Hi. destruct Hi as (-> & _).
    unfold update_shift_sales in Hsh. rewrite Hc in Hsh. simpl in Hsh.
    inv_bind Hsh. injection Hsh as <-.
    unfold completion_check in Hk. simpl in Hk.
    destruct (find _ (orders d)); [ | discriminate ].
    destruct (Qle_bool _ _); injection Hk as <-; reflexivity. }
  unfold shiftSummary in *. rewrite E, Hu. unfold on_active_shifts.
  rewrite find_map_same.
  2:{ intros x. destruct (is_active_shift_of cashier x); [ | reflexivity ].
      destruct (String.eqb _ _); reflexivity. }
  destruct (find _ (cashier_shifts d)) as [ shift | ]; [ | discriminate ].
  injection Hs as <-. simpl. eexists. split; [ reflexivity | ]. simpl.
  rewrite !expected_in_cents.
  unfold is_active_shift_of.
  destruct ((user_id shift =? cashier) && is_null (shift_end shift)) eqn:Ea.
  - split.
    + destruct (String.eqb _ _); simpl; lia.
    + intros Hclosed. apply andb_true_iff in Ea. destruct Ea as [ _ Hn ].
      destruct (shift_end shift); [ discriminate | congruence ].
  - simpl. split; [ lia | reflexivity ].
Qed.

(** ** Shapes of the database after a committed write *)

Lemma createOrder_shape (req : Req.create_order) (d d' : db) (id : Z) :
  createOrder req d = (d', created_order id) ->
  exists items rows,
    Req.co_items req = Some items /\ id = orders_order_id_seq d /\
    Forall2 (stored_item id d) items rows /\
    d' = set_order_items (order_items d ++ rows)
           (set_orders (orders d ++ [new_order req items d]) (id + 1) d).
Proof.
  intros H. apply createOrder_steps in H.
  destruct H as (items & Hi & -> & Hins).
  apply insert_items_Ok in Hins. destruct Hins as (rows & -> & Hrows & _).
  exists items, rows. auto.
Qed.

Lemma stored_item_menu (id : Z) (d : db) (it : Req.item) (r : order_item) :
  stored_item id d it r ->
  oi_item_id r = Req.item_id it /\
  existsb (fun m => mi_item_id m =? Req.item_id it) (menu_items d) = true.
Proof.
  intros (m & Hm & ->). simpl. split; [ reflexivity | ].
  unfold select_menu_item in Hm. apply find_some in Hm.
  apply existsb_exists. exists m. exact Hm.
Qed.

Lemma Forall2_In_left {A B : Type} (R : A -> B -> Prop) (l : list A)
    (l' : list B) (x : A) :
  Forall2 R l l' -> In x l -> exists y, In y l' /\ R x y.
Proof.
  induction 1 as [ | a b l l' Hab _ IH ]; simpl; intros Hin; [ contradiction | ].
  destruct Hin as [ <- | Hin ]; [ eauto | ].
  destruct (IH Hin) as (y & Hy & HR). eauto.
Qed.

Lemma Forall2_In_right {A B : Type} (R : A -> B -> Prop) (l : list A)
    (l' : list B) (y : B) :
  Forall2 R l l' -> In y l' -> exists x, In x l /\ R x y.
Proof.
  induction 1 as [ | a b l l' Hab _ IH ]; simpl; intros Hin; [ contradiction | ].
  destruct Hin as [ <- | Hin ]; [ eauto | ].
  destruct (IH Hin) as (x & Hx & HR). eauto.
Qed.

(** The exact database after a committed update. *)
Lemma updateOrder_shape (req : Req.update_order) (d d' : db) (o : order) :
  updateOrder req d = (d', ok_order o) ->
  exists (its : list order_item) (ods : list order_discount)
         (upd : order -> order) (o0 : order),
    d' = set_orders
           (map (fun x => if order_id x =? Req.uo_id req then upd x else x)
                (orders d))
           (orders_order_id_seq d)
           (set_order_discounts ods (set_order_items its d)) /\
    find_order (Req.uo_id req) d = Some o0 /\ o = upd o0 /\
    (forall x, order_id (upd x) = order_id x /\ status (upd x) = status x /\
               cashier_id (upd x) = cashier_id x /\
               discount_amount (upd x) = discount_amount o) /\
    match Req.uo_items req with
    | Some (it :: rest) =>
        exists rows,
          its = filter (fun r => negb (oi_order_id r =? Req.uo_id req))
                       (order_items d) ++ rows /\
          Forall2 (stored_item (Req.uo_id req) d) (it :: rest) rows
    | _ => its = order_items d
    end /\
    match truthy (Req.uo_discount_id req) with
    | Some k =>
        match select_active_discount k d with
        | disc :: _ =>
            ods = filter (fun r => negb (od_order_id r =? Req.uo_id req))
                         (order_discounts d) ++
                  [{| od_order_id := Req.uo_id req; od_discount_id := k;
                      applied_value := discount_amount o;
                      applied_by_user_id :=
                        truthy (Req.uo_applied_by_user_id req) |}] /\
            references_user (truthy (Req.uo_applied_by_user_id req)) d = Ok tt
        | [] =>
            ods = filter (fun r => negb (od_order_id r =? Req.uo_id req))
                         (order_discounts d) /\
            discount_amount o = 0
        end
    | None =>
        ods = filter (fun r => negb (od_order_id r =? Req.uo_id req))
                     (order_discounts d) /\
        discount_amount o = 0
    end.
Proof.
  intros H. apply updateOrder_steps in H.
  destruct H as (d1 & D & F & d2 & H1 & H2 & H3).
  assert (S1 : exists its, d1 = set_order_items its d /\
            match Req.uo_items req with
            | Some (it :: rest) =>
                exists rows,
                  its = filter (fun r => negb (oi_order_id r =? Req.uo_id req))
                               (order_items d) ++ rows /\
                  Forall2 (stored_item (Req.uo_id req) d) (it :: rest) rows
            | _ => its = order_items d
            end).
  { unfold replace_items in H1.
    destruct (Req.uo_items req) as [ [ | it rest ] | ].
    - injection H1 as _ <-. exists (order_items d).
      split; [ destruct d; reflexivity | reflexivity ].
    - rewrite update_items_insert_items in H1. inv_bind H1.
      injection H1 as _ <-. apply insert_items_Ok in E.
      destruct E as (rows & -> & Hrows & _). simpl.
      eexists. split; [ reflexivity | ]. exists rows. auto.
    - injection H1 as _ <-. exists (order_items d).
      split; [ destruct d; reflexivity | reflexivity ]. }
  destruct S1 as (its & -> & Hits).
  assert (S2 : exists ods, d2 = set_order_discounts ods (set_order_items its d) /\
            match truthy (Req.uo_discount_id req) with
            | Some k =>
                match select_active_discount k d with
                | disc :: _ =>
                    ods = filter (fun r => negb (od_order_id r =? Req.uo_id req))
                                 (order_discounts d) ++
                          [{| od_order_id := Req.uo_id req; od_discount_id := k;
                              applied_value := to_cents D;
                              applied_by_user_id :=
                                truthy (Req.uo_applied_by_user_id req) |}] /\
                    references_user (truthy (Req.uo_applied_by_user_id req)) d
                    = Ok tt
                | [] =>
                    ods = filter (fun r => negb (od_order_id r =? Req.uo_id req))
                                 (order_discounts d) /\ D = 0%Q
                end
            | None =>
                ods = filter (fun r => negb (od_order_id r =? Req.uo_id req))
                             (order_discounts d) /\ D = 0%Q
            end).
  { unfold apply_discount in H2.
    destruct (truthy (Req.uo_discount_id req)) as [ k | ].
    - inv_bind H2. unfold select_active_discount in *. simpl in H2.
      destruct (filter _ (discounts d)) as [ | disc rest ].
      + injection H2 as <- _ <-. eexists. split; [ reflexivity | ]. auto.
      + inv_bind H2. injection H2 as <- _ <-.
        unfold insert_order_discount in E0.
        inv_bind E0. inv_bind E0. inv_bind E0. injection E0 as <-.
        apply decimal_10_2_Ok in E1. subst. simpl.
        eexists. split; [ reflexivity | ]. split; [ reflexivity | ].
        match goal with
        | Hu : references_user _ _ = Ok ?u |- _ => destruct u; exact Hu
        end.
    - injection H2 as <- _ <-. eexists. split; [ reflexivity | ]. auto. }
  destruct S2 as (ods & -> & Hods).
  unfold update_order_row in H3. simpl in H3.
  destruct (find _ (orders d)) as [ o0 | ] eqn:Hf; [ | discriminate ].
  inv_bind H3. inv_bind H3. inv_bind H3. inv_bind H3.
  apply decimal_10_2_Ok in E1. subst.
  injection H3 as <- <-.
  exists its, ods. eexists. exists o0.
  split; [ reflexivity | ]. split; [ exact Hf | ]. split; [ reflexivity | ].
  split; [ intros x; simpl; auto | ]. split; [ exact Hits | ].
  simpl.
  destruct (truthy (Req.uo_discount_id req)) as [ k | ].
  - destruct (select_active_discount k d).
    + destruct Hods as [ -> -> ]. auto.
    + exact Hods.
  - destruct Hods as [ -> -> ]. auto.
Qed.

(** ** Removing menu items and discounts *)

Lemma existsb_In {A : Type} (f : A -> bool) (l : list A) (x : A) :
  In x l -> f x = true -> existsb f l = true.
Proof. intros Hin Hf. apply existsb_exists. eauto. Qed.

Lemma deleteMenuItem_restricted (i : Z) (d : db) (r : order_item) :
  In r (order_items d) -> oi_item_id r = i ->
  existsb (fun m => mi_item_id m =? i) (menu_items d) = true ->
  deleteMenuItem i d = (d, server_error).
Proof.
  intros Hin Hi Hm. unfold deleteMenuItem. rewrite Hm.
  rewrite (existsb_In _ _ r Hin); [ reflexivity | ].
  apply Z.eqb_eq. exact Hi.
Qed.

(** X5: an item that has been ordered stays on the menu.  After an order
    is created, or the items of an order are replaced, none of the items
    submitted can be deleted from the menu: the deletion fails and changes
    nothing. *)
Theorem X5_ordered_item_stays_on_menu (d d' : db) (it : Req.item) :
  (exists req id items,
     createOrder req d = (d', created_order id) /\
     Req.co_items req = Some items /\ In it items) \/
  (exists req o,
     updateOrder req d = (d', ok_order o) /\
     In it (submitted_items req)) ->
  deleteMenuItem (Req.item_id it) d' = (d', server_error).
Proof.
  intros [ (req & id & items & H & Hi & Hin) | (req & o & H & Hin) ].
  - apply createOrder_shape in H.
    destruct H as (items' & rows & Hi' & -> & Hrows & ->).
    rewrite Hi in Hi'. injection Hi' as <-.
    destruct (Forall2_In_left _ _ _ _ Hrows Hin) as (r & Hr & Hst).
    apply stored_item_menu in Hst. destruct Hst as [ Hid Hm ].
    apply (deleteMenuItem_restricted _ _ r); simpl; auto.
    apply in_or_app. right. exact Hr.
  - apply updateOrder_shape in H.
    destruct H as (its & ods & upd & o0 & -> & _ & _ & _ & Hits & _).
    unfold submitted_items in Hin.
    destruct (Req.uo_items req) as [ [ | it0 rest ] | ]; try contradiction.
    destruct Hits as (rows & -> & Hrows).
    destruct (Forall2_In_left _ _ _ _ Hrows Hin) as (r & Hr & Hst).
    apply stored_item_menu in Hst. destruct Hst as [ Hid Hm ].
    apply (deleteMenuItem_restricted _ _ r); simpl; auto.
    apply in_or_app. right. exact Hr.
Qed.

Lemma find_filter_negb {A : Type} (f : A -> bool) (l : list A) :
  find f (filter (fun x => negb (f x)) l) = None.
Proof.
  induction l as [ | x l IH ]; simpl; [ reflexivity | ].
  destruct (f x) eqn:E; simpl; [ exact IH | rewrite E; exact IH ].
Qed.

Lemma createOrder_unknown_item (req : Req.create_order) (d : db)
    (items : list Req.item) :
  Req.co_items req = Some items ->
  Exists (fun it => select_menu_item (Req.item_id it) d = None) items ->
  snd (createOrder req d) = server_error /\
  (fst (createOrder req d) = d \/
   fst (createOrder req d) = nextval_order_id d).
Proof.
  intros Hitems Hex.
  destruct (createOrder_failed req d) as [ [ id H ] | H ]; [ | exact H ].
  exfalso. apply createOrder_steps in H.
  destruct H as (items' & Hi & _ & Hins).
  rewrite Hitems in Hi. injection Hi as <-.
  match type of Hins with
  | insert_items ?i ?l ?s = _ =>
      destruct (insert_items_unknown i l s Hex) as [ e He ]
  end.
  congruence.
Qed.

(** X6: a deleted item can no longer be ordered.  When the deletion of a
    menu item is answered 200, only the menu has changed, no stored order
    line names the item, and from then on every order that lists the item
    is answered 500 and persists no row. *)
Theorem X6_deleted_item_cannot_be_ordered (i : Z) (d d' : db) :
  deleteMenuItem i d = (d', deleted_menu_item) ->
  d' = set_menu_items
         (filter (fun m => negb (mi_item_id m =? i)) (menu_items d)) d /\
  select_menu_item i d' = None /\
  Forall (fun r => oi_item_id r <> i) (order_items d') /\
  forall req items,
    Req.co_items req = Some items ->
    Exists (fun it => Req.item_id it = i) items ->
    snd (createOrder req d') = server_error /\
    (fst (createOrder req d') = d' \/
     fst (createOrder req d') = nextval_order_id d').
Proof.
  unfold deleteMenuItem, deleted_menu_item, server_error. intros H.
  destruct (existsb _ (menu_items d)); [ | discriminate ].
  destruct (existsb _ (order_items d)) eqn:Hrows; [ discriminate | ].
  injection H as <-.
  assert (Hnone : select_menu_item i
            (set_menu_items
               (filter (fun m => negb (mi_item_id m =? i)) (menu_items d)) d)
          = None) by (apply find_filter_negb).
  split; [ reflexivity | ]. split; [ exact Hnone | ]. split.
  - simpl. apply Forall_forall. intros r Hr Hi.
    assert (E : existsb (fun r => oi_item_id r =? i) (order_items d) = true).
    { apply (existsb_In _ _ r Hr). apply Z.eqb_eq. exact Hi. }
    congruence.
  - intros req items Hitems Hex.
    apply (createOrder_unknown_item req _ items Hitems).
    eapply Exists_impl; [ | exact Hex ]. simpl. intros it <-. exact Hnone.
Qed.

(** X7: discounts and their deletion.  A discount that an update has just
    applied to an order cannot be deleted: the deletion fails and changes
    nothing.  When a deletion is answered 200 only the discounts have
    changed, and an update that names the deleted discount and commits
    takes nothing off and attaches no row. *)
Theorem X7_discount_deletion (k : Z) (d d' : db) :
  (forall req o disc rest,
     updateOrder req d = (d', ok_order o) ->
     truthy (Req.uo_discount_id req) = Some k ->
     select_active_discount k d = disc :: rest ->
     deleteDiscount k d' = (d', server_error)) /\
  (deleteDiscount k d = (d', deleted_discount) ->
   d' = set_discounts
          (filter (fun x => negb (discount_id x =? k)) (discounts d)) d /\
   forall req d'' o,
     truthy (Req.uo_discount_id req) = Some k ->
     updateOrder req d' = (d'', ok_order o) ->
     discount_amount o = 0 /\ final_amount o = total_amount o /\
     discounts_of (Req.uo_id req) d'' = []).
Proof.
  split.
  - intros req o disc rest H Hk Hsel.
    apply updateOrder_shape in H.
    destruct H as (its & ods & upd & o0 & -> & _ & _ & _ & _ & Hods).
    rewrite Hk, Hsel in Hods. destruct Hods as [ -> _ ].
    unfold deleteDiscount. simpl.
    assert (Hd : existsb (fun x => discount_id x =? k) (discounts d) = true).
    { unfold select_active_discount in Hsel.
      assert (Hin : In disc (filter
                (fun x => (discount_id x =? k) &&
                          match is_active x with Some true => true | _ => false end)
                (discounts d))) by (rewrite Hsel; left; reflexivity).
      apply filter_In in Hin. destruct Hin as [ Hin Hb ].
      apply andb_true_iff in Hb. apply (existsb_In _ _ disc Hin), Hb. }
    rewrite Hd, existsb_app. simpl. rewrite Z.eqb_refl, orb_true_r.
    reflexivity.
  - unfold deleteDiscount, deleted_discount, server_error. intros H.
    destruct (existsb _ (discounts d)); [ | discriminate ].
    destruct (existsb _ (order_discounts d)); [ discriminate | ].
    injection H as <-. split; [ reflexivity | ].
    intros req d'' o Hk H.
    assert (Hnone : select_active_discount k
              (set_discounts
                 (filter (fun x => negb (discount_id x =? k)) (discounts d)) d)
            = []).
    { unfold select_active_discount. simpl.
      apply filter_nil. intros x Hx. apply filter_In in Hx.
      destruct Hx as [ _ Hx ]. apply negb_true_iff in Hx. rewrite Hx.
      reflexivity. }
    apply updateOrder_steps in H.
    destruct H as (d1 & D & F & d2 & H1 & H2 & H3).
    apply replace_items_Ok in H1.
    destruct H1 as (_ & _ & Hd & _ & Hod & _).
    apply apply_discount_Ok in H2.
    destruct H2 as (_ & _ & _ & _ & _ & _ & Hcase).
    rewrite Hk in Hcase. unfold select_active_discount in Hcase, Hnone.
    rewrite Hd, Hnone in Hcase. destruct Hcase as (-> & -> & Hod2).
    apply update_order_row_Ok in H3.
    destruct H3 as (o0 & _ & _ & _ & Ht & Hda & Hfa & _ & Hod3 & _).
    split; [ rewrite Hda; reflexivity | ].
    split; [ congruence | ].
    unfold discounts_of. rewrite Hod3, Hod2. apply filter_filter_negb.
Qed.

(** ** Keys and references *)

Lemma references_user_known (u : option Z) (d : db) (x : unit) :
  references_user u d = Ok x -> known_user d u.
Proof.
  unfold references_user, known_user. intros H n ->.
  apply guard_Ok in H. apply existsb_exists in H.
  destruct H as (m & Hm & E). apply Z.eqb_eq in E. subst m. exact Hm.
Qed.

Lemma existsb_order_ids (id : Z) (d : db) :
  existsb (fun o => order_id o =? id) (orders d) = true -> In id (order_ids d).
Proof.
  intros H. apply existsb_exists in H. destruct H as (o & Ho & E).
  apply Z.eqb_eq in E. subst id. apply in_map. exact Ho.
Qed.

Lemma find_order_ids (id : Z) (d : db) (o : order) :
  find_order id d = Some o -> In id (order_ids d) /\ In o (orders d) /\ order_id o = id.
Proof.
  unfold find_order. intros H. apply find_some in H. destruct H as [ Hin E ].
  apply Z.eqb_eq in E. subst id. split; [ apply in_map; exact Hin | auto ].
Qed.

Lemma map_rewrite_same {A B : Type} (k : A -> B) (f : A -> A) (l : list A) :
  (forall x, k (f x) = k x) -> map k (map f l) = map k l.
Proof.
  intros H. rewrite map_map. apply map_ext. exact H.
Qed.

Lemma createOrder_cashier (req : Req.create_order) (d d' : db) (id : Z) :
  createOrder req d = (d', created_order id) ->
  known_user d (Req.co_cashier_id req).
Proof.
  unfold createOrder, created_order. intros H.
  destruct (order_parameters req) as [ [ [ items tn ] total ] | ];
    [ | discriminate ].
  unfold createOrder_tx in H.
  destruct (references_user _ d) eqn:E; simpl in H; [ | discriminate ].
  apply (references_user_known _ _ _ E).
Qed.

Lemma stored_item_refs (id : Z) (d : db) (it : Req.item) (r : order_item) :
  stored_item id d it r -> oi_order_id r = id /\ In (oi_item_id r) (menu_ids d).
Proof.
  intros (m & Hm & ->). simpl. split; [ reflexivity | ].
  unfold select_menu_item in Hm. apply find_some in Hm.
  destruct Hm as [ Hin E ]. apply Z.eqb_eq in E. rewrite <- E.
  apply in_map. exact Hin.
Qed.

Lemma stored_rows_refs (id : Z) (d : db) (items : list Req.item)
    (rows : list order_item) :
  Forall2 (stored_item id d) items rows ->
  Forall (fun r => oi_order_id r = id /\ In (oi_item_id r) (menu_ids d)) rows.
Proof.
  induction 1 as [ | it r items rows Hst _ IH ]; constructor;
    [ apply (stored_item_refs _ _ _ _ Hst) | exact IH ].
Qed.

Lemma NoDup_snoc {A : Type} (l : list A) (x : A) :
  NoDup l -> ~ In x l -> NoDup (l ++ [x]).
Proof.
  induction 1 as [ | a l Ha Hl IH ]; simpl; intros Hx.
  - constructor; [ auto | constructor ].
  - constructor.
    + intros Hin. apply in_app_or in Hin. destruct Hin as [ Hin | [ <- | [] ] ].
      * contradiction.
      * apply Hx. left. reflexivity.
    + apply IH. intros Hin. apply Hx. right. exact Hin.
Qed.

Ltac split_integrity :=
  split; [ | split; [ | split; [ | split; [ | split; [ | split ] ] ] ] ].

Lemma createOrder_keeps_integrity (req : Req.create_order) (d d' : db) (id : Z) :
  integrity d -> createOrder req d = (d', created_order id) -> integrity d'.
Proof.
  intros (Hnd & Hord & Hoi & Hpay & Hod & Hsnd & Hsh) H.
  pose proof (createOrder_cashier _ _ _ _ H) as Hcash.
  apply createOrder_shape in H.
  destruct H as (items & rows & _ & -> & Hrows & ->).
  apply stored_rows_refs in Hrows.
  set (seq := orders_order_id_seq d) in *.
  assert (Hfresh : ~ In seq (order_ids d)).
  { intros Hin. unfold order_ids in Hin. apply in_map_iff in Hin.
    destruct Hin as (o & E & Ho). rewrite Forall_forall in Hord.
    destruct (Hord o Ho) as [ Hlt _ ]. fold seq in Hlt. lia. }
  unfold integrity, order_ids, menu_ids, discount_ids, known_user in *. simpl.
  fold seq. rewrite map_app. simpl. fold seq.
  split_integrity.
  - apply NoDup_snoc; assumption.
  - apply Forall_app. split.
    + eapply Forall_impl; [ | exact Hord ]. simpl. intros o [ Ho1 Ho2 ].
      fold seq in Ho1. split; [ lia | exact Ho2 ].
    + constructor; [ | constructor ]. simpl. fold seq. split; [ lia | exact Hcash ].
  - apply Forall_app. split.
    + eapply Forall_impl; [ | exact Hoi ]. simpl. intros r [ Hr1 Hr2 ].
      split; [ apply in_or_app; left; exact Hr1 | exact Hr2 ].
    + eapply Forall_impl; [ | exact Hrows ]. simpl. intros r [ Hr1 Hr2 ].
      split; [ apply in_or_app; right; left; symmetry; exact Hr1 | exact Hr2 ].
  - eapply Forall_impl; [ | exact Hpay ]. simpl. intros p [ Hp1 Hp2 ].
    split; [ apply in_or_app; left; exact Hp1 | exact Hp2 ].
  - eapply Forall_impl; [ | exact Hod ]. simpl. intros r (Hr1 & Hr2 & Hr3).
    split; [ apply in_or_app; left; exact Hr1 | auto ].
  - exact Hsnd.
  - exact Hsh.
Qed.

Lemma select_active_discount_id (k : Z) (d : db) (disc : discount)
    (rest : list discount) :
  select_active_discount k d = disc :: rest ->
  In disc (discounts d) /\ discount_id disc = k /\ is_active disc = Some true.
Proof.
  unfold select_active_discount. intros H.
  assert (Hin : In disc (disc :: rest)) by (left; reflexivity).
  rewrite <- H in Hin. apply filter_In in Hin. destruct Hin as [ Hin Hb ].
  apply andb_true_iff in Hb. destruct Hb as [ E Ha ].
  apply Z.eqb_eq in E. split; [ exact Hin | ]. split; [ exact E | ].
  destruct (is_active disc) as [ [ | ] | ]; congruence.
Qed.

Lemma updateOrder_keeps_integrity (req : Req.update_order) (d d' : db) (o : order) :
  integrity d -> updateOrder req d = (d', ok_order o) -> integrity d'.
Proof.
  intros (Hnd & Hord & Hoi & Hpay & Hod & Hsnd & Hsh) H.
  apply updateOrder_shape in H.
  destruct H as (its & ods & upd & o0 & -> & Hfind & _ & Hupd & Hits & Hods).
  apply find_order_ids in Hfind. destruct Hfind as (Hid & _ & _).
  assert (Hids : map order_id
            (map (fun x => if order_id x =? Req.uo_id req then upd x else x)
                 (orders d)) = map order_id (orders d)).
  { apply map_rewrite_same. intros x.
    destruct (order_id x =? _); [ apply Hupd | reflexivity ]. }
  unfold integrity, order_ids, menu_ids, discount_ids, known_user in *. simpl.
  rewrite Hids. split_integrity.
  - exact Hnd.
  - apply Forall_map. eapply Forall_impl; [ | exact Hord ]. simpl.
    intros x Hx. destruct (order_id x =? _); [ | exact Hx ].
    destruct (Hupd x) as (-> & _ & -> & _). exact Hx.
  - destruct (Req.uo_items req) as [ [ | it rest ] | ]; try (subst its; exact Hoi).
    destruct Hits as (rows & -> & Hrows). apply stored_rows_refs in Hrows.
    apply Forall_app. split; [ apply Forall_filter; exact Hoi | ].
    eapply Forall_impl; [ | exact Hrows ]. simpl. intros r [ -> Hr ]. auto.
  - exact Hpay.
  - assert (Hkeep : Forall
              (fun r => In (od_order_id r) (map order_id (orders d)) /\
                        In (od_discount_id r) (map discount_id (discounts d)) /\
                        (forall n, applied_by_user_id r = Some n -> In n (users d)))
              (filter (fun r => negb (od_order_id r =? Req.uo_id req))
                      (order_discounts d)))
      by (apply Forall_filter; exact Hod).
    destruct (truthy (Req.uo_discount_id req)) as [ k | ];
      [ | destruct Hods as [ -> _ ]; exact Hkeep ].
    destruct (select_active_discount k d) as [ | disc rest ] eqn:Hsel;
      [ destruct Hods as [ -> _ ]; exact Hkeep | ].
    destruct Hods as [ -> Hu ]. apply Forall_app. split; [ exact Hkeep | ].
    constructor; [ | constructor ]. simpl.
    apply select_active_discount_id in Hsel. destruct Hsel as (Hin & <- & _).
    split; [ exact Hid | ]. split; [ apply in_map; exact Hin | ].
    apply (references_user_known _ _ _ Hu).
  - exact Hsnd.
  - exact Hsh.
Qed.

Lemma NoDup_map_filter {A : Type} (k : A -> Z) (f : A -> bool) (l : list A) :
  NoDup (map k l) -> NoDup (map k (filter f l)).
Proof.
  induction l as [ | x l IH ]; simpl; intros H; [ constructor | ].
  inversion H as [ | ? ? Hx Hl ]; subst.
  destruct (f x); simpl; [ | apply IH; exact Hl ].
  constructor; [ | apply IH; exact Hl ].
  intros Hin. apply Hx. apply in_map_iff in Hin. destruct Hin as (y & E & Hy).
  apply filter_In in Hy. rewrite <- E. apply in_map. apply Hy.
Qed.

Lemma In_map_filter_other (id : Z) (l : list order) (x : Z) :
  In x (map order_id l) -> x <> id ->
  In x (map order_id (filter (fun o => negb (order_id o =? id)) l)).
Proof.
  intros Hin Hne. apply in_map_iff in Hin. destruct Hin as (o & E & Ho).
  apply in_map_iff. exists o. split; [ exact E | ].
  apply filter_In. split; [ exact Ho | ].
  apply negb_true_iff, Z.eqb_neq. lia.
Qed.

Lemma deleteOrder_keeps_integrity (id : Z) (d : db) :
  integrity d -> integrity (fst (deleteOrder id d)).
Proof.
  intros Hint. unfold deleteOrder.
  destruct (existsb _ (orders d)); [ | exact Hint ].
  destruct Hint as (Hnd & Hord & Hoi & Hpay & Hod & Hsnd & Hsh).
  unfold integrity, order_ids, menu_ids, discount_ids, known_user in *. simpl.
  split_integrity.
  - apply NoDup_map_filter. exact Hnd.
  - apply Forall_filter. exact Hord.
  - rewrite Forall_forall in Hoi. apply Forall_forall. intros r Hr.
    apply filter_In in Hr. destruct Hr as [ Hr Hne ].
    apply negb_true_iff, Z.eqb_neq in Hne. destruct (Hoi r Hr) as [ H1 H2 ].
    split; [ apply In_map_filter_other; assumption | exact H2 ].
  - rewrite Forall_forall in Hpay. apply Forall_forall. intros p Hp.
    apply filter_In in Hp. destruct Hp as [ Hp Hne ].
    apply negb_true_iff, Z.eqb_neq in Hne. destruct (Hpay p Hp) as [ H1 H2 ].
    split; [ apply In_map_filter_other; assumption | exact H2 ].
  - rewrite Forall_forall in Hod. apply Forall_forall. intros r Hr.
    apply filter_In in Hr. destruct Hr as [ Hr Hne ].
    apply negb_true_iff, Z.eqb_neq in Hne. destruct (Hod r Hr) as (H1 & H2 & H3).
    split; [ apply In_map_filter_other; assumption | auto ].
  - exact Hsnd.
  - exact Hsh.
Qed.

Lemma setStatus_keeps_integrity (id : Z) (st : string) (d : db) :
  integrity d -> integrity (fst (setStatus id st d)).
Proof.
  intros Hint. unfold setStatus.
  destruct (find _ (orders d)); [ | exact Hint ].
  destruct (varchar 50 st); [ | exact Hint ]. simpl.
  destruct Hint as (Hnd & Hord & Hoi & Hpay & Hod & Hsnd & Hsh).
  unfold integrity, order_ids, menu_ids, discount_ids, known_user in *. simpl.
  rewrite map_rewrite_same
    by (intros x; destruct (order_id x =? id); reflexivity).
  split_integrity; auto.
  apply Forall_map. eapply Forall_impl; [ | exact Hord ]. simpl.
  intros x Hx. destruct (order_id x =? id); exact Hx.
Qed.

(** The shift step: rows keep everything but their sales totals. *)
Lemma update_shift_sales_same_but_sales (req : Req.record_payment) (d d' : db) :
  update_shift_sales req d = Ok d' ->
  Forall2 same_but_sales (cashier_shifts d) (cashier_shifts d') /\
  users d' = users d /\ menu_items d' = menu_items d /\
  discounts d' = discounts d /\ order_discounts d' = order_discounts d /\
  cashier_shifts_shift_id_seq d' = cashier_shifts_shift_id_seq d.
Proof.
  assert (Hrefl : forall s, same_but_sales s s) by (intros [ ]; reflexivity).
  unfold update_shift_sales. intros H.
  destruct (truthy (Req.rp_cashier_id req)) as [ cashier | ].
  - inv_bind H. injection H as <-. simpl. split; [ | auto 10 ].
    destruct (String.eqb _ _);
      (eapply update_where_Forall2; [ exact Hrefl | | exact E ]).
    + intros x y Hy. unfold add_sales_cash in Hy. inv_bind Hy.
      injection Hy as <-. reflexivity.
    + intros x y Hy. unfold add_sales_card in Hy. inv_bind Hy.
      injection Hy as <-. reflexivity.
  - injection H as <-. split; [ | auto 10 ].
    rewrite <- (map_id (cashier_shifts d)) at 2.
    apply Forall2_map_right. exact Hrefl.
Qed.

(** Every table after a committed payment, for each version. *)
Lemma payment_fields (req : Req.record_payment) (d d1 d2 d' : db)
    (p : payment) (seen : db) :
  insert_payment req d = Ok (p, d1) ->
  update_shift_sales req d1 = Ok d2 ->
  completion_check (Req.rp_order_id req) seen d2 = Ok d' ->
  users d' = users d /\ menu_items d' = menu_items d /\
  discounts d' = discounts d /\ order_items d' = order_items d /\
  order_discounts d' = order_discounts d /\
  payments d' = payments d ++ [p] /\
  orders_order_id_seq d' = orders_order_id_seq d /\
  cashier_shifts_shift_id_seq d' = cashier_shifts_shift_id_seq d /\
  (orders d' = orders d \/
   orders d' = complete_order (Req.rp_order_id req) (orders d)) /\
  Forall2 same_but_sales (cashier_shifts d) (cashier_shifts d') /\
  In (p_order_id p) (order_ids d) /\ known_user d (p_cashier_id p) /\
  p_cashier_id p = Req.rp_cashier_id req.
Proof.
  intros Hi Hs Hc.
  assert (Hcash : known_user d (p_cashier_id p) /\
                  p_cashier_id p = Req.rp_cashier_id req).
  { unfold insert_payment in Hi.
    inv_bind Hi. inv_bind Hi. inv_bind Hi. inv_bind Hi. inv_bind Hi. inv_bind Hi.
    injection Hi as <- _. simpl. split; [ | reflexivity ].
    match goal with
    | Hu : references_user _ _ = Ok _ |- _ => apply (references_user_known _ _ _ Hu)
    end. }
  apply insert_payment_Ok in Hi.
  destruct Hi as (-> & _ & _ & Hpid & _ & Hex).
  pose proof (update_shift_sales_frame _ _ _ Hs) as (Ho & Hp & Hoi & Hseq).
  apply update_shift_sales_same_but_sales in Hs.
  destruct Hs as (Hsh & Hu & Hm & Hd & Hod & Hseq2).
  pose proof (completion_check_frame _ _ _ _ Hc) as (Hoi' & Hseq' & Hcase).
  unfold completion_check in Hc.
  destruct (find _ (orders seen)); [ | discriminate ].
  simpl in *.
  rewrite Hpid. apply existsb_order_ids in Hex.
  destruct (Qle_bool _ _); injection Hc as <-; simpl;
    rewrite ?Hu, ?Hm, ?Hd, ?Hod, ?Hp, ?Hoi, ?Hseq, ?Hseq2, ?Ho;
    repeat (split; [ reflexivity || auto | ]); tauto.
Qed.

Lemma same_but_sales_keys (l l' : list cashier_shift) :
  Forall2 same_but_sales l l' ->
  map shift_id l' = map shift_id l /\ map user_id l' = map user_id l.
Proof.
  induction 1 as [ | s s' l l' Hs _ [ IH1 IH2 ] ]; simpl; [ auto | ].
  rewrite IH1, IH2, Hs. simpl. auto.
Qed.

Lemma Forall_keys_transfer (d : db) (seq : Z) (l l' : list cashier_shift) :
  map shift_id l' = map shift_id l -> map user_id l' = map user_id l ->
  Forall (fun s => shift_id s < seq /\ In (user_id s) (users d)) l ->
  Forall (fun s => shift_id s < seq /\ In (user_id s) (users d)) l'.
Proof.
  revert l'. induction l as [ | s l IH ]; intros [ | s' l' ] H1 H2 H;
    try discriminate; constructor.
  - inversion H as [ | ? ? Hs _ ]; subst. simpl in H1, H2.
    injection H1 as -> _. injection H2 as -> _. exact Hs.
  - inversion H as [ | ? ? _ Hl ]; subst. simpl in H1, H2.
    injection H1 as _ H1. injection H2 as _ H2. apply IH; assumption.
Qed.

Lemma payment_keeps_integrity (req : Req.record_payment) (d d1 d2 d' : db)
    (p : payment) (seen : db) :
  integrity d ->
  insert_payment req d = Ok (p, d1) ->
  update_shift_sales req d1 = Ok d2 ->
  completion_check (Req.rp_order_id req) seen d2 = Ok d' ->
  integrity d'.
Proof.
  intros (Hnd & Hord & Hoi & Hpay & Hod & Hsnd & Hsh) Hi Hs Hc.
  destruct (payment_fields _ _ _ _ _ _ _ Hi Hs Hc)
    as (Hu & Hm & Hd & Hoi' & Hod' & Hp & Hseq & Hseq2 & Horders & Hshifts &
        Hpin & Hpu & _).
  apply same_but_sales_keys in Hshifts. destruct Hshifts as [ Hk1 Hk2 ].
  assert (Hids : order_ids d' = order_ids d).
  { unfold order_ids. destruct Horders as [ -> | -> ]; [ reflexivity | ].
    unfold complete_order. apply map_rewrite_same. intros x.
    destruct (order_id x =? _); reflexivity. }
  unfold integrity, menu_ids, discount_ids, known_user in *.
  rewrite Hids, Hu, Hm, Hd, Hoi', Hod', Hp, Hseq, Hseq2, Hk1.
  split_integrity; auto.
  - destruct Horders as [ -> | -> ]; [ exact Hord | ].
    unfold complete_order. apply Forall_map.
    eapply Forall_impl; [ | exact Hord ]. simpl. intros x Hx.
    destruct (order_id x =? _); exact Hx.
  - apply Forall_app. split; [ exact Hpay | ]. constructor; [ | constructor ].
    split; assumption.
  - apply (Forall_keys_transfer d _ (cashier_shifts d)); assumption.
Qed.

(** A value taken from a sequence keeps the constraints. *)
Lemma nextval_keeps_integrity (d : db) :
  integrity d ->
  integrity (nextval_order_id d) /\ integrity (nextval_shift_id d).
Proof.
  intros (Hnd & Hord & Hoi & Hpay & Hod & Hsnd & Hsh).
  unfold integrity, nextval_order_id, nextval_shift_id, order_ids, menu_ids,
    discount_ids, known_user in *. simpl.
  split; split_integrity; auto.
  - eapply Forall_impl; [ | exact Hord ]. simpl. intros o [ H1 H2 ].
    split; [ lia | exact H2 ].
  - eapply Forall_impl; [ | exact Hsh ]. simpl. intros s [ H1 H2 ].
    split; [ lia | exact H2 ].
Qed.

Lemma startShift_keeps_integrity (req : Req.start_shift) (d : db) :
  integrity d -> integrity (fst (startShift req d)).
Proof.
  intros Hint. unfold startShift.
  destruct (filter _ (cashier_shifts d)); [ | exact Hint ].
  destruct (decimal_10_2 _) as [ c | ]; [ | exact Hint ].
  destruct (references_user (Some (Req.ss_user_id req)) d) eqn:Hu;
    [ | destruct (int4 _);
        [ apply nextval_keeps_integrity; exact Hint | exact Hint ] ].
  apply references_user_known in Hu. specialize (Hu _ eq_refl).
  destruct Hint as (Hnd & Hord & Hoi & Hpay & Hod & Hsnd & Hsh).
  unfold integrity, order_ids, menu_ids, discount_ids, known_user in *. simpl.
  split_integrity; auto.
  - rewrite map_app. simpl. apply NoDup_snoc; [ exact Hsnd | ].
    intros Hin. apply in_map_iff in Hin. destruct Hin as (s & E & Hs).
    rewrite Forall_forall in Hsh. destruct (Hsh s Hs) as [ Hlt _ ]. lia.
  - apply Forall_app. split.
    + eapply Forall_impl; [ | exact Hsh ]. simpl. intros s [ H1 H2 ].
      split; [ lia | exact H2 ].
    + constructor; [ simpl; split; [ lia | exact Hu ] | constructor ].
Qed.

Lemma shifts_rewrite_keeps_integrity (d : db) (f : cashier_shift -> cashier_shift) :
  (forall s, shift_id (f s) = shift_id s /\ user_id (f s) = user_id s) ->
  integrity d ->
  integrity (set_cashier_shifts (map f (cashier_shifts d))
                                (cashier_shifts_shift_id_seq d) d).
Proof.
  intros Hf (Hnd & Hord & Hoi & Hpay & Hod & Hsnd & Hsh).
  unfold integrity, order_ids, menu_ids, discount_ids, known_user in *. simpl.
  split_integrity; auto.
  - rewrite map_rewrite_same by (intros s; apply Hf). exact Hsnd.
  - apply Forall_map. eapply Forall_impl; [ | exact Hsh ]. simpl.
    intros s Hs. destruct (Hf s) as [ -> -> ]. exact Hs.
Qed.

Lemma endShift_keeps_integrity (req : Req.end_shift) (now : Z) (d : db) :
  integrity d -> integrity (fst (endShift req now d)).
Proof.
  intros Hint. unfold endShift.
  destruct (find _ (cashier_shifts d)); [ | exact Hint ].
  destruct (decimal_10_2_opt _); simpl; [ | exact Hint ].
  apply shifts_rewrite_keeps_integrity; [ | exact Hint ].
  intros s. destruct ((shift_id s =? _) && _); simpl; auto.
Qed.

Lemma adjustShift_keeps_integrity (req : Req.adjust_shift) (d : db) :
  integrity d -> integrity (fst (adjustShift req d)).
Proof.
  intros Hint. unfold adjustShift.
  destruct (find _ (cashier_shifts d)); [ | exact Hint ].
  destruct (bind _ _) as [ [ [ [ v1 v2 ] v3 ] v4 ] | ]; simpl; [ | exact Hint ].
  apply shifts_rewrite_keeps_integrity; [ | exact Hint ].
  intros s. destruct (shift_id s =? _); simpl; auto.
Qed.

Lemma handle_keeps_integrity (r : request) (d : db) :
  integrity d -> integrity (fst (handle r d)).
Proof.
  intros Hint.
  destruct r as [ req | req | id st | id | req | req | req | req now | req ];
    simpl.
  - destruct (createOrder_failed req d) as [ [ id H ] | (_ & [ H | H ]) ].
    + exact (createOrder_keeps_integrity req d _ id Hint H).
    + rewrite H. exact Hint.
    + rewrite H. apply nextval_keeps_integrity. exact Hint.
  - unfold updateOrder.
    destruct (updateOrder_tx req d) as [ [ [ o | ] d' ] | ] eqn:E;
      simpl; try exact Hint.
    apply (updateOrder_keeps_integrity req d d' o Hint).
    unfold updateOrder. rewrite E. reflexivity.
  - apply setStatus_keeps_integrity. exact Hint.
  - apply deleteOrder_keeps_integrity. exact Hint.
  - destruct (payment_response_cases d (recordPayment_tx req d))
      as [ H | (d' & p & _ & H) ]; unfold recordPayment; rewrite H; simpl;
      [ exact Hint | ].
    apply recordPayment_steps in H. destruct H as (d1 & d2 & Hi & Hs & Hc).
    exact (payment_keeps_integrity req d d1 d2 d' p d2 Hint Hi Hs Hc).
  - destruct (payment_response_cases d (recordPayment_auth_tx req d))
      as [ H | (d' & p & _ & H) ]; unfold recordPayment_auth; rewrite H; simpl;
      [ exact Hint | ].
    apply recordPayment_auth_steps in H. destruct H as (d1 & d2 & Hi & Hs & Hc).
    exact (payment_keeps_integrity req d d1 d2 d' p d Hint Hi Hs Hc).
  - apply startShift_keeps_integrity. exact Hint.
  - apply endShift_keeps_integrity. exact Hint.
  - apply adjustShift_keeps_integrity. exact Hint.
Qed.

Lemma run_keeps_integrity (rs : list request) (d : db) :
  integrity d -> integrity (run rs d).
Proof.
  revert d. induction rs as [ | r rs IH ]; simpl; intros d Hint;
    [ exact Hint | apply IH, handle_keeps_integrity, Hint ].
Qed.

Lemma deleteMenuItem_keeps_integrity (i : Z) (d : db) :
  integrity d -> integrity (fst (deleteMenuItem i d)).
Proof.
  intros Hint. unfold deleteMenuItem.
  destruct (existsb _ (menu_items d)); [ | exact Hint ].
  destruct (existsb _ (order_items d)) eqn:Hrows; [ exact Hint | ].
  destruct Hint as (Hnd & Hord & Hoi & Hpay & Hod & Hsnd & Hsh).
  unfold integrity, order_ids, menu_ids, discount_ids, known_user in *. simpl.
  split_integrity; auto.
  rewrite Forall_forall in Hoi. apply Forall_forall. intros r Hr.
  destruct (Hoi r Hr) as [ H1 H2 ]. split; [ exact H1 | ].
  apply in_map_iff in H2. destruct H2 as (m & E & Hm).
  apply in_map_iff. exists m. split; [ exact E | ].
  apply filter_In. split; [ exact Hm | ].
  apply negb_true_iff, Z.eqb_neq. intros Hi.
  assert (Hex : existsb (fun r => oi_item_id r =? i) (order_items d) = true).
  { apply (existsb_In _ _ r Hr). apply Z.eqb_eq. lia. }
  congruence.
Qed.

Lemma deleteDiscount_keeps_integrity (k : Z) (d : db) :
  integrity d -> integrity (fst (deleteDiscount k d)).
Proof.
  intros Hint. unfold deleteDiscount.
  destruct (existsb _ (discounts d)); [ | exact Hint ].
  destruct (existsb _ (order_discounts d)) eqn:Hrows; [ exact Hint | ].
  destruct Hint as (Hnd & Hord & Hoi & Hpay & Hod & Hsnd & Hsh).
  unfold integrity, order_ids, menu_ids, discount_ids, known_user in *. simpl.
  split_integrity; auto.
  rewrite Forall_forall in Hod. apply Forall_forall. intros r Hr.
  destruct (Hod r Hr) as (H1 & H2 & H3). split; [ exact H1 | ].
  split; [ | exact H3 ].
  apply in_map_iff in H2. destruct H2 as (x & E & Hx).
  apply in_map_iff. exists x. split; [ exact E | ].
  apply filter_In. split; [ exact Hx | ].
  apply negb_true_iff, Z.eqb_neq. intros Hi.
  assert (Hex : existsb (fun r => od_discount_id r =? k) (order_discounts d) = true).
  { apply (existsb_In _ _ r Hr). apply Z.eqb_eq. lia. }
  congruence.
Qed.

Lemma fresh_integrity (us : list Z) (menu : list menu_item) (ds : list discount) :
  integrity (fresh us menu ds).
Proof.
  unfold integrity, fresh, order_ids. simpl. split_integrity; constructor.
Qed.

(** X8: keys and references hold throughout.  Starting from a database in
    which primary keys are unique and every reference names an existing
    row (an empty one is such), this is so again after any sequence of
    requests, and after deleting a menu item or a discount: no order line,
    payment or applied discount is ever left pointing at a missing order,
    menu item, discount or user. *)
Theorem X8_keys_and_references (d : db) :
  integrity d ->
  (forall rs, integrity (run rs d)) /\
  (forall i, integrity (fst (deleteMenuItem i d))) /\
  (forall k, integrity (fst (deleteDiscount k d))).
Proof.
  intros Hint. split; [ | split ].
  - intros rs. apply run_keeps_integrity. exact Hint.
  - intros i. apply deleteMenuItem_keeps_integrity. exact Hint.
  - intros k. apply deleteDiscount_keeps_integrity. exact Hint.
Qed.

(** ** Deleting an order *)

Lemma find_filter_other {A : Type} (f g : A -> bool) (l : list A) :
  (forall x, g x = true -> f x = true) -> find g (filter f l) = find g l.
Proof.
  intros H. induction l as [ | x l IH ]; simpl; [ reflexivity | ].
  destruct (f x) eqn:Ef; simpl.
  - destruct (g x); [ reflexivity | exact IH ].
  - destruct (g x) eqn:Eg; [ | exact IH ]. apply H in Eg. congruence.
Qed.

Lemma other_key (id id' : Z) : id' <> id ->
  forall x : Z, (x =? id') = true -> negb (x =? id) = true.
Proof.
  intros Hne x E. apply Z.eqb_eq in E. apply negb_true_iff, Z.eqb_neq. lia.
Qed.

(** X10: deleting an order.  An unknown id is answered 404 and nothing
    changes.  Otherwise the answer is 200 and the order is gone with all
    that referred to it: its detail is 404 and no order line, payment or
    applied discount of it remains, while every other order reads back as
    before with its payments.  The shifts are not touched: the sales
    totals keep the amounts of the payments deleted. *)
Theorem X10_deleteOrder_cascades (id : Z) (d : db) :
  (find_order id d = None -> deleteOrder id d = (d, order_not_found)) /\
  (find_order id d <> None ->
   snd (deleteOrder id d) = order_deleted /\
   getOrderDetail id (fst (deleteOrder id d)) = status_404 "Order not found" /\
   items_of id (fst (deleteOrder id d)) = [] /\
   payments_of id (fst (deleteOrder id d)) = [] /\
   discounts_of id (fst (deleteOrder id d)) = [] /\
   cashier_shifts (fst (deleteOrder id d)) = cashier_shifts d /\
   forall id', id' <> id ->
     getOrderDetail id' (fst (deleteOrder id d)) = getOrderDetail id' d /\
     payments_of id' (fst (deleteOrder id d)) = payments_of id' d).
Proof.
  unfold find_order, deleteOrder. split; intros H.
  - destruct (existsb _ (orders d)) eqn:E; [ | reflexivity ].
    apply existsb_find in E. destruct E as [ o Ho ]. congruence.
  - destruct (existsb _ (orders d)) eqn:E.
    2:{ exfalso. apply H. destruct (find _ (orders d)) as [ o | ] eqn:Ho;
          [ | reflexivity ].
        apply find_some in Ho. destruct Ho as [ Hin Hb ].
        rewrite (existsb_In _ _ o Hin Hb) in E. discriminate. }
    simpl. split; [ reflexivity | ].
    unfold getOrderDetail, items_of, payments_of, discounts_of,
      select_order_discounts. simpl.
    rewrite find_filter_negb, !filter_filter_negb.
    repeat (split; [ reflexivity | ]).
    intros id' Hne. pose proof (other_key id id' Hne) as Hk.
    rewrite find_filter_other by (intros x; apply Hk).
    rewrite !filter_filter_other by (intros x; apply Hk).
    split; reflexivity.
Qed.

(** ** Status *)

Lemma NoDup_map_inj {A : Type} (k : A -> Z) (l : list A) (x y : A) :
  NoDup (map k l) -> In x l -> In y l -> k x = k y -> x = y.
Proof.
  induction l as [ | a l IH ]; simpl; intros Hnd Hx Hy E; [ contradiction | ].
  apply NoDup_cons_iff in Hnd. destruct Hnd as [ Ha Hl ].
  destruct Hx as [ Hx | Hx ], Hy as [ Hy | Hy ].
  - congruence.
  - exfalso. apply Ha. rewrite Hx, E. apply in_map. exact Hy.
  - exfalso. apply Ha. rewrite Hy, <- E. apply in_map. exact Hx.
  - apply IH; assumption.
Qed.

Lemma unique_order (d : db) (id : Z) (o x : order) :
  NoDup (order_ids d) -> find_order id d = Some o ->
  In x (orders d) -> order_id x = id -> x = o.
Proof.
  unfold order_ids, find_order. intros Hnd Hf Hx Hid.
  apply find_some in Hf. destruct Hf as [ Ho E ]. apply Z.eqb_eq in E.
  apply (NoDup_map_inj order_id (orders d)); auto. congruence.
Qed.

Lemma with_status_same (o : order) : with_status (status o) o = o.
Proof. destruct o; reflexivity. Qed.

Lemma map_unchanged {A : Type} (f : A -> A) (l : list A) :
  (forall x, In x l -> f x = x) -> map f l = l.
Proof.
  induction l as [ | x l IH ]; simpl; intros H; [ reflexivity | ].
  rewrite H by auto. f_equal. apply IH. auto.
Qed.

Lemma set_orders_same (d : db) :
  set_orders (orders d) (orders_order_id_seq d) d = d.
Proof. destruct d; reflexivity. Qed.

Lemma clip_short (n : nat) (s : string) :
  (String.length s <= n)%nat -> clip n s = (s, EmptyString).
Proof.
  revert n. induction s as [ | c s IH ]; intros n H; [ reflexivity | ].
  simpl in H. cbn [clip]. destruct (continues c).
  - rewrite (IH n) by lia. reflexivity.
  - destruct n as [ | m ]; [ lia | ]. rewrite (IH m) by lia. reflexivity.
Qed.

Lemma varchar_short (n : nat) (s : string) :
  (String.length s <= n)%nat -> varchar n s = Ok s.
Proof. intros H. unfold varchar. rewrite (clip_short n s H). reflexivity. Qed.

(** X11: the status of an order is overwritten without conditions.  For a
    status of at most 50 bytes: an unknown id is answered 404 and nothing
    changes; for a known id the order takes that status, whatever the old
    one and whatever has been paid, and its amounts, its rows, the
    payments and every other order are untouched.  When the ids are unique
    and the order already has the status, every column of the database
    other than the [updated_at] of the order is as before. *)
Theorem X11_setStatus_overwrites (id : Z) (st : string) (d : db) :
  (String.length st <= 50)%nat ->
  (find_order id d = None -> setStatus id st d = (d, order_not_found)) /\
  (forall o, find_order id d = Some o ->
     setStatus id st d =
       (set_orders
          (map (fun x => if order_id x =? id then with_status st x else x)
               (orders d))
          (orders_order_id_seq d) d,
        ok_order (with_status st o)) /\
     find_order id (fst (setStatus id st d)) = Some (with_status st o) /\
     (NoDup (order_ids d) -> status o = st -> fst (setStatus id st d) = d)).
Proof.
  intros Hlen. unfold find_order. split.
  - intros H. unfold setStatus. rewrite H. reflexivity.
  - intros o Hf.
    assert (E : setStatus id st d =
       (set_orders
          (map (fun x => if order_id x =? id then with_status st x else x)
               (orders d))
          (orders_order_id_seq d) d,
        ok_order (with_status st o))).
    { unfold setStatus. rewrite Hf, (varchar_short 50 st Hlen). reflexivity. }
    split; [ exact E | ]. rewrite E. simpl. split.
    + rewrite find_map_same, Hf.
      * simpl. apply find_some in Hf. destruct Hf as [ _ Ho ].
        rewrite Ho. reflexivity.
      * intros x. destruct (order_id x =? id) eqn:Ex; simpl; rewrite ?Ex;
          reflexivity.
    + intros Hnd Hst. rewrite map_unchanged; [ apply set_orders_same | ].
      intros x Hx. destruct (order_id x =? id) eqn:Ex; [ | reflexivity ].
      apply Z.eqb_eq in Ex.
      rewrite (unique_order d id o x Hnd Hf Hx Ex), <- Hst.
      apply with_status_same.
Qed.

(** ** What an update and a payment leave alone *)

(** X12: an update never touches a status.  When an update commits, every
    order keeps its id, its status and its cashier, every order but the
    one updated is exactly as before, and no payment or shift has changed:
    the completion of the order is not looked at again, whatever the new
    final amount. *)
Theorem X12_update_keeps_status (req : Req.update_order) (d d' : db) (o : order) :
  updateOrder req d = (d', ok_order o) ->
  Forall2 (fun x x' => order_id x' = order_id x /\ status x' = status x /\
                       cashier_id x' = cashier_id x /\
                       (order_id x <> Req.uo_id req -> x' = x))
          (orders d) (orders d') /\
  payments d' = payments d /\ cashier_shifts d' = cashier_shifts d /\
  total_paid (Req.uo_id req) d' = total_paid (Req.uo_id req) d.
Proof.
  intros H. apply updateOrder_shape in H.
  destruct H as (its & ods & upd & o0 & -> & _ & _ & Hupd & _).
  simpl. split; [ | auto ].
  apply Forall2_map_right. intros x.
  destruct (order_id x =? Req.uo_id req) eqn:E.
  - destruct (Hupd x) as (-> & -> & -> & _). apply Z.eqb_eq in E.
    repeat split. congruence.
  - auto.
Qed.

Lemma insert_payment_unknown_order (req : Req.record_payment) (d : db) :
  find_order (Req.rp_order_id req) d = None ->
  exists e, insert_payment req d = Err e.
Proof.
  intros H. destruct (insert_payment req d) as [ [ p d1 ] | e ] eqn:E; [ | eauto ].
  apply insert_payment_Ok in E. destruct E as (_ & _ & _ & _ & _ & Hex).
  apply existsb_find in Hex. destruct Hex as [ o Ho ].
  unfold find_order in H. congruence.
Qed.

Lemma insert_payment_unknown_cashier (req : Req.record_payment) (d : db) (u : Z) :
  Req.rp_cashier_id req = Some u -> ~ In u (users d) ->
  exists e, insert_payment req d = Err e.
Proof.
  intros Hc Hu. unfold insert_payment.
  destruct (varchar 50 _); simpl; [ | eauto ].
  destruct (decimal_10_2 _); simpl; [ | eauto ].
  destruct (varchar_opt 100 _); simpl; [ | eauto ].
  destruct (guard (0 <? _) _); simpl; [ | eauto ].
  destruct (references_order _ d); simpl; [ | eauto ].
  destruct (references_user _ d) eqn:E; simpl; [ | eauto ].
  exfalso. apply Hu. apply (references_user_known _ _ _ E). exact Hc.
Qed.

(** X13: a payment that refers to nothing is refused.  When the order does
    not exist, or the cashier_id names no user, both versions of the
    handler fail and leave the database as it was: no payment is recorded
    and no shift is credited. *)
Theorem X13_payment_needs_its_order (req : Req.record_payment) (d : db) :
  find_order (Req.rp_order_id req) d = None \/
  (exists u, Req.rp_cashier_id req = Some u /\ ~ In u (users d)) ->
  recordPayment req d = (d, server_error) /\
  recordPayment_auth req d = (d, server_error).
Proof.
  intros H.
  assert (He : exists e, insert_payment req d = Err e).
  { destruct H as [ H | (u & Hc & Hu) ].
    - apply insert_payment_unknown_order. exact H.
    - apply (insert_payment_unknown_cashier req d u); assumption. }
  destruct He as [ e He ].
  unfold recordPayment, recordPayment_auth, recordPayment_tx,
    recordPayment_auth_tx. rewrite He. split; reflexivity.
Qed.

(** Every table after a committed payment, in terms of the request. *)
Lemma payment_frame (req : Req.record_payment) (d d' : db) (p : payment) :
  recordPayment req d = (d', created p) \/
  recordPayment_auth req d = (d', created p) ->
  payments d' = payments d ++ [p] /\
  users d' = users d /\ menu_items d' = menu_items d /\
  discounts d' = discounts d /\ order_items d' = order_items d /\
  order_discounts d' = order_discounts d /\
  Forall2 (fun x x' => x' = x \/ x' = complete x) (orders d) (orders d') /\
  Forall2 same_but_sales (cashier_shifts d) (cashier_shifts d').
Proof.
  intros H.
  assert (F : exists d1 d2 seen,
            insert_payment req d = Ok (p, d1) /\
            update_shift_sales req d1 = Ok d2 /\
            completion_check (Req.rp_order_id req) seen d2 = Ok d').
  { destruct H as [ H | H ];
      [ apply recordPayment_steps in H | apply recordPayment_auth_steps in H ];
      destruct H as (d1 & d2 & Hi & Hs & Hc); eauto 6. }
  destruct F as (d1 & d2 & seen & Hi & Hs & Hc).
  destruct (payment_fields _ _ _ _ _ _ _ Hi Hs Hc)
    as (Hu & Hm & Hd & Hoi & Hod & Hp & _ & _ & Horders & Hshifts & _).
  repeat (split; [ assumption | ]). split; [ | exact Hshifts ].
  destruct Horders as [ -> | -> ].
  - rewrite <- (map_id (orders d)) at 2. apply Forall2_map_right. auto.
  - unfold complete_order. apply Forall2_map_right. intros x.
    destruct (order_id x =? _); auto.
Qed.

(** X14: what a committed payment changes.  In both versions of the
    handler a payment that commits appends its row to payments, may set
    the status of the order paid to 'completed' and may raise the sales
    totals of shifts; users, menu, discounts, order lines and applied
    discounts are as before, every order keeps its id and its amounts, and
    every shift keeps all its columns but the two sales totals. *)
Theorem X14_payment_frame (req : Req.record_payment) (d d' : db) (p : payment) :
  recordPayment req d = (d', created p) \/
  recordPayment_auth req d = (d', created p) ->
  payments d' = payments d ++ [p] /\
  users d' = users d /\ menu_items d' = menu_items d /\
  discounts d' = discounts d /\ order_items d' = order_items d /\
  order_discounts d' = order_discounts d /\
  Forall2 (fun x x' => x' = x \/ x' = complete x) (orders d) (orders d') /\
  Forall2 same_but_sales (cashier_shifts d) (cashier_shifts d').
Proof. exact (payment_frame req d d' p). Qed.


(** ** The discount of an order *)

Lemma discount_ledger_ext (d d' : db) (f : order -> order) :
  discount_ledger d ->
  orders d' = map f (orders d) ->
  (forall x, order_id (f x) = order_id x /\
             discount_amount (f x) = discount_amount x) ->
  order_discounts d' = order_discounts d ->
  discount_ledger d'.
Proof.
  unfold discount_ledger, applied_sum, discounts_of.
  intros H Ho Hf Hod. rewrite Ho, Hod. apply Forall_map.
  eapply Forall_impl; [ | exact H ]. simpl. intros x Hx.
  destruct (Hf x) as [ -> -> ]. exact Hx.
Qed.

Lemma discount_ledger_same (d d' : db) :
  discount_ledger d -> orders d' = orders d ->
  order_discounts d' = order_discounts d -> discount_ledger d'.
Proof.
  intros H Ho Hod. apply (discount_ledger_ext d d' (fun x => x)); auto.
  now rewrite map_id.
Qed.

Lemma discount_ledger_Forall2 (d d' : db) :
  discount_ledger d ->
  Forall2 (fun x x' => x' = x \/ x' = complete x) (orders d) (orders d') ->
  order_discounts d' = order_discounts d ->
  discount_ledger d'.
Proof.
  unfold discount_ledger, applied_sum, discounts_of.
  intros H HR Hod. rewrite Hod. clear Hod.
  induction HR as [ | x x' l l' Hx _ IH ]; [ constructor | ].
  inversion H as [ | ? ? H1 H2 ]; subst. constructor; [ | apply IH; exact H2 ].
  destruct Hx as [ -> | -> ]; exact H1.
Qed.

Lemma createOrder_keeps_ledger (req : Req.create_order) (d d' : db) (id : Z) :
  integrity d -> discount_ledger d ->
  createOrder req d = (d', created_order id) -> discount_ledger d'.
Proof.
  intros (_ & Hord & _ & _ & Hod & _) Hl H.
  apply createOrder_shape in H.
  destruct H as (items & rows & _ & -> & _ & ->).
  unfold discount_ledger, applied_sum, discounts_of in *. simpl.
  apply Forall_app. split; [ exact Hl | ].
  constructor; [ | constructor ]. simpl.
  rewrite (filter_nil _ (order_discounts d)); [ simpl; split; [ lia | reflexivity ] | ].
  intros r Hr. apply Z.eqb_neq. rewrite Forall_forall in Hod, Hord.
  destruct (Hod r Hr) as [ Hin _ ]. unfold order_ids in Hin.
  apply in_map_iff in Hin. destruct Hin as (o & E & Ho).
  destruct (Hord o Ho) as [ Hlt _ ]. lia.
Qed.

Lemma updateOrder_keeps_ledger (req : Req.update_order) (d d' : db) (o : order) :
  discount_ledger d -> updateOrder req d = (d', ok_order o) ->
  discount_ledger d'.
Proof.
  intros Hl H. apply updateOrder_shape in H.
  destruct H as (its & ods & upd & o0 & -> & _ & _ & Hupd & _ & Hods).
  set (id := Req.uo_id req) in *.
  assert (Hmine : Nat.le (List.length (filter (fun r => od_order_id r =? id) ods)) 1 /\
                  discount_amount o =
                  fold_right Z.add 0
                    (map applied_value (filter (fun r => od_order_id r =? id) ods))).
  { destruct (truthy (Req.uo_discount_id req)) as [ k | ].
    - destruct (select_active_discount k d).
      + destruct Hods as [ -> -> ]. rewrite filter_filter_negb. simpl. lia.
      + destruct Hods as [ -> _ ].
        rewrite filter_app, filter_filter_negb. simpl. rewrite Z.eqb_refl.
        simpl. lia.
    - destruct Hods as [ -> -> ]. rewrite filter_filter_negb. simpl. lia. }
  assert (Hother : forall i, i <> id ->
            filter (fun r => od_order_id r =? i) ods =
            filter (fun r => od_order_id r =? i) (order_discounts d)).
  { intros i Hi.
    assert (Hkeep : filter (fun r => od_order_id r =? i)
                      (filter (fun r => negb (od_order_id r =? id))
                              (order_discounts d)) =
                    filter (fun r => od_order_id r =? i) (order_discounts d))
      by (apply filter_filter_other; intros r; apply other_key; exact Hi).
    destruct (truthy (Req.uo_discount_id req)) as [ k | ].
    - destruct (select_active_discount k d).
      + destruct Hods as [ -> _ ]. exact Hkeep.
      + destruct Hods as [ -> _ ]. rewrite filter_app, Hkeep. simpl.
        assert (E : (id =? i) = false) by (apply Z.eqb_neq; lia).
        rewrite E. apply app_nil_r.
    - destruct Hods as [ -> _ ]. exact Hkeep. }
  unfold discount_ledger, applied_sum, discounts_of in *. simpl.
  apply Forall_map. eapply Forall_impl; [ | exact Hl ]. simpl. intros x Hx.
  destruct (order_id x =? id) eqn:E.
  - apply Z.eqb_eq in E. destruct (Hupd x) as (-> & _ & _ & ->).
    rewrite E. exact Hmine.
  - apply Z.eqb_neq in E. rewrite (Hother _ E). exact Hx.
Qed.

Lemma deleteOrder_keeps_ledger (id : Z) (d : db) :
  discount_ledger d -> discount_ledger (fst (deleteOrder id d)).
Proof.
  intros Hl. unfold deleteOrder.
  destruct (existsb _ (orders d)); [ | exact Hl ].
  unfold discount_ledger, applied_sum, discounts_of in *. simpl.
  rewrite Forall_forall in Hl. apply Forall_forall. intros o Ho.
  apply filter_In in Ho. destruct Ho as [ Ho Hne ].
  rewrite filter_filter_other; [ apply Hl; exact Ho | ].
  intros r Hr. apply Z.eqb_eq in Hr. rewrite Hr. exact Hne.
Qed.

Lemma handle_keeps_ledger (r : request) (d : db) :
  integrity d -> discount_ledger d -> discount_ledger (fst (handle r d)).
Proof.
  intros Hint Hl.
  destruct r as [ req | req | id st | id | req | req | req | req now | req ];
    simpl.
  - destruct (createOrder_failed req d) as [ [ id H ] | (_ & [ H | H ]) ].
    + exact (createOrder_keeps_ledger req d _ id Hint Hl H).
    + rewrite H. exact Hl.
    + rewrite H. apply (discount_ledger_same d _ Hl); reflexivity.
  - unfold updateOrder.
    destruct (updateOrder_tx req d) as [ [ [ o | ] d' ] | ] eqn:E;
      simpl; try exact Hl.
    apply (updateOrder_keeps_ledger req d d' o Hl).
    unfold updateOrder. rewrite E. reflexivity.
  - unfold setStatus. destruct (find _ (orders d)); [ | exact Hl ].
    destruct (varchar 50 st); [ | exact Hl ]. simpl.
    eapply (discount_ledger_ext d _ _ Hl); try reflexivity.
    intros x. cbv beta. destruct (order_id x =? id); simpl; auto.
  - apply deleteOrder_keeps_ledger. exact Hl.
  - destruct (payment_response_cases d (recordPayment_tx req d))
      as [ H | (d' & p & _ & H) ]; unfold recordPayment; rewrite H; simpl;
      [ exact Hl | ].
    destruct (payment_frame req d d' p (or_introl H))
      as (_ & _ & _ & _ & _ & Hod & Ho & _).
    apply (discount_ledger_Forall2 d d' Hl Ho Hod).
  - destruct (payment_response_cases d (recordPayment_auth_tx req d))
      as [ H | (d' & p & _ & H) ]; unfold recordPayment_auth; rewrite H; simpl;
      [ exact Hl | ].
    destruct (payment_frame req d d' p (or_intror H))
      as (_ & _ & _ & _ & _ & Hod & Ho & _).
    apply (discount_ledger_Forall2 d d' Hl Ho Hod).
  - apply (discount_ledger_same d _ Hl).
    + unfold startShift. destruct (filter _ (cashier_shifts d)); [ | reflexivity ].
      destruct (decimal_10_2 _); [ | reflexivity ].
      destruct (references_user _ d); [ reflexivity | ].
      destruct (int4 _); reflexivity.
    + unfold startShift. destruct (filter _ (cashier_shifts d)); [ | reflexivity ].
      destruct (decimal_10_2 _); [ | reflexivity ].
      destruct (references_user _ d); [ reflexivity | ].
      destruct (int4 _); reflexivity.
  - apply (discount_ledger_same d _ Hl).
    + unfold endShift. destruct (find _ (cashier_shifts d)); [ | reflexivity ].
      destruct (decimal_10_2_opt _); reflexivity.
    + unfold endShift. destruct (find _ (cashier_shifts d)); [ | reflexivity ].
      destruct (decimal_10_2_opt _); reflexivity.
  - apply (discount_ledger_same d _ Hl).
    + unfold adjustShift. destruct (find _ (cashier_shifts d)); [ | reflexivity ].
      destruct (bind _ _) as [ [ [ [ v1 v2 ] v3 ] v4 ] | ]; reflexivity.
    + unfold adjustShift. destruct (find _ (cashier_shifts d)); [ | reflexivity ].
      destruct (bind _ _) as [ [ [ [ v1 v2 ] v3 ] v4 ] | ]; reflexivity.
Qed.

Lemma run_keeps_ledger (rs : list request) (d : db) :
  integrity d -> discount_ledger d -> discount_ledger (run rs d).
Proof.
  revert d. induction rs as [ | r rs IH ]; simpl; intros d Hint Hl;
    [ exact Hl | ].
  apply IH; [ apply handle_keeps_integrity | apply handle_keeps_ledger ];
    assumption.
Qed.

Lemma fresh_ledger (us : list Z) (menu : list menu_item) (ds : list discount) :
  discount_ledger (fresh us menu ds).
Proof. constructor. Qed.

(** X16: one discount per order.  Starting from a database that satisfies
    the key and reference constraints and in which every order carries at
    most one applied discount whose value is its [discount_amount] (an
    empty database is such), the same holds after any sequence of
    requests: each update replaces the discount of the order, and
    [discount_amount] is always the sum of the values attached. *)
Theorem X16_one_discount_per_order (rs : list request) (d : db) (o : order) :
  integrity d -> discount_ledger d ->
  In o (orders (run rs d)) ->
  (List.length (discounts_of (order_id o) (run rs d)) <= 1)%nat /\
  discount_amount o = applied_sum (order_id o) (run rs d).
Proof.
  intros Hint Hl Ho.
  pose proof (run_keeps_ledger rs d Hint Hl) as H.
  unfold discount_ledger in H. rewrite Forall_forall in H. exact (H o Ho).
Qed.

(** ** Amounts *)

Lemma order_handlers_frame (r : request) (d : db) :
  match r with
  | CreateOrder _ | UpdateOrder _ | SetStatus _ _ => True
  | _ => False
  end ->
  payments (fst (handle r d)) = payments d /\
  cashier_shifts (fst (handle r d)) = cashier_shifts d.
Proof.
  destruct r as [ req | req | id st | id | req | req | req | req now | req ];
    simpl; intros H; try contradiction.
  - split; [ | apply createOrder_shifts ].
    destruct (createOrder_failed req d) as [ [ id Hc ] | (_ & [ Hc | Hc ]) ].
    + apply createOrder_shape in Hc.
      destruct Hc as (items & rows & _ & _ & _ & ->). reflexivity.
    + rewrite Hc. reflexivity.
    + rewrite Hc. reflexivity.
  - split; [ | apply updateOrder_shifts ].
    destruct (updateOrder req d) as [ d' resp ] eqn:E. simpl.
    unfold updateOrder in E.
    destruct (updateOrder_tx req d) as [ [ [ o | ] d2 ] | ] eqn:Etx;
      injection E as <- <-; try reflexivity.
    assert (Hc : updateOrder req d = (d2, ok_order o))
      by (unfold updateOrder; rewrite Etx; reflexivity).
    apply updateOrder_shape in Hc.
    destruct Hc as (its & ods & upd & o0 & -> & _). reflexivity.
  - unfold setStatus. destruct (find _ (orders d)); [ | auto ].
    destruct (varchar 50 st); auto.
Qed.

Lemma shift_handlers_payments (r : request) (d : db) :
  match r with
  | StartShift _ | EndShift _ _ | AdjustShift _ => True
  | _ => False
  end ->
  payments (fst (handle r d)) = payments d.
Proof.
  destruct r as [ req | req | id st | id | req | req | req | req now | req ];
    simpl; intros H; try contradiction.
  - unfold startShift. destruct (filter _ (cashier_shifts d)); [ | reflexivity ].
    destruct (decimal_10_2 _); [ | reflexivity ].
    destruct (references_user _ d); [ reflexivity | ].
    destruct (int4 _); reflexivity.
  - unfold endShift. destruct (find _ (cashier_shifts d)); [ | reflexivity ].
    destruct (decimal_10_2_opt _); reflexivity.
  - unfold adjustShift. destruct (find _ (cashier_shifts d)); [ | reflexivity ].
    destruct (bind _ _) as [ [ [ [ v1 v2 ] v3 ] v4 ] | ]; reflexivity.
Qed.

(** A committed payment, either version, in one statement. *)
Lemma payment_committed (req : Req.record_payment) (d d' : db) (p : payment) :
  recordPayment req d = (d', created p) \/
  recordPayment_auth req d = (d', created p) ->
  exists d1 d2 seen,
    insert_payment req d = Ok (p, d1) /\
    update_shift_sales req d1 = Ok d2 /\
    completion_check (Req.rp_order_id req) seen d2 = Ok d'.
Proof.
  intros [ H | H ];
    [ apply recordPayment_steps in H | apply recordPayment_auth_steps in H ];
    destruct H as (d1 & d2 & Hi & Hs & Hc); eauto 6.
Qed.

Lemma payment_amounts (req : Req.record_payment) (d d' : db) (p : payment) :
  sales_nonneg d ->
  recordPayment req d = (d', created p) \/
  recordPayment_auth req d = (d', created p) ->
  0 < amount p /\ payments d' = payments d ++ [p] /\
  p_cashier_id p = Req.rp_cashier_id req /\
  cashier_shifts d' =
    match truthy (Req.rp_cashier_id req) with
    | Some cashier =>
        on_active_shifts cashier
          (if String.eqb (toLowerCase (Req.rp_payment_method req)) "cash"
           then credit_cash (amount p) else credit_card (amount p))
          (cashier_shifts d)
    | None => cashier_shifts d
    end.
Proof.
  intros Hnn H. apply payment_committed in H.
  destruct H as (d1 & d2 & seen & Hi & Hs & Hc).
  destruct (committed_shifts req d d1 d2 d' p seen Hnn Hi Hs Hc) as [ Hp Hsh ].
  destruct (payment_fields _ _ _ _ _ _ _ Hi Hs Hc)
    as (_ & _ & _ & _ & _ & _ & _ & _ & _ & _ & _ & _ & Hcash).
  apply insert_payment_Ok in Hi. destruct Hi as (_ & _ & Hpos & _).
  auto.
Qed.

Lemma on_active_shifts_nonneg (cashier paid : Z) (cash : bool)
    (l : list cashier_shift) :
  0 < paid ->
  Forall (fun s => 0 <= sales_amount_cash s /\ 0 <= sales_amount_card s) l ->
  Forall (fun s => 0 <= sales_amount_cash s /\ 0 <= sales_amount_card s)
         (on_active_shifts cashier
            (if cash then credit_cash paid else credit_card paid) l).
Proof.
  intros Hp H. unfold on_active_shifts. apply Forall_map.
  eapply Forall_impl; [ | exact H ]. simpl. intros s [ H1 H2 ].
  destruct (is_active_shift_of cashier s); [ | auto ].
  destruct cash; simpl; split; lia.
Qed.

Lemma handle_keeps_amounts (r : request) (d : db) :
  sales_nonneg d -> payments_positive d ->
  sales_nonneg (fst (handle r d)) /\ payments_positive (fst (handle r d)).
Proof.
  intros Hnn Hpp. unfold sales_nonneg, payments_positive in *.
  destruct r as [ req | req | id st | id | req | req | req | req now | req ].
  - destruct (order_handlers_frame (CreateOrder req) d I) as [ -> -> ]. auto.
  - destruct (order_handlers_frame (UpdateOrder req) d I) as [ -> -> ]. auto.
  - destruct (order_handlers_frame (SetStatus id st) d I) as [ -> -> ]. auto.
  - simpl. unfold deleteOrder. destruct (existsb _ (orders d)); [ | auto ].
    simpl. split; [ exact Hnn | apply Forall_filter; exact Hpp ].
  - simpl.
    destruct (payment_response_cases d (recordPayment_tx req d))
      as [ H | (d' & p & _ & H) ]; unfold recordPayment; rewrite H; simpl;
      [ auto | ].
    destruct (payment_amounts req d d' p Hnn (or_introl H))
      as (Hpos & -> & _ & ->).
    split; [ | apply Forall_app; split; [ exact Hpp | constructor; auto ] ].
    destruct (truthy _); [ | exact Hnn ].
    apply on_active_shifts_nonneg; assumption.
  - simpl.
    destruct (payment_response_cases d (recordPayment_auth_tx req d))
      as [ H | (d' & p & _ & H) ]; unfold recordPayment_auth; rewrite H; simpl;
      [ auto | ].
    destruct (payment_amounts req d d' p Hnn (or_intror H))
      as (Hpos & -> & _ & ->).
    split; [ | apply Forall_app; split; [ exact Hpp | constructor; auto ] ].
    destruct (truthy _); [ | exact Hnn ].
    apply on_active_shifts_nonneg; assumption.
  - rewrite (shift_handlers_payments (StartShift req) d I).
    split; [ | exact Hpp ]. simpl.
    unfold sales_nonneg.
    destruct (startShift_cases req d) as [ -> | [ _ -> ] ]; [ exact Hnn | ].
    apply Forall_app. split; [ exact Hnn | ].
    constructor; [ simpl; lia | constructor ].
  - rewrite (shift_handlers_payments (EndShift req now) d I).
    split; [ | exact Hpp ]. simpl. unfold endShift.
    destruct (find _ (cashier_shifts d)); [ | exact Hnn ].
    destruct (decimal_10_2_opt _); simpl; [ | exact Hnn ].
    apply Forall_map. eapply Forall_impl; [ | exact Hnn ]. simpl.
    intros s Hs. destruct ((shift_id s =? _) && _); exact Hs.
  - rewrite (shift_handlers_payments (AdjustShift req) d I).
    split; [ | exact Hpp ]. simpl. unfold adjustShift.
    destruct (find _ (cashier_shifts d)); [ | exact Hnn ].
    destruct (bind _ _) as [ [ [ [ v1 v2 ] v3 ] v4 ] | ]; simpl; [ | exact Hnn ].
    apply Forall_map. eapply Forall_impl; [ | exact Hnn ]. simpl.
    intros s Hs. destruct (shift_id s =? _); exact Hs.
Qed.

Lemma run_keeps_amounts (rs : list request) (d : db) :
  sales_nonneg d -> payments_positive d ->
  sales_nonneg (run rs d) /\ payments_positive (run rs d).
Proof.
  revert d. induction rs as [ | r rs IH ]; simpl; intros d Hnn Hpp; [ auto | ].
  destruct (handle_keeps_amounts r d Hnn Hpp) as [ H1 H2 ]. apply IH; assumption.
Qed.

(** X17: amounts keep their sign.  If the sales totals of the shifts are
    non-negative and the payments positive (as in an empty database), they
    are so after any sequence of requests: no payment of zero or less is
    ever stored and no sales total ever goes below zero. *)
Theorem X17_amounts_keep_their_sign (rs : list request) (d : db) :
  sales_nonneg d -> payments_positive d ->
  sales_nonneg (run rs d) /\ payments_positive (run rs d).
Proof. exact (run_keeps_amounts rs d). Qed.

(** ** Payments are only appended *)

Lemma handle_appends_payments (r : request) (d : db) :
  keeps_payments r ->
  exists extra, payments (fst (handle r d)) = payments d ++ extra.
Proof.
  intros Hk.
  destruct r as [ req | req | id st | id | req | req | req | req now | req ].
  - destruct (order_handlers_frame (CreateOrder req) d I) as [ -> _ ].
    exists []. now rewrite app_nil_r.
  - destruct (order_handlers_frame (UpdateOrder req) d I) as [ -> _ ].
    exists []. now rewrite app_nil_r.
  - destruct (order_handlers_frame (SetStatus id st) d I) as [ -> _ ].
    exists []. now rewrite app_nil_r.
  - contradiction.
  - simpl.
    destruct (payment_response_cases d (recordPayment_tx req d))
      as [ H | (d' & p & _ & H) ]; unfold recordPayment; rewrite H; simpl.
    + exists []. now rewrite app_nil_r.
    + destruct (payment_frame req d d' p (or_introl H)) as [ -> _ ]. eauto.
  - simpl.
    destruct (payment_response_cases d (recordPayment_auth_tx req d))
      as [ H | (d' & p & _ & H) ]; unfold recordPayment_auth; rewrite H; simpl.
    + exists []. now rewrite app_nil_r.
    + destruct (payment_frame req d d' p (or_intror H)) as [ -> _ ]. eauto.
  - rewrite (shift_handlers_payments (StartShift req) d I).
    exists []. now rewrite app_nil_r.
  - rewrite (shift_handlers_payments (EndShift req now) d I).
    exists []. now rewrite app_nil_r.
  - rewrite (shift_handlers_payments (AdjustShift req) d I).
    exists []. now rewrite app_nil_r.
Qed.

(** X18: payments are append-only.  Whatever the sequence of requests, as
    long as no order is deleted, the payments recorded before are still
    there afterwards, unchanged and in the same order, followed by the new
    ones. *)
Theorem X18_payments_are_only_appended (rs : list request) (d : db) :
  Forall keeps_payments rs ->
  exists extra, payments (run rs d) = payments d ++ extra.
Proof.
  revert d. induction rs as [ | r rs IH ]; simpl; intros d H.
  - exists []. now rewrite app_nil_r.
  - inversion H as [ | ? ? Hr Hrs ]; subst.
    destruct (handle_appends_payments r d Hr) as [ e1 E1 ].
    destruct (IH (fst (handle r d)) Hrs) as [ e2 E2 ].
    exists (e1 ++ e2). rewrite E2, E1, app_assoc. reflexivity.
Qed.

(** ** Shift sales against payments *)

Lemma shift_sales_cons (u : Z) (s : cashier_shift) (l : list cashier_shift) :
  shift_sales u (s :: l) =
  (if user_id s =? u then sales_amount_cash s + sales_amount_card s else 0) +
  shift_sales u l.
Proof.
  unfold shift_sales. simpl. destruct (user_id s =? u); simpl; lia.
Qed.

Lemma active_count_cons (c : Z) (s : cashier_shift) (l : list cashier_shift) :
  Z.of_nat (active_count c (s :: l)) =
  (if is_active_shift_of c s then 1 else 0) + Z.of_nat (active_count c l).
Proof.
  unfold active_count. cbn [filter].
  destruct (is_active_shift_of c s); [ | lia ].
  cbn [List.length]. rewrite Nat2Z.inj_succ. lia.
Qed.

Lemma shift_sales_credit (u cashier paid : Z) (cash : bool)
    (l : list cashier_shift) :
  shift_sales u
    (on_active_shifts cashier
       (if cash then credit_cash paid else credit_card paid) l) =
  shift_sales u l +
  (if u =? cashier then paid * Z.of_nat (active_count cashier l) else 0).
Proof.
  induction l as [ | s l IH ].
  - unfold on_active_shifts, shift_sales, active_count. simpl.
    destruct (u =? cashier); lia.
  - change (on_active_shifts cashier
              (if cash then credit_cash paid else credit_card paid) (s :: l))
      with ((if is_active_shift_of cashier s
             then (if cash then credit_cash paid else credit_card paid) s
             else s)
            :: on_active_shifts cashier
                 (if cash then credit_cash paid else credit_card paid) l).
    rewrite !shift_sales_cons, active_count_cons, IH.
    destruct (is_active_shift_of cashier s) eqn:Ea.
    + unfold is_active_shift_of in Ea. apply andb_true_iff in Ea.
      destruct Ea as [ Ec _ ]. apply Z.eqb_eq in Ec.
      assert (Eu : user_id
                ((if cash then credit_cash paid else credit_card paid) s)
              = user_id s) by (destruct cash; reflexivity).
      rewrite Eu. destruct (user_id s =? u) eqn:E.
      * apply Z.eqb_eq in E.
        assert (E' : (u =? cashier) = true) by (apply Z.eqb_eq; lia).
        rewrite E'.
        destruct cash;
          cbn [credit_cash credit_card sales_amount_cash sales_amount_card];
          lia.
      * assert (E' : (u =? cashier) = false)
          by (apply Z.eqb_neq; apply Z.eqb_neq in E; lia).
        rewrite E'. lia.
    + destruct (user_id s =? u), (u =? cashier); lia.
Qed.

Lemma paid_by_app (u : Z) (l : list payment) (p : payment) :
  paid_by u (l ++ [p]) =
  paid_by u l +
  (match p_cashier_id p with
   | Some c => if c =? u then amount p else 0
   | None => 0
   end).
Proof.
  unfold paid_by. rewrite filter_app, map_app, fold_right_app. simpl.
  assert (G : forall (xs : list Z) (a : Z),
            fold_right Z.add a xs = fold_right Z.add 0 xs + a).
  { induction xs as [ | x xs IHx ]; simpl; intros a; [ lia | ].
    rewrite IHx. lia. }
  destruct (p_cashier_id p) as [ c | ]; simpl.
  - destruct (c =? u); simpl; rewrite G; lia.
  - rewrite G. lia.
Qed.

Lemma truthy_Some (x : option Z) (n : Z) : truthy x = Some n -> x = Some n.
Proof.
  destruct x as [ m | ]; simpl; [ | discriminate ].
  destruct (m =? 0); congruence.
Qed.

Lemma payment_keeps_cover (req : Req.record_payment) (d d' : db) (p : payment) :
  single_active_shift d -> sales_nonneg d -> sales_covered d ->
  recordPayment req d = (d', created p) \/
  recordPayment_auth req d = (d', created p) ->
  sales_covered d'.
Proof.
  intros Hone Hnn Hcov H u.
  destruct (payment_amounts req d d' p Hnn H) as (Hpos & -> & Hc & ->).
  rewrite paid_by_app, Hc. specialize (Hcov u).
  destruct (truthy (Req.rp_cashier_id req)) as [ cashier | ] eqn:Et.
  - apply truthy_Some in Et. rewrite Et.
    rewrite (shift_sales_credit u cashier (amount p)
               (String.eqb (toLowerCase (Req.rp_payment_method req)) "cash")).
    specialize (Hone cashier).
    rewrite (Z.eqb_sym cashier u). destruct (u =? cashier); nia.
  - destruct (Req.rp_cashier_id req) as [ c | ]; [ | lia ].
    destruct (c =? u); lia.
Qed.

Lemma shift_sales_app (u : Z) (l l' : list cashier_shift) :
  shift_sales u (l ++ l') = shift_sales u l + shift_sales u l'.
Proof.
  unfold shift_sales. rewrite filter_app, map_app, fold_right_app.
  induction (map _ (filter _ l)) as [ | x xs IH ]; simpl; lia.
Qed.

Lemma shift_sales_map (u : Z) (f : cashier_shift -> cashier_shift)
    (l : list cashier_shift) :
  (forall s, user_id (f s) = user_id s /\
             sales_amount_cash (f s) = sales_amount_cash s /\
             sales_amount_card (f s) = sales_amount_card s) ->
  shift_sales u (map f l) = shift_sales u l.
Proof.
  intros Hf. unfold shift_sales. induction l as [ | s l IH ]; simpl;
    [ reflexivity | ].
  destruct (Hf s) as (-> & H1 & H2).
  destruct (user_id s =? u); simpl; rewrite ?H1, ?H2, IH; reflexivity.
Qed.

Lemma handle_keeps_cover (r : request) (d : db) :
  keeps_payments r ->
  single_active_shift d -> sales_nonneg d -> sales_covered d ->
  sales_covered (fst (handle r d)).
Proof.
  intros Hk Hone Hnn Hcov.
  destruct r as [ req | req | id st | id | req | req | req | req now | req ].
  - intros u. destruct (order_handlers_frame (CreateOrder req) d I) as [ -> -> ].
    apply Hcov.
  - intros u. destruct (order_handlers_frame (UpdateOrder req) d I) as [ -> -> ].
    apply Hcov.
  - intros u. destruct (order_handlers_frame (SetStatus id st) d I) as [ -> -> ].
    apply Hcov.
  - contradiction.
  - simpl.
    destruct (payment_response_cases d (recordPayment_tx req d))
      as [ H | (d' & p & _ & H) ]; unfold recordPayment; rewrite H; simpl;
      [ exact Hcov | ].
    apply (payment_keeps_cover req d d' p Hone Hnn Hcov). left. exact H.
  - simpl.
    destruct (payment_response_cases d (recordPayment_auth_tx req d))
      as [ H | (d' & p & _ & H) ]; unfold recordPayment_auth; rewrite H; simpl;
      [ exact Hcov | ].
    apply (payment_keeps_cover req d d' p Hone Hnn Hcov). right. exact H.
  - intros u. rewrite (shift_handlers_payments (StartShift req) d I). simpl.
    destruct (startShift_cases req d) as [ -> | [ _ -> ] ]; [ apply Hcov | ].
    rewrite shift_sales_app. specialize (Hcov u).
    unfold shift_sales at 2. simpl.
    destruct (Req.ss_user_id req =? u); simpl; lia.
  - intros u. rewrite (shift_handlers_payments (EndShift req now) d I). simpl.
    unfold endShift. destruct (find _ (cashier_shifts d)); [ | apply Hcov ].
    destruct (decimal_10_2_opt _); simpl; [ | apply Hcov ].
    rewrite shift_sales_map; [ apply Hcov | ].
    intros s. destruct ((shift_id s =? _) && _); simpl; auto.
  - intros u. rewrite (shift_handlers_payments (AdjustShift req) d I). simpl.
    unfold adjustShift. destruct (find _ (cashier_shifts d)); [ | apply Hcov ].
    destruct (bind _ _) as [ [ [ [ v1 v2 ] v3 ] v4 ] | ]; simpl; [ | apply Hcov ].
    rewrite shift_sales_map; [ apply Hcov | ].
    intros s. destruct (shift_id s =? _); simpl; auto.
Qed.

(** X19: sales are never counted twice.  Take a database in which every
    user has at most one open shift, sales totals are non-negative and,
    for every user, the sales recorded on the user's shifts do not exceed
    the payments recorded with that cashier (an empty database is such).
    After any sequence of requests that deletes no order this is still so:
    each payment is credited to at most one shift, once. *)
Theorem X19_sales_never_exceed_payments (rs : list request) (d : db) (u : Z) :
  Forall keeps_payments rs ->
  single_active_shift d -> sales_nonneg d -> payments_positive d ->
  sales_covered d ->
  shift_sales u (cashier_shifts (run rs d)) <= paid_by u (payments (run rs d)).
Proof.
  intros Hk Hone Hnn Hpp Hcov. revert d Hone Hnn Hpp Hcov.
  induction rs as [ | r rs IH ]; simpl; intros d Hone Hnn Hpp Hcov.
  - apply Hcov.
  - inversion Hk as [ | ? ? Hr Hrs ]; subst.
    destruct (handle_keeps_amounts r d Hnn Hpp) as [ Hnn' Hpp' ].
    apply (IH Hrs).
    + apply handle_keeps_single. exact Hone.
    + exact Hnn'.
    + exact Hpp'.
    + apply handle_keeps_cover; assumption.
Qed.
(** ** Shift rows over time *)

Lemma frozen_refl (s : cashier_shift) : frozen s s.
Proof. unfold frozen. auto. Qed.

Lemma frozen_trans (s1 s2 s3 : cashier_shift) :
  frozen s1 s2 -> frozen s2 s3 -> frozen s1 s3.
Proof.
  intros (Hi & Hu & Hc) (Hi' & Hu' & Hc'). unfold frozen.
  split; [ congruence | ]. split; [ congruence | ].
  intros Hend. destruct (Hc Hend) as (He & Ha & Hb).
  destruct Hc' as (He' & Ha' & Hb'); [ congruence | ].
  repeat split; congruence.
Qed.

Lemma Forall2_frozen_refl (l : list cashier_shift) : Forall2 frozen l l.
Proof. induction l; constructor; auto using frozen_refl. Qed.

Lemma shifts_kept_refl (l : list cashier_shift) : shifts_kept l l.
Proof.
  exists l, []. rewrite app_nil_r. split; [ reflexivity | ].
  apply Forall2_frozen_refl.
Qed.

Lemma shifts_kept_same (l l' : list cashier_shift) :
  l' = l -> shifts_kept l l'.
Proof. intros ->. apply shifts_kept_refl. Qed.

Lemma shifts_kept_rows (l l' : list cashier_shift) :
  Forall2 frozen l l' -> shifts_kept l l'.
Proof.
  intros H. exists l', []. rewrite app_nil_r. split; [ reflexivity | exact H ].
Qed.

Lemma Forall2_frozen_trans (l1 l2 l3 : list cashier_shift) :
  Forall2 frozen l1 l2 -> Forall2 frozen l2 l3 -> Forall2 frozen l1 l3.
Proof.
  intros H. revert l3. induction H as [ | a b l1 l2 Hab H IH ]; intros l3 H'.
  - inversion H'. constructor.
  - inversion H' as [ | ? c ? l3' Hbc H'' ]; subst. constructor.
    + exact (frozen_trans _ _ _ Hab Hbc).
    + apply IH. exact H''.
Qed.

Lemma shifts_kept_trans (l1 l2 l3 : list cashier_shift) :
  shifts_kept l1 l2 -> shifts_kept l2 l3 -> shifts_kept l1 l3.
Proof.
  intros (a & b & -> & Hab) (c & e & -> & Hc).
  apply Forall2_app_inv_l in Hc.
  destruct Hc as (c1 & c2 & Hc1 & Hc2 & ->).
  exists c1, (c2 ++ e). rewrite app_assoc. split; [ reflexivity | ].
  exact (Forall2_frozen_trans _ _ _ Hab Hc1).
Qed.

Lemma update_where_Forall2_where {A : Type} (R : A -> A -> Prop)
    (p : A -> bool) (f : A -> result A) (l l' : list A) :
  (forall x, R x x) -> (forall x y, p x = true -> f x = Ok y -> R x y) ->
  update_where p f l = Ok l' -> Forall2 R l l'.
Proof.
  intros Hrefl Hf. revert l'. induction l as [ | x l IH ]; simpl; intros l' H.
  - injection H as <-. constructor.
  - inv_bind H. inv_bind H. injection H as <-. constructor.
    + destruct (p x) eqn:Ep; [ apply Hf; assumption | ].
      injection E as <-. apply Hrefl.
    + apply IH. reflexivity.
Qed.

Lemma active_shift_open (c : Z) (s : cashier_shift) :
  is_active_shift_of c s = true -> shift_end s = None.
Proof.
  unfold is_active_shift_of. intros H. apply andb_true_iff in H.
  destruct H as [ _ H ]. destruct (shift_end s); [ discriminate | reflexivity ].
Qed.

Lemma update_shift_sales_frozen (req : Req.record_payment) (d d' : db) :
  update_shift_sales req d = Ok d' ->
  Forall2 frozen (cashier_shifts d) (cashier_shifts d').
Proof.
  unfold update_shift_sales. intros H.
  destruct (truthy (Req.rp_cashier_id req)) as [ cashier | ].
  - inv_bind H. injection H as <-. simpl.
    destruct (String.eqb _ _);
      (eapply update_where_Forall2_where; [ apply frozen_refl | | exact E ]).
    + intros x y Hx Hy. apply active_shift_open in Hx.
      unfold add_sales_cash in Hy. inv_bind Hy. injection Hy as <-.
      unfold frozen. simpl. repeat split; congruence.
    + intros x y Hx Hy. apply active_shift_open in Hx.
      unfold add_sales_card in Hy. inv_bind Hy. injection Hy as <-.
      unfold frozen. simpl. repeat split; congruence.
  - injection H as <-. apply Forall2_frozen_refl.
Qed.

Lemma payment_keeps_shifts (req : Req.record_payment) (d d' : db) (p : payment) :
  recordPayment req d = (d', created p) \/
  recordPayment_auth req d = (d', created p) ->
  Forall2 frozen (cashier_shifts d) (cashier_shifts d').
Proof.
  intros H. apply payment_committed in H.
  destruct H as (d1 & d2 & seen & Hi & Hs & Hc).
  apply insert_payment_Ok in Hi. destruct Hi as (-> & _).
  apply update_shift_sales_frozen in Hs. simpl in Hs.
  apply completion_check_Ok in Hc. destruct Hc as (o & _ & _ & -> & _).
  exact Hs.
Qed.

Lemma endShift_frozen (req : Req.end_shift) (now : Z) (d : db) :
  Forall2 frozen (cashier_shifts d) (cashier_shifts (fst (endShift req now d))).
Proof.
  unfold endShift.
  destruct (find _ (cashier_shifts d)); [ | apply Forall2_frozen_refl ].
  destruct (decimal_10_2_opt _); simpl; [ | apply Forall2_frozen_refl ].
  apply Forall2_map_right. intros s.
  destruct ((shift_id s =? Req.es_id req) && is_null (shift_end s)) eqn:E;
    [ | apply frozen_refl ].
  apply andb_true_iff in E. destruct E as [ _ E ].
  unfold frozen. simpl. repeat split; destruct (shift_end s);
    try discriminate; congruence.
Qed.

Lemma adjustShift_frozen (req : Req.adjust_shift) (d : db) :
  Forall2 frozen (cashier_shifts d) (cashier_shifts (fst (adjustShift req d))).
Proof.
  unfold adjustShift.
  destruct (find _ (cashier_shifts d)); [ | apply Forall2_frozen_refl ].
  destruct (bind _ _) as [ [ [ [ v1 v2 ] v3 ] v4 ] | ]; simpl;
    [ | apply Forall2_frozen_refl ].
  apply Forall2_map_right. intros s.
  destruct (shift_id s =? Req.as_id req); unfold frozen; simpl; auto.
Qed.

Lemma handle_keeps_shifts (r : request) (d : db) :
  shifts_kept (cashier_shifts d) (cashier_shifts (fst (handle r d))).
Proof.
  destruct r as [ req | req | id st | id | req | req | req | req now | req ].
  - apply shifts_kept_same.
    apply (order_handlers_frame (CreateOrder req) d I).
  - apply shifts_kept_same.
    apply (order_handlers_frame (UpdateOrder req) d I).
  - apply shifts_kept_same.
    apply (order_handlers_frame (SetStatus id st) d I).
  - apply shifts_kept_same. simpl. unfold deleteOrder.
    destruct (existsb _ (orders d)); reflexivity.
  - simpl.
    destruct (payment_response_cases d (recordPayment_tx req d))
      as [ H | (d' & p & _ & H) ]; unfold recordPayment; rewrite H; simpl;
      [ apply shifts_kept_refl | ].
    apply shifts_kept_rows. apply (payment_keeps_shifts req d d' p).
    left. exact H.
  - simpl.
    destruct (payment_response_cases d (recordPayment_auth_tx req d))
      as [ H | (d' & p & _ & H) ]; unfold recordPayment_auth; rewrite H; simpl;
      [ apply shifts_kept_refl | ].
    apply shifts_kept_rows. apply (payment_keeps_shifts req d d' p).
    right. exact H.
  - simpl. destruct (startShift_cases req d) as [ -> | [ _ -> ] ];
      [ apply shifts_kept_refl | ].
    exists (cashier_shifts d), [opened_shift req d].
    split; [ reflexivity | apply Forall2_frozen_refl ].
  - apply shifts_kept_rows. apply endShift_frozen.
  - apply shifts_kept_rows. apply adjustShift_frozen.
Qed.

Lemma run_keeps_shifts (rs : list request) (d : db) :
  shifts_kept (cashier_shifts d) (cashier_shifts (run rs d)).
Proof.
  revert d. induction rs as [ | r rs IH ]; simpl; intros d.
  - apply shifts_kept_refl.
  - exact (shifts_kept_trans _ _ _ (handle_keeps_shifts r d) (IH _)).
Qed.

Lemma Forall2_nth_error {A B : Type} (R : A -> B -> Prop) (l : list A)
    (l' : list B) (n : nat) (a : A) :
  Forall2 R l l' -> nth_error l n = Some a ->
  exists b, nth_error l' n = Some b /\ R a b.
Proof.
  intros H. revert n. induction H as [ | x y l l' Hxy H IH ]; intros n Hn.
  - destruct n; discriminate.
  - destruct n as [ | n ]; simpl in *.
    + injection Hn as <-. eauto.
    + apply IH. exact Hn.
Qed.

(** X20: a shift row stays, and a closed shift is final.  Whatever requests
    are handled, the shift found at a position of the table is still found
    there afterwards with the same key and the same user; and if it was
    closed, with the same end and the same cash and card sales totals: no
    later payment is credited to it and no route opens it again. *)
Theorem X20_closed_shift_is_final (rs : list request) (d : db) (n : nat)
    (s : cashier_shift) :
  nth_error (cashier_shifts d) n = Some s ->
  exists s', nth_error (cashier_shifts (run rs d)) n = Some s' /\
    shift_id s' = shift_id s /\ user_id s' = user_id s /\
    (shift_end s <> None ->
     shift_end s' = shift_end s /\
     sales_amount_cash s' = sales_amount_cash s /\
     sales_amount_card s' = sales_amount_card s).
Proof.
  intros Hn. destruct (run_keeps_shifts rs d) as (l1 & l2 & -> & H).
  destruct (Forall2_nth_error _ _ _ _ _ H Hn) as (s' & Hs' & Hf).
  exists s'. split; [ | exact Hf ].
  rewrite nth_error_app1; [ exact Hs' | ].
  apply nth_error_Some. congruence.
Qed.
(** ** Ending and adjusting a shift *)






Lemma adjusted_refl (req : Req.adjust_shift) (s : cashier_shift) :
  adjusted req s s.
Proof. unfold adjusted. auto 20. Qed.

Lemma decimal_10_2_opt_None (q : option Q) (c : option Z) :
  decimal_10_2_opt q = Ok c -> q = None -> c = None.
Proof. intros H ->. simpl in H. congruence. Qed.

Lemma coalesce_keeps {A : Type} (x old : option A) :
  old <> None -> coalesce x old <> None.
Proof. destruct x; simpl; [ discriminate | auto ]. Qed.

(** X9: what adjusting a shift can do.  Whatever its body and whatever it
    answers, [PUT /api/shifts/:id] leaves the table of shifts with the same
    rows in the same places; a row of another key is untouched; on the row
    of its key the key, the user, the end and both sales totals stay, a
    column whose field the body omits stays, and a column that held a value
    still holds one; no other table changes. *)
Theorem X9_adjustShift_scope (req : Req.adjust_shift) (d : db) :
  Forall2 (adjusted req) (cashier_shifts d)
          (cashier_shifts (fst (adjustShift req d))) /\
  set_cashier_shifts (cashier_shifts d) (cashier_shifts_shift_id_seq d)
                     (fst (adjustShift req d)) = d.
Proof.
  assert (Hsame : Forall2 (adjusted req) (cashier_shifts d) (cashier_shifts d)).
  { rewrite <- (map_id (cashier_shifts d)) at 2.
    apply Forall2_map_right. apply adjusted_refl. }
  unfold adjustShift.
  destruct (find _ (cashier_shifts d));
    [ | split; [ exact Hsame | apply set_cashier_shifts_same ] ].
  destruct (decimal_10_2_opt (Req.as_opening_cash req)) as [ v1 | ] eqn:Eo;
    cbn [bind]; [ | split; [ exact Hsame | apply set_cashier_shifts_same ] ].
  destruct (decimal_10_2_opt (Req.as_closing_cash req)) as [ v2 | ] eqn:Ec;
    cbn [bind]; [ | split; [ exact Hsame | apply set_cashier_shifts_same ] ].
  destruct (decimal_10_2_opt (Req.as_cash_in req)) as [ v3 | ] eqn:Ei;
    cbn [bind]; [ | split; [ exact Hsame | apply set_cashier_shifts_same ] ].
  destruct (decimal_10_2_opt (Req.as_cash_out req)) as [ v4 | ] eqn:Eu;
    cbn [bind]; [ | split; [ exact Hsame | apply set_cashier_shifts_same ] ].
  cbn [fst]. split; [ | destruct d; reflexivity ].
  cbn [cashier_shifts set_cashier_shifts].
  apply Forall2_map_right. intros s.
  destruct (shift_id s =? Req.as_id req) eqn:E; [ | apply adjusted_refl ].
  apply Z.eqb_eq in E. unfold adjusted. simpl.
  split; [ intros Hne; contradiction | ].
  do 5 (split; [ reflexivity | ]).
  split; [ intros H; rewrite (decimal_10_2_opt_None _ _ Eo H); reflexivity | ].
  split; [ intros H; rewrite (decimal_10_2_opt_None _ _ Ec H); reflexivity | ].
  split; [ intros H; rewrite (decimal_10_2_opt_None _ _ Ei H); reflexivity | ].
  split; [ intros H; rewrite (decimal_10_2_opt_None _ _ Eu H); reflexivity | ].
  split; [ intros ->; reflexivity | ].
  split; [ intros ->; reflexivity | ].
  repeat split; apply coalesce_keeps.
Qed.
(** ** The further properties on the scenarios *)

Lemma ex_shop_integrity : integrity ex_shop.
Proof. apply fresh_integrity. Qed.

Lemma ex_shop_ledger : discount_ledger ex_shop.
Proof. apply fresh_ledger. Qed.


Lemma ex_owner_authorized :
  authorized ex_jwt_verify ["owner"%string] (Some "token-of-the-owner"%string).
Proof.
  exists "token-of-the-owner"%string, ex_owner, "owner"%string.
  repeat split; try discriminate. simpl. auto.
Qed.

Lemma ex_cashier_token :
  token_of_role ex_jwt_verify "cashier" (Some "token-of-a-cashier"%string).
Proof.
  exists "token-of-a-cashier"%string, ex_cashier.
  repeat split; discriminate.
Qed.

(** The owner's token deletes an order; no token deletes nothing. *)
Lemma X1_witness :
  route ex_jwt_verify ["owner"%string] (deleteOrder 1)
        (Some "token-of-the-owner"%string) ex_morning =
  deleteOrder 1 ex_morning.
Proof.
  apply (proj1 (X1_route_guard ex_jwt_verify ["owner"%string] (deleteOrder 1)
                  (Some "token-of-the-owner"%string) ex_morning)).
  exact ex_owner_authorized.
Defined.

(** A cashier may not delete an order. *)
Lemma X2_witness :
  serve ex_jwt_verify (Some "token-of-a-cashier"%string) (DeleteOrder 1)
        ex_morning =
  (ex_morning,
   {| code := 403; payload := msg "Access forbidden: Insufficient role" |}).
Proof.
  exact (proj1 (proj2 (X2_roles_of_the_routes ex_jwt_verify
                         (Some "token-of-a-cashier"%string) (DeleteOrder 1)
                         ex_morning))
           ex_cashier_token).
Defined.

(** The summary of the open shift of [ex_morning]. *)
Lemma X3_witness :
  shiftSummary 1 ex_morning = json ex_morning_summary /\
  expected_cash_balance ex_morning_summary =
    opening_cash ex_morning_shift + sales_amount_cash ex_morning_shift +
    or_0 (cash_in ex_morning_shift) - or_0 (cash_out ex_morning_shift).
Proof.
  assert (H : shiftSummary 1 ex_morning = json ex_morning_summary)
    by (vm_compute; reflexivity).
  split; [ exact H | ].
  exact (proj1 (proj2 (proj2 (proj1 (X3_shift_summary 1 ex_morning)
                                ex_morning_summary H)))).
Defined.

(** Scenario C in the summary: 12.15 more is expected in the till. *)
Lemma X4_witness :
  sales_nonneg ex_morning /\
  recordPayment ex_settle_request ex_morning =
    (ex_settled, created ex_settle_row) /\
  shiftSummary 1 ex_morning = json ex_morning_summary /\
  exists s', shiftSummary 1 ex_settled = json s' /\
    expected_cash_balance s' = 10000 + 1215.
Proof.
  pose proof ex_morning_sales_nonneg as Hnn.
  assert (Hp : recordPayment ex_settle_request ex_morning =
               (ex_settled, created ex_settle_row))
    by (vm_compute; reflexivity).
  assert (Hs : shiftSummary 1 ex_morning = json ex_morning_summary)
    by (vm_compute; reflexivity).
  split; [ exact Hnn | ]. split; [ exact Hp | ]. split; [ exact Hs | ].
  destruct (X4_payment_in_shift_summary ex_settle_request ex_morning
              ex_settled ex_settle_row 7 1 ex_morning_summary
              Hnn eq_refl Hp Hs) as (s' & Hs' & He & _).
  exists s'. split; [ exact Hs' | exact He ].
Defined.

(** The espresso of the breakfast cannot be taken off the menu. *)
Lemma X5_witness :
  createOrder (ex_create ex_breakfast) ex_shop =
    (ex_breakfast_ordered, created_order 1) /\
  deleteMenuItem 1 ex_breakfast_ordered = (ex_breakfast_ordered, server_error).
Proof.
  assert (H : createOrder (ex_create ex_breakfast) ex_shop =
              (ex_breakfast_ordered, created_order 1))
    by (vm_compute; reflexivity).
  split; [ exact H | ].
  apply (X5_ordered_item_stays_on_menu ex_shop ex_breakfast_ordered
           (ex_item 1 2 5.00)).
  left. exists (ex_create ex_breakfast), 1, ex_breakfast.
  split; [ exact H | ]. split; [ reflexivity | ]. left. reflexivity.
Defined.

(** Without the bagel on the menu the breakfast is refused. *)
Lemma X6_witness :
  deleteMenuItem 2 ex_shop = (ex_no_bagel, deleted_menu_item) /\
  snd (createOrder (ex_create ex_breakfast) ex_no_bagel) = server_error.
Proof.
  assert (H : deleteMenuItem 2 ex_shop = (ex_no_bagel, deleted_menu_item))
    by (vm_compute; reflexivity).
  split; [ exact H | ].
  apply (proj2 (proj2 (proj2 (X6_deleted_item_cannot_be_ordered
                                2 ex_shop ex_no_bagel H)))
           (ex_create ex_breakfast) ex_breakfast eq_refl).
  apply Exists_cons_tl. apply Exists_cons_hd. reflexivity.
Defined.

(** The discount of [ex_morning] cannot be deleted; the retired one can,
    and is then ignored. *)
Lemma X7_witness :
  updateOrder (ex_update 1 None (Some 1)) ex_ordered =
    (ex_morning, ok_order ex_morning_order) /\
  deleteDiscount 1 ex_morning = (ex_morning, server_error).
Proof.
  assert (H : updateOrder (ex_update 1 None (Some 1)) ex_ordered =
              (ex_morning, ok_order ex_morning_order))
    by (vm_compute; reflexivity).
  split; [ exact H | ].
  apply (proj1 (X7_discount_deletion 1 ex_ordered ex_morning)
           (ex_update 1 None (Some 1)) ex_morning_order ex_ten_percent []
           H eq_refl).
  vm_compute. reflexivity.
Defined.

(** The constraints hold in [ex_morning]. *)
Lemma X8_witness : integrity ex_shop /\ integrity ex_morning.
Proof.
  pose proof ex_shop_integrity as H.
  split; [ exact H | ].
  exact (proj1 (X8_keys_and_references ex_shop H)
           [ StartShift ex_start;
             CreateOrder (ex_create [ex_item 1 2 5.00; ex_item 2 1 3.50]);
             UpdateOrder (ex_update 1 None (Some 1)) ]).
Defined.

(** Deleting the paid order of [ex_settled] takes its payment with it. *)
Lemma X10_witness :
  find_order 1 ex_settled <> None /\
  getOrderDetail 1 (fst (deleteOrder 1 ex_settled)) =
    status_404 "Order not found" /\
  payments_of 1 (fst (deleteOrder 1 ex_settled)) = [].
Proof.
  assert (H : find_order 1 ex_settled <> None)
    by (vm_compute; discriminate).
  split; [ exact H | ].
  destruct (proj2 (X10_deleteOrder_cascades 1 ex_settled) H)
    as (_ & Hd & _ & Hp & _).
  split; [ exact Hd | exact Hp ].
Defined.

(** The order of [ex_fifteen] is declared completed, unpaid. *)
Lemma X11_witness :
  find_order 1 ex_fifteen = Some ex_fifteen_order /\
  find_order 1 (fst (setStatus 1 "completed" ex_fifteen)) =
    Some (with_status "completed" ex_fifteen_order).
Proof.
  assert (H : find_order 1 ex_fifteen = Some ex_fifteen_order)
    by (vm_compute; reflexivity).
  split; [ exact H | ].
  assert (Hlen : (String.length "completed" <= 50)%nat) by (simpl; lia).
  exact (proj1 (proj2 (proj2 (X11_setStatus_overwrites 1 "completed"
                                ex_fifteen Hlen) ex_fifteen_order H))).
Defined.

(** Scenario F through X12. *)
Lemma X12_witness :
  updateOrder ex_twenty_off_request ex_fifteen =
    (fst (updateOrder ex_twenty_off_request ex_fifteen),
     ok_order ex_fifteen_less_twenty) /\
  payments (fst (updateOrder ex_twenty_off_request ex_fifteen)) =
    payments ex_fifteen.
Proof.
  assert (H : updateOrder ex_twenty_off_request ex_fifteen =
              (fst (updateOrder ex_twenty_off_request ex_fifteen),
               ok_order ex_fifteen_less_twenty))
    by (vm_compute; reflexivity).
  split; [ exact H | ].
  exact (proj1 (proj2 (X12_update_keeps_status ex_twenty_off_request
                         ex_fifteen _ ex_fifteen_less_twenty H))).
Defined.

(** A payment on order 1 of a shop without orders. *)
Lemma X13_witness :
  find_order (Req.rp_order_id ex_late_request) ex_shop = None /\
  recordPayment ex_late_request ex_shop = (ex_shop, server_error) /\
  recordPayment_auth ex_late_request ex_shop = (ex_shop, server_error).
Proof.
  split; [ reflexivity | ].
  apply (X13_payment_needs_its_order ex_late_request ex_shop).
  left. reflexivity.
Defined.

(** Scenario C through X14. *)
Lemma X14_witness :
  recordPayment ex_settle_request ex_morning =
    (ex_settled, created ex_settle_row) /\
  payments ex_settled = payments ex_morning ++ [ex_settle_row] /\
  order_items ex_settled = order_items ex_morning.
Proof.
  assert (H : recordPayment ex_settle_request ex_morning =
              (ex_settled, created ex_settle_row))
    by (vm_compute; reflexivity).
  split; [ exact H | ].
  destruct (X14_payment_frame ex_settle_request ex_morning ex_settled
              ex_settle_row (or_introl H)) as (Hp & _ & _ & _ & Hi & _).
  split; [ exact Hp | exact Hi ].
Defined.


(** The order of [ex_morning] carries its one discount. *)
Lemma X16_witness :
  integrity ex_shop /\ discount_ledger ex_shop /\
  In ex_morning_order (orders (run ex_morning_requests ex_shop)) /\
  (List.length
     (discounts_of (order_id ex_morning_order)
                   (run ex_morning_requests ex_shop)) <= 1)%nat /\
  discount_amount ex_morning_order =
    applied_sum (order_id ex_morning_order) (run ex_morning_requests ex_shop).
Proof.
  pose proof ex_shop_integrity as Hint.
  pose proof ex_shop_ledger as Hl.
  assert (E : orders (run ex_morning_requests ex_shop) = [ex_morning_order])
    by (vm_compute; reflexivity).
  assert (Hin : In ex_morning_order (orders (run ex_morning_requests ex_shop)))
    by (rewrite E; left; reflexivity).
  split; [ exact Hint | ]. split; [ exact Hl | ]. split; [ exact Hin | ].
  exact (X16_one_discount_per_order ex_morning_requests ex_shop
           ex_morning_order Hint Hl Hin).
Defined.

(** The amounts of [ex_morning] after the end of the day. *)
Lemma X17_witness :
  sales_nonneg ex_shop /\ payments_positive ex_shop /\
  sales_nonneg (run ex_next_day ex_shop) /\
  payments_positive (run ex_next_day ex_shop).
Proof.
  assert (Hn : sales_nonneg ex_shop) by constructor.
  assert (Hp : payments_positive ex_shop) by constructor.
  split; [ exact Hn | ]. split; [ exact Hp | ].
  exact (X17_amounts_keep_their_sign ex_next_day ex_shop Hn Hp).
Defined.

(** The payments of [ex_evening] stay through the next day. *)
Lemma X18_witness :
  Forall keeps_payments ex_next_day /\
  exists extra,
    payments (run ex_next_day ex_evening) = payments ex_evening ++ extra.
Proof.
  assert (H : Forall keeps_payments ex_next_day)
    by (repeat constructor).
  split; [ exact H | ].
  exact (X18_payments_are_only_appended ex_next_day ex_evening H).
Defined.

(** The sales of user 7 in [ex_morning] and after. *)
Lemma X19_witness :
  Forall keeps_payments
    [ StartShift ex_start; CreateOrder (ex_create ex_breakfast);
      UpdateOrder (ex_update 1 None (Some 1));
      RecordPayment ex_settle_request ] /\
  single_active_shift ex_shop /\ sales_nonneg ex_shop /\
  payments_positive ex_shop /\ sales_covered ex_shop /\
  shift_sales 7
    (cashier_shifts
       (run [ StartShift ex_start; CreateOrder (ex_create ex_breakfast);
              UpdateOrder (ex_update 1 None (Some 1));
              RecordPayment ex_settle_request ] ex_shop)) <=
  paid_by 7
    (payments
       (run [ StartShift ex_start; CreateOrder (ex_create ex_breakfast);
              UpdateOrder (ex_update 1 None (Some 1));
              RecordPayment ex_settle_request ] ex_shop)).
Proof.
  assert (Hk : Forall keeps_payments
                 [ StartShift ex_start; CreateOrder (ex_create ex_breakfast);
                   UpdateOrder (ex_update 1 None (Some 1));
                   RecordPayment ex_settle_request ])
    by (repeat constructor).
  assert (H1 : single_active_shift ex_shop) by apply fresh_single_active.
  assert (Hn : sales_nonneg ex_shop) by constructor.
  assert (Hp : payments_positive ex_shop) by constructor.
  assert (Hc : sales_covered ex_shop) by (intros u; vm_compute; discriminate).
  split; [ exact Hk | ]. split; [ exact H1 | ]. split; [ exact Hn | ].
  split; [ exact Hp | ]. split; [ exact Hc | ].
  exact (X19_sales_never_exceed_payments _ ex_shop 7 Hk H1 Hn Hp Hc).
Defined.

(** The closed shift of [ex_evening] after the next day. *)
Lemma X20_witness :
  nth_error (cashier_shifts ex_evening) 0 = Some ex_evening_shift /\
  exists s', nth_error (cashier_shifts (run ex_next_day ex_evening)) 0 = Some s' /\
    sales_amount_cash s' = 1215 /\ shift_end s' = Some 50.
Proof.
  assert (H : nth_error (cashier_shifts ex_evening) 0 = Some ex_evening_shift)
    by (vm_compute; reflexivity).
  split; [ exact H | ].
  destruct (X20_closed_shift_is_final ex_next_day ex_evening 0
              ex_evening_shift H) as (s' & Hs' & _ & _ & Hc).
  exists s'. split; [ exact Hs' | ].
  destruct Hc as (He & Ha & _); [ discriminate | ].
  split; [ exact Ha | exact He ].
Defined.

